(** * fortinet-tools: the FortiGate operator scripts, embedded in Rocq

    Two Python scripts are embedded here:
    - [upgradeFortigateFirmware.py] (module [Upgrade]): the fleet firmware
      upgrade, one device after the other, in inventory order;
    - [BasicFgtSdwanConfig.py] (module [Sdwan]): the SD-WAN provisioning of
      one device.

    Conventions of the embedding.
    - A Python [str] is a Rocq [string]: a sequence of characters whose code
      points are below 256.  On these, the class [\d] of the [re] module is
      the ten characters 0..9.
    - A value decoded from JSON, and any value whose Python type is only
      known at run time, is a [value].  A JSON object is a finite map
      ([gmap]) from keys to values.
    - An f-string that formats such a value is kept as the list of its
      pieces ([fstring]); [str()] of a [str] is the string itself.
    - Code that prints, reads the console, reads or writes files, or calls
      the REST API runs in the monad [Py]: it threads a [world] and returns
      a value or raises a Python exception. *)

From Stdlib Require Import ZArith String Ascii List Bool Floats Lia.
From stdpp Require Import base option list gmap strings fin_maps.

Set Warnings "-register-all".

Local Open Scope string_scope.
Local Open Scope Z_scope.

(** ** Python values *)

Inductive value : Type :=
| VNone
| VBool (b : bool)
| VInt (z : Z)
| VFloat (f : float)
| VStr (s : string)
| VList (l : list value)
| VDict (d : gmap string value).

(** Python exceptions, by class.  [SystemExit] is the only one here that is
    not an [Exception]. *)
Inductive exn : Type :=
| TypeError
| KeyError
| IndexError
| AttributeError
| ValueError
| UnboundLocalError
| EOFError
| JSONDecodeError
| RequestException
| OSError
| SystemExit (code : Z).

Definition is_Exception (e : exn) : bool :=
  match e with
  | SystemExit _ => false
  | _ => true
  end.

Inductive outcome (A : Type) : Type :=
| Return (a : A)
| Raise (e : exn).
Arguments Return {A} a.
Arguments Raise {A} e.

Definition obind {A B : Type} (o : outcome A) (k : A -> outcome B) : outcome B :=
  match o with
  | Return a => k a
  | Raise e => Raise e
  end.

Notation "'dop' x <- c1 ; c2" := (obind c1 (fun x => c2))
  (at level 10, x name, c1 at level 100, c2 at level 200).

(** [bool(v)]: what [if v], [not v] and [v and w] test. *)
Definition truthy (v : value) : bool :=
  match v with
  | VNone => false
  | VBool b => b
  | VInt z => negb (z =? 0)
  | VFloat f => negb (PrimFloat.eqb f 0%float)
  | VStr s => negb (String.eqb s "")
  | VList l => match l with [] => false | _ :: _ => true end
  | VDict d => negb (bool_decide (d = ∅))
  end.

(** [v == s] for a [str] s: only an equal [str] compares equal. *)
Definition eq_str (v : value) (s : string) : bool :=
  match v with
  | VStr t => String.eqb t s
  | _ => false
  end.

(** [v[k]] for a [str] key. *)
Definition getitem (v : value) (k : string) : outcome value :=
  match v with
  | VDict d => match d !! k with
               | Some x => Return x
               | None => Raise KeyError
               end
  | _ => Raise TypeError
  end.

(** [v.get(k)]: only a dict has the method. *)
Definition dict_get (v : value) (k : string) : outcome value :=
  match v with
  | VDict d => Return (default VNone (d !! k))
  | _ => Raise AttributeError
  end.

Definition chars (s : string) : list string :=
  map (fun a => String a EmptyString) (list_ascii_of_string s).

(** [len(v)]. *)
Definition py_len (v : value) : outcome Z :=
  match v with
  | VStr s => Return (Z.of_nat (String.length s))
  | VList l => Return (Z.of_nat (length l))
  | VDict d => Return (Z.of_nat (size d))
  | _ => Raise TypeError
  end.

(** The elements [for x in v] runs over.  A dict yields its keys. *)
Definition py_iter (v : value) : outcome (list value) :=
  match v with
  | VStr s => Return (map VStr (chars s))
  | VList l => Return l
  | VDict d => Return (map (fun kv => VStr (fst kv)) (map_to_list d))
  | _ => Raise TypeError
  end.

(** [l[i]] on a Python list: a negative index counts from the end. *)
Definition list_index {A : Type} (l : list A) (i : Z) : outcome A :=
  let n := Z.of_nat (length l) in
  let j := if i <? 0 then i + n else i in
  if (0 <=? j) && (j <? n) then
    match l !! Z.to_nat j with
    | Some x => Return x
    | None => Raise IndexError
    end
  else Raise IndexError.

(** [v[i]] for an [int] index.  The keys of a JSON object are strings, so
    an integer key is never found. *)
Definition getindex (v : value) (i : Z) : outcome value :=
  match v with
  | VList l => list_index l i
  | VStr s => list_index (map VStr (chars s)) i
  | VDict _ => Raise KeyError
  | _ => Raise TypeError
  end.

(** An f-string with its formatted values kept apart. *)
Inductive piece : Type :=
| Txt (s : string)
| Fmt (v : value)
| FmtExn (e : exn).

Definition fstring := list piece.

(** ** The regular expressions of [re] this code uses

    A pattern is a sequence of single-character items, each taken once,
    optionally ([?]) or one or more times ([+]), both greedy, with the
    parentheses of one capturing group.  [exec] is the backtracking matcher
    anchored at the start of its input and [search] is [re.search]: the
    first position, from the left, where [exec] succeeds. *)
Module Re.

Inductive cset : Type :=
| Lit (c : ascii)
| Digit.

Inductive quant : Type :=
| One
| Opt
| Plus.

Inductive atom : Type :=
| Item (c : cset) (q : quant)
| GroupOpen
| GroupClose.

Definition pattern := list atom.

Definition is_digit (a : ascii) : bool :=
  (48 <=? nat_of_ascii a)%nat && (nat_of_ascii a <=? 57)%nat.

Definition accepts (c : cset) (a : ascii) : bool :=
  match c with
  | Lit b => Ascii.eqb a b
  | Digit => is_digit a
  end.

(** The text of group 1 while matching. *)
Inductive capture : Type :=
| Unset
| Opened (acc : string)
| Closed (txt : string).

Definition push (a : ascii) (g : capture) : capture :=
  match g with
  | Opened acc => Opened (acc +:+ String a EmptyString)
  | _ => g
  end.

Definition close (g : capture) : capture :=
  match g with
  | Opened acc => Closed acc
  | _ => g
  end.

Fixpoint exec (p : pattern) (s : string) (g : capture) : option capture :=
  match p with
  | [] => Some g
  | GroupOpen :: p' => exec p' s (Opened "")
  | GroupClose :: p' => exec p' s (close g)
  | Item c One :: p' =>
      match s with
      | String a s' => if accepts c a then exec p' s' (push a g) else None
      | EmptyString => None
      end
  | Item c Opt :: p' =>
      match s with
      | String a s' =>
          if accepts c a then
            match exec p' s' (push a g) with
            | Some r => Some r
            | None => exec p' s g
            end
          else exec p' s g
      | EmptyString => exec p' s g
      end
  | Item c Plus :: p' =>
      (fix plus (s : string) (g : capture) {struct s} : option capture :=
         match s with
         | String a s' =>
             if accepts c a then
               match plus s' (push a g) with
               | Some r => Some r
               | None => exec p' s' (push a g)
               end
             else None
         | EmptyString => None
         end) s g
  end.

Fixpoint search (p : pattern) (s : string) : option capture :=
  match exec p s Unset with
  | Some g => Some g
  | None =>
      match s with
      | String _ s' => search p s'
      | EmptyString => None
      end
  end.

(** [match.group(1)]; a group that took no part in the match is [None]. *)
Definition group1 (g : capture) : option string :=
  match g with
  | Closed txt => Some txt
  | _ => None
  end.

(** Every character of [s] is in the class [c]. *)
Fixpoint all_in (c : cset) (s : string) : bool :=
  match s with
  | EmptyString => true
  | String a s' => accepts c a && all_in c s'
  end.

(** [s] does not start with a character of the class [c]. *)
Definition stops (c : cset) (s : string) : Prop :=
  match s with
  | EmptyString => True
  | String a _ => accepts c a = false
  end.

(** [push] for every character of [d], in order. *)
Fixpoint pushes (d : string) (g : capture) : capture :=
  match d with
  | EmptyString => g
  | String a d' => pushes d' (push a g)
  end.

End Re.

(** ** The world the scripts run in *)

Inductive method : Type := GET | POST | PUT | DELETE.

(** A call of [requests.get], [.post], [.put] or [.delete]; all of them pass
    [verify=False]. *)
Record request : Type := {
  meth : method;
  url : fstring;
  headers : gmap string string;
  json_data : option value
}.

(** [content] is the body as the device sent it, byte for byte, and [text]
    what [response.text] makes of it: the body decoded to a [str].
    [response.json()] raises when the body is not JSON: [json] is [None]. *)
Record response : Type := {
  status_code : Z;
  content : string;
  text : string;
  json : option value
}.

Inductive reply : Type :=
| NoReply
| Reply (r : response).

Inductive output : Type :=
| Line (l : fstring)
| Ask (prompt : string).

(** [console] and [sent] list the most recent entry first.  [files] maps a
    path, relative to the working directory, to the bytes of the file there.
    [permits] tells which paths the operating system lets the script open
    for writing.  [codec] is the text layer of a file opened in text mode
    for writing: it gives the bytes written for a [str], in the encoding of
    the platform and with its line ends, or [None] when a character has no
    encoding there.  [server] is the far end of the network: its answer to
    a request may depend on the requests sent before it. *)
Record world : Type := {
  console : list output;
  stdin : list string;
  files : gmap string string;
  permits : string -> bool;
  codec : string -> option string;
  sent : list request;
  server : list request -> request -> reply
}.

(** A path with a NUL character: [open] refuses it itself, with
    [ValueError], before the operating system sees it. *)
Fixpoint has_nul (name : string) : bool :=
  match name with
  | EmptyString => false
  | String a name' => Ascii.eqb a (ascii_of_nat 0) || has_nul name'
  end.

(** [open(name, "w")] does not end in [OSError]: the operating system
    permits the path, or it never gets to see it. *)
Definition writable (w : world) (name : string) : bool :=
  has_nul name || permits w name.

Definition Py (A : Type) : Type := world -> world * outcome A.

Definition ret {A : Type} (a : A) : Py A := fun w => (w, Return a).

Definition bind {A B : Type} (m : Py A) (k : A -> Py B) : Py B :=
  fun w =>
    match m w with
    | (w', Return a) => k a w'
    | (w', Raise e) => (w', Raise e)
    end.

Definition raise {A : Type} (e : exn) : Py A := fun w => (w, Raise e).

Definition lift {A : Type} (o : outcome A) : Py A := fun w => (w, o).

(** [try: m / except Exception as e: handler e] *)
Definition try_except {A : Type} (m : Py A) (handler : exn -> Py A) : Py A :=
  fun w =>
    match m w with
    | (w', Return a) => (w', Return a)
    | (w', Raise e) => if is_Exception e then handler e w' else (w', Raise e)
    end.

Notation "'do' x <- c1 ; c2" := (bind c1 (fun x => c2))
  (at level 10, x name, c1 at level 100, c2 at level 200).
Notation "c1 ;; c2" := (bind c1 (fun _ => c2))
  (at level 100, c2 at level 200, right associativity).

(** [for x in l: body x] *)
Fixpoint for_each {A : Type} (l : list A) (body : A -> Py unit) : Py unit :=
  match l with
  | [] => ret tt
  | x :: l' => body x ;; for_each l' body
  end.

(** [enumerate(l)], counting from [i]. *)
Fixpoint enumerate_from {A : Type} (i : Z) (l : list A) : list (Z * A) :=
  match l with
  | [] => []
  | x :: l' => (i, x) :: enumerate_from (i + 1) l'
  end.

Definition enumerate {A : Type} (l : list A) : list (Z * A) := enumerate_from 0 l.

Definition print (l : fstring) : Py unit :=
  fun w =>
    ({| console := Line l :: console w; stdin := stdin w; files := files w;
        permits := permits w; codec := codec w;
        sent := sent w; server := server w |},
     Return tt).

(** [input(prompt)]: at the end of the input it raises [EOFError]. *)
Definition input (prompt : string) : Py string :=
  fun w =>
    let c := Ask prompt :: console w in
    match stdin w with
    | ans :: rest =>
        ({| console := c; stdin := rest; files := files w;
            permits := permits w; codec := codec w;
        sent := sent w; server := server w |},
         Return ans)
    | [] =>
        ({| console := c; stdin := []; files := files w;
            permits := permits w; codec := codec w;
        sent := sent w; server := server w |},
         Raise EOFError)
    end.

(** [open(name, "rb").read()]: the bytes of the file at the path, or
    [OSError] when there is none to read.  For reading, a path with a NUL
    character, which [open] refuses with [ValueError], is taken as one more
    path without a file. *)
Definition read_file (name : string) : Py string :=
  fun w =>
    match files w !! name with
    | Some content => (w, Return content)
    | None => (w, Raise OSError)
    end.

(** [with open(name, "w") as f: f.write(content)].  [open] raises
    [ValueError] for a path with a NUL character and [OSError] for one the
    operating system refuses; it creates the file, or empties it, before
    anything is written.  [f.write] encodes the [str] as the platform does
    and raises [UnicodeEncodeError], a [ValueError], when it cannot: the
    file is then left empty. *)
Definition write_file (name content : string) : Py unit :=
  fun w =>
    let opened (bytes : string) :=
      {| console := console w; stdin := stdin w;
         files := <[name := bytes]> (files w);
         permits := permits w; codec := codec w;
         sent := sent w; server := server w |} in
    if has_nul name then (w, Raise ValueError)
    else if permits w name then
      match codec w content with
      | Some bytes => (opened bytes, Return tt)
      | None => (opened EmptyString, Raise ValueError)
      end
    else (w, Raise OSError).

(** One HTTP exchange: the request is sent, then the server answers or the
    transport fails, which [requests] raises. *)
Definition http (req : request) : Py response :=
  fun w =>
    let w' := {| console := console w; stdin := stdin w; files := files w;
                 permits := permits w; codec := codec w;
                 sent := req :: sent w;
                 server := server w |} in
    match server w (sent w) req with
    | Reply r => (w', Return r)
    | NoReply => (w', Raise RequestException)
    end.

Definition requests_get (u : fstring) (h : gmap string string) : Py response :=
  http {| meth := GET; url := u; headers := h; json_data := None |}.

Definition requests_post (u : fstring) (h : gmap string string) (data : value)
  : Py response :=
  http {| meth := POST; url := u; headers := h; json_data := Some data |}.

Definition requests_delete (u : fstring) (h : gmap string string) : Py response :=
  http {| meth := DELETE; url := u; headers := h; json_data := None |}.

Definition requests_put (u : fstring) (h : gmap string string) (data : value)
  : Py response :=
  http {| meth := PUT; url := u; headers := h; json_data := Some data |}.

Definition response_json (r : response) : Py value :=
  match json r with
  | Some v => ret v
  | None => raise JSONDecodeError
  end.

(** Two text layers.  [utf8_text] is that of a POSIX platform with a UTF-8
    locale: every code point below 128 is one byte, every other one two,
    and line ends are written as they are.  [ascii_text] is that of the C
    locale: a code point from 128 on has no encoding. *)
Definition utf8_char (a : ascii) : string :=
  let n := N_of_ascii a in
  if (n <? 128)%N then String a EmptyString
  else String (ascii_of_N (192 + n / 64))
         (String (ascii_of_N (128 + n mod 64)) EmptyString).

Fixpoint utf8 (s : string) : string :=
  match s with
  | EmptyString => EmptyString
  | String a s' => utf8_char a +:+ utf8 s'
  end.

Definition utf8_text (s : string) : option string := Some (utf8 s).

Fixpoint is_ascii (s : string) : bool :=
  match s with
  | EmptyString => true
  | String a s' => (N_of_ascii a <? 128)%N && is_ascii s'
  end.

Definition ascii_text (s : string) : option string :=
  if is_ascii s then Some s else None.

(** The newline character, [\n] in the Python sources. *)
Definition nl : string := String (ascii_of_nat 10) EmptyString.

(** ** upgradeFortigateFirmware.py *)
Module Upgrade.

(** [r"v?(\d+\.\d+\.\d+)"] *)
Definition version_pattern : Re.pattern :=
  [ Re.Item (Re.Lit "v") Re.Opt;
    Re.GroupOpen;
    Re.Item Re.Digit Re.Plus; Re.Item (Re.Lit ".") Re.One;
    Re.Item Re.Digit Re.Plus; Re.Item (Re.Lit ".") Re.One;
    Re.Item Re.Digit Re.Plus;
    Re.GroupClose ].

Definition parse_version_from_filename (filename : string) : option string :=
  match Re.search version_pattern filename with
  | Some m =>
      match Re.group1 m with
      | Some txt => Some ("v" +:+ txt)
      | None => None
      end
  | None => None
  end.

(** [base64.b64encode(b).decode()] *)
Definition b64_alphabet : string :=
  "ABCDEFGHIJKLMNOPQRSTUVWXYZabcdefghijklmnopqrstuvwxyz0123456789+/".

Definition b64_char (n : N) : ascii :=
  match String.get (N.to_nat n) b64_alphabet with
  | Some c => c
  | None => "="%char
  end.

Fixpoint b64_groups (l : list N) : string :=
  match l with
  | a :: b :: c :: rest =>
      let n := (a * 65536 + b * 256 + c)%N in
      String (b64_char (n / 262144))
        (String (b64_char (n / 4096 mod 64))
           (String (b64_char (n / 64 mod 64))
              (String (b64_char (n mod 64)) (b64_groups rest))))
  | [a; b] =>
      let n := (a * 65536 + b * 256)%N in
      String (b64_char (n / 262144))
        (String (b64_char (n / 4096 mod 64))
           (String (b64_char (n / 64 mod 64)) "="))
  | [a] =>
      let n := (a * 65536)%N in
      String (b64_char (n / 262144)) (String (b64_char (n / 4096 mod 64)) "==")
  | [] => ""
  end.

Definition b64encode (content : string) : string :=
  b64_groups (map N_of_ascii (list_ascii_of_string content)).

(** [os.path.basename(path)], POSIX: what follows the last slash. *)
Fixpoint basename_from (acc path : string) : string :=
  match path with
  | EmptyString => acc
  | String a rest =>
      if Ascii.eqb a "/" then basename_from "" rest
      else basename_from (acc +:+ String a EmptyString) rest
  end.

Definition basename (path : string) : string := basename_from "" path.

Definition firmware_url (fw_ip : string) : fstring :=
  [Txt ("https://" +:+ fw_ip +:+ "/api/v2/monitor/system/firmware")].

Definition upgrade_url (fw_ip : string) : fstring :=
  [Txt ("https://" +:+ fw_ip +:+ "/api/v2/monitor/system/firmware/upgrade")].

Definition backup_url (fw_ip : string) : fstring :=
  [Txt ("https://" +:+ fw_ip +:+ "/api/v2/monitor/system/config/backup")].

Definition bearer (api_token : string) : gmap string string :=
  {[ "Authorization" := "Bearer " +:+ api_token ]}.

Definition bearer_json (api_token : string) : gmap string string :=
  <["Authorization" := "Bearer " +:+ api_token]>
    {[ "Content-Type" := "application/json" ]}.

(** The loop of [get_available_firmware] over the raw entries, [acc] being
    [available_firmware] so far. *)
Fixpoint collect_firmware (entries : list value) (acc : list value)
  : outcome (list value) :=
  match entries with
  | [] => Return acc
  | fw :: rest =>
      dop version <- dict_get fw "version";
      dop build <- dict_get fw "build";
      dop releaseType <- dict_get fw "release-type";
      dop maturity <- dict_get fw "maturity";
      dop notes <- dict_get fw "notes";
      if truthy version && truthy build && truthy releaseType
         && truthy maturity then
        let firmware_dict :=
          VDict (list_to_map
                   [("version", version); ("build", build);
                    ("release-type", releaseType);
                    ("maturity", maturity); ("notes", notes)]) in
        collect_firmware rest (acc ++ [firmware_dict])
      else collect_firmware rest acc
  end.

Definition get_available_firmware (fw_ip api_token : string)
  : Py (value * value) :=
  do response <- requests_get (firmware_url fw_ip) (bearer api_token);
  if negb (status_code response =? 200) then
    print [Txt ("Error: unable to retrieve firmware versions from FortiGate API for firewall at "
                +:+ fw_ip)] ;;
    ret (VNone, VNone)
  else
    do firmware_json <- response_json response;
    do results <- lift (getitem firmware_json "results");
    do current <- lift (getitem results "current");
    do current_firmware <- lift (getitem current "version");
    do results' <- lift (getitem firmware_json "results");
    do available <- lift (getitem results' "available");
    do entries <- lift (py_iter available);
    do available_firmware <- lift (collect_firmware entries []);
    ret (current_firmware, VList available_firmware).

Definition print_firmware_options (current_firmware available_firmware : value)
  : Py unit :=
  print [Txt ("Firmware Versions:" +:+ nl)] ;;
  print [Txt "0. Current Version: "; Fmt current_firmware] ;;
  do entries <- lift (py_iter available_firmware);
  for_each (enumerate entries) (fun '(i, fw) =>
    do version <- lift (getitem fw "version");
    do build <- lift (getitem fw "build");
    do releaseType <- lift (getitem fw "release-type");
    do maturity <- lift (getitem fw "maturity");
    print [Fmt (VInt (i + 1)); Txt ". Version: "; Fmt version;
           Txt ", Build: "; Fmt build; Txt ", Release Type: "; Fmt releaseType;
           Txt ", Maturity: "; Fmt maturity]).

Definition upload_firmware (fw_ip api_token filename : string) : Py value :=
  do content <- read_file filename;
  let data :=
    VDict (list_to_map
             [("source", VStr "upload");
              ("file_content", VStr (b64encode content));
              ("filename", VStr (basename filename))]) in
  do response <- requests_post (upgrade_url fw_ip) (bearer_json api_token) data;
  if negb (status_code response =? 200) then
    print [Txt ("Error: unable to upload firmware image to FortiGate device at "
                +:+ fw_ip)] ;;
    ret VNone
  else
    do response_json <- response_json response;
    lift (dict_get response_json "file_id").

Definition backup_filename (fgt_name fw_ip : string) : string :=
  fgt_name +:+ "-" +:+ fw_ip +:+ "-config-backup.conf".

Definition backup_data : value :=
  VDict (list_to_map [("destination", VStr "file"); ("scope", VStr "global")]).

Definition save_configuration (fgt_name fw_ip api_token : string) : Py value :=
  do response <- requests_post (backup_url fw_ip) (bearer_json api_token) backup_data;
  if negb (status_code response =? 200) then
    print [Txt ("Error: unable to retrieve configuration file from FortiGate "
                +:+ fgt_name +:+ " at " +:+ fw_ip)] ;;
    ret VNone
  else
    let filename := backup_filename fgt_name fw_ip in
    write_file filename (text response) ;;
    print [Txt ("Configuration file saved to " +:+ filename)] ;;
    ret VNone.

(** The search of [main] for the requested version:
    [for fw in available_firmware: if fw['version'] == version: ... break]. *)
Fixpoint find_version (entries : list value) (version : string) : outcome bool :=
  match entries with
  | [] => Return false
  | fw :: rest =>
      dop v <- getitem fw "version";
      if eq_str v version then Return true else find_version rest version
  end.

(** The body of the loop of [main] for a row whose three fields are set,
    from the connecting message on.  A [continue] ends the body. *)
Definition upgrade_device (filename version fgt_name fw_ip api_token : string)
  : Py unit :=
  print [Txt (nl +:+ "Connecting to " +:+ fgt_name +:+ " (" +:+ fw_ip +:+ ")..." +:+ nl)] ;;
  do queried <-
    try_except
      (do r <- get_available_firmware fw_ip api_token; ret (Some r))
      (fun e =>
         print [Txt ("Error: Unable to connect to " +:+ fgt_name +:+ " (" +:+ fw_ip
                     +:+ "). Exception: "); FmtExn e] ;;
         ret None);
  match queried with
  | None => ret tt
  | Some (current_firmware, available_firmware) =>
      print_firmware_options current_firmware available_firmware ;;
      do entries <- lift (py_iter available_firmware);
      do version_found <- lift (find_version entries version);
      if version_found : bool then
        save_configuration fgt_name fw_ip api_token ;;
        print [Txt (nl +:+ "Firmware upgrade started for " +:+ fgt_name
                    +:+ ". Filename: " +:+ filename)] ;;
        do uploaded <-
          try_except
            (do file_id <- upload_firmware fw_ip api_token filename;
             ret (Some file_id))
            (fun e =>
               print [Txt ("Error: Unable to upgrade firmware on " +:+ fgt_name
                           +:+ " (" +:+ fw_ip +:+ "). Exception: "); FmtExn e] ;;
               ret None);
        match uploaded with
        | None => ret tt
        | Some _ =>
            print [Txt ("Firmware upgrade completed for " +:+ fgt_name +:+ "." +:+ nl)]
        end
      else
        print [Txt ("Error: Firmware version " +:+ version +:+ " not found for "
                    +:+ fgt_name +:+ "." +:+ nl)]
  end.

(** A row of [csv.DictReader]: a field the line is too short for is [None]. *)
Definition row_get (row : gmap string (option string)) (k : string)
  : outcome (option string) :=
  match row !! k with
  | Some field => Return field
  | None => Raise KeyError
  end.

Definition field_truthy (field : option string) : bool :=
  match field with
  | Some s => negb (String.eqb s "")
  | None => false
  end.

Definition field_value (field : option string) : value :=
  match field with
  | Some s => VStr s
  | None => VNone
  end.

Definition loop_body (filename version : string) (row : gmap string (option string))
  : Py unit :=
  do fgt_name <- lift (row_get row "fgt_name");
  do fw_ip <- lift (row_get row "fw_ip");
  do api_token <- lift (row_get row "api_token");
  if negb (field_truthy fgt_name && field_truthy fw_ip && field_truthy api_token) then
    print [Txt "Error: Missing information for firewall '"; Fmt (field_value fgt_name);
           Txt "' in firewalls.csv"]
  else
    upgrade_device filename version
      (default "" fgt_name) (default "" fw_ip) (default "" api_token).

(** [reader] is what [csv.DictReader] yields for [firewalls.csv]. *)
Definition main (reader : list (gmap string (option string))) : Py unit :=
  print [Txt ("FortiGate firewall firmware upgrade script" +:+ nl)] ;;
  do filename <- input "Enter the filename of the firmware image to upgrade to: ";
  match parse_version_from_filename filename with
  | None =>
      print [Txt "Error: Unable to extract firmware version from filename."] ;;
      raise (SystemExit 1)
  | Some version => for_each reader (loop_body filename version)
  end.

End Upgrade.

(** ** BasicFgtSdwanConfig.py *)
Module Sdwan.

(** White space for [int()]: tab to carriage return and the space, and, of
    the code points from 128 on, the two that are spaces (NEL and the
    no-break space), which [int] reads as a space. *)
Definition is_space (a : ascii) : bool :=
  let n := nat_of_ascii a in
  ((9 <=? n) && (n <=? 13) || (n =? 32) || (n =? 133) || (n =? 160))%nat.

Fixpoint lstrip (s : string) : string :=
  match s with
  | String a s' => if is_space a then lstrip s' else s
  | EmptyString => s
  end.

Definition strip (s : string) : string :=
  String.rev (lstrip (String.rev (lstrip s))).

Definition digit_value (a : ascii) : Z := Z.of_nat (nat_of_ascii a) - 48.

(** The digits of a decimal literal: single underscores may separate them.
    [seen] counts the digits, [after_digit] tells whether the previous
    character was one. *)
Fixpoint parse_digits (s : string) (acc : Z) (seen : nat) (after_digit : bool)
  : option (Z * nat) :=
  match s with
  | EmptyString => if after_digit then Some (acc, seen) else None
  | String a s' =>
      if Re.is_digit a then parse_digits s' (10 * acc + digit_value a) (S seen) true
      else if Ascii.eqb a "_" then
        if after_digit then parse_digits s' acc seen false else None
      else None
  end.

(** [int(s)] for a [str], base 10, with the default limit of 4300 digits. *)
Definition py_int (s : string) : outcome Z :=
  let body := strip s in
  let '(negative, digits) :=
    match body with
    | String "-" rest => (true, rest)
    | String "+" rest => (false, rest)
    | _ => (false, body)
    end in
  match parse_digits digits 0 0 false with
  | Some (n, seen) =>
      if (4300 <? seen)%nat then Raise ValueError
      else Return (if negative : bool then - n else n)
  | None => Raise ValueError
  end.

(** [s.split(sep)] for a separator of one character. *)
Fixpoint split (sep : ascii) (s : string) : list string :=
  match s with
  | EmptyString => [EmptyString]
  | String a s' =>
      if Ascii.eqb a sep then EmptyString :: split sep s'
      else match split sep s' with
           | piece :: pieces => String a piece :: pieces
           | [] => [String a EmptyString]
           end
  end.

(** [c in s] for a character [c]. *)
Fixpoint contains (c : ascii) (s : string) : bool :=
  match s with
  | EmptyString => false
  | String a s' => Ascii.eqb a c || contains c s'
  end.

(** [s.isascii() and s.isdigit()]: the digits 0 to 9 only, and at least one. *)
Definition isascii_isdigit (s : string) : bool :=
  negb (String.eqb s "") && Re.all_in Re.Digit s.

(** [ipaddress.IPv4Address._parse_octet]; [None] stands for its
    [ValueError]. *)
Definition parse_octet (octet_str : string) : option Z :=
  if String.eqb octet_str "" then None
  else if negb (isascii_isdigit octet_str) then None
  else if (3 <? String.length octet_str)%nat then None
  else if negb (String.eqb octet_str "0")
          && match octet_str with String "0" _ => true | _ => false end then None
  else match py_int octet_str with
       | Return octet_int => if octet_int >? 255 then None else Some octet_int
       | Raise _ => None
       end.

(** [int.from_bytes(octets, 'big')] *)
Definition from_bytes_big (octets : list Z) : Z :=
  fold_left (fun acc octet => 256 * acc + octet) octets 0.

(** [ipaddress.IPv4Address._ip_int_from_string]; [None] stands for
    [AddressValueError]. *)
Definition ip_int_from_string (ip_str : string) : option Z :=
  if String.eqb ip_str "" then None
  else
    let octets := split "." ip_str in
    if negb (length octets =? 4)%nat then None
    else from_bytes_big <$> mapM parse_octet octets.

(** [ipaddress.IPv4Address(address)] for a [str] (Python 3.12, the version
    whose f-string syntax the script needs): the integer of the address,
    [None] when it raises [AddressValueError]. *)
Definition IPv4Address (address : string) : option Z :=
  if contains "/" address then None else ip_int_from_string address.

Definition validateIpv4 (ip : string) : bool :=
  match IPv4Address ip with
  | Some _ => true
  | None => false
  end.

(** The two loops of [getUserInput]:
    [while True: ip = input(prompt); if validateIpv4(ip): break; else: print(...)].
    Every turn reads one line, so a loop makes at most one turn more than
    there are lines left; [fuel] bounds the turns and [input_ipv4] gives
    that many, the last of which can only end in [EOFError]. *)
Fixpoint ask_ipv4 (fuel : nat) (prompt : string) : Py string :=
  match fuel with
  | O => raise EOFError
  | S fuel' =>
      do ip <- input prompt;
      if validateIpv4 ip then ret ip
      else
        print [Txt "Invalid IP address. Please enter a valid IPv4 address."] ;;
        ask_ipv4 fuel' prompt
  end.

Definition input_ipv4 (prompt : string) : Py string :=
  fun w => ask_ipv4 (S (length (stdin w))) prompt w.

Definition getUserInput : Py (string * string * string) :=
  do management_ip <- input_ipv4 "Please enter the FortiGate management IPv4 address: ";
  let base_url := "https://" +:+ management_ip +:+ "/api/v2" in
  do wan_interface_name <- input "Enter the primary WAN name: ";
  do internet_gateway_ip <- input_ipv4 "Enter the Internet gateway IPv4 address: ";
  ret (base_url, wan_interface_name, internet_gateway_ip).

(** The module-level [headers]; [api_key] is [os.getenv("API_KEY")], which
    the f-string formats as [None] when the variable is not set. *)
Definition api_headers (api_key : option string) : gmap string string :=
  list_to_map
    [("Content-Type", "application/json");
     ("Authorization", "Bearer " +:+ default "None" api_key)].

(** The menu of [getTrafficVdomName]:
    [for i, vdom in enumerate(vdoms): print(f"{i+1}. {vdom['name']}")] *)
Definition print_menu (entries : list value) : Py unit :=
  for_each (enumerate entries) (fun '(i, vdom) =>
    do name <- lift (getitem vdom "name");
    print [Fmt (VInt (i + 1)); Txt ". "; Fmt name]).

(** The body of [getTrafficVdomName] up to its [return]: the result is the
    binding of the local variable [vdom] there, [None] when no assignment
    was reached. *)
Definition resolve_vdom (base_url : string) (headers : gmap string string)
  : Py (option value) :=
  do response <- requests_get [Txt (base_url +:+ "/cmdb/system/vdom")] headers;
  if status_code response =? 200 then
    do body <- response_json response;
    do vdoms <- lift (getitem body "results");
    do n <- lift (py_len vdoms);
    if n =? 2 then
      do second <- lift (getindex vdoms 1);
      do vdom <- lift (getitem second "name");
      print [Txt "The VDOM is set to "; Fmt vdom] ;;
      ret (Some vdom)
    else if n >? 2 then
      print [Txt "Please select the correct VDOM:"] ;;
      do entries <- lift (py_iter vdoms);
      print_menu entries ;;
      do answer <- input "Enter the number of the VDOM: ";
      do vdom_number <- lift (py_int answer);
      do chosen <- lift (getindex vdoms (vdom_number - 1));
      do vdom <- lift (getitem chosen "name");
      print [Txt "The VDOM is set to "; Fmt vdom] ;;
      ret (Some vdom)
    else ret None
  else
    print [Txt "Failed to get the VDOMs. Status code: "; Fmt (VInt (status_code response))] ;;
    ret None.

Definition getTrafficVdomName (base_url : string) (headers : gmap string string)
  : Py value :=
  do vdom <- resolve_vdom base_url headers;
  match vdom with
  | Some v => ret v
  | None => raise UnboundLocalError
  end.

Definition default_dst : string := "0.0.0.0 0.0.0.0".

(** [next((route for route in routes if route['dst'] == "0.0.0.0 0.0.0.0"), None)] *)
Fixpoint first_default (routes : list value) : outcome value :=
  match routes with
  | [] => Return VNone
  | route :: rest =>
      dop dst <- getitem route "dst";
      if eq_str dst default_dst then Return route else first_default rest
  end.

Definition static_url (base_url : string) (vdom : value) : fstring :=
  [Txt (base_url +:+ "/cmdb/router/static?vdom="); Fmt vdom].

Definition static_entry_url (base_url : string) (seq_num vdom : value) : fstring :=
  [Txt (base_url +:+ "/cmdb/router/static/"); Fmt seq_num; Txt "?vdom="; Fmt vdom].

Definition route_data : value :=
  VDict (list_to_map
           [("dst", VStr default_dst);
            ("comment", VStr "Default static route created programmatically.");
            ("sdwan-zone",
             VList [VDict (list_to_map [("name", VStr "Internet SD-WAN")])])]).

Definition configureDefaultRoute (base_url : string) (headers : gmap string string)
  (vdom : value) : Py unit :=
  do response <- requests_get (static_url base_url vdom) headers;
  if status_code response =? 200 then
    do body <- response_json response;
    do results <- lift (getitem body "results");
    do routes <- lift (py_iter results);
    do default_route <- lift (first_default routes);
    if truthy default_route then
      do seq_num <- lift (getitem default_route "seq_num");
      do response <- requests_delete (static_entry_url base_url seq_num vdom) headers;
      if status_code response =? 200 then
        print [Txt "Default route deleted successfully."]
      else
        print [Txt "Failed to delete default route. Status code: ";
               Fmt (VInt (status_code response))]
    else
      do response <- requests_post (static_url base_url vdom) headers route_data;
      if status_code response =? 200 then
        print [Txt "Default route set on the Internet SD-WAN zone successfully."]
      else
        print [Txt "Failed to set default route on the Internet SD-WAN zone. Status code: ";
               Fmt (VInt (status_code response))]
  else
    print [Txt "Failed to get the static routes. Status code: ";
           Fmt (VInt (status_code response))].

Definition sdwan_url (base_url : string) (vdom : value) : fstring :=
  [Txt (base_url +:+ "/cmdb/system/sdwan?vdom="); Fmt vdom].

Definition zone_data : value :=
  VDict (list_to_map
           [("zone", VList [VDict (list_to_map [("name", VStr "Internet SD-WAN")])])]).

Definition createInternetSdwanZone (base_url : string) (headers : gmap string string)
  (vdom : value) : Py unit :=
  do response <- requests_put (sdwan_url base_url vdom) headers zone_data;
  if status_code response =? 200 then
    print [Txt "Internet SD-WAN zone created successfully."]
  else
    print [Txt "Failed to create Internet SD-WAN zone. Status code: ";
           Fmt (VInt (status_code response))].

Definition interface_data (wan_interface_name internet_gateway_ip : string) : value :=
  VDict (list_to_map
           [("members",
             VList [VDict (list_to_map
                             [("interface", VStr wan_interface_name);
                              ("zone", VStr "Internet SD-WAN");
                              ("gateway", VStr internet_gateway_ip)])])]).

Definition addInterfaceToSdwanZone (base_url : string) (headers : gmap string string)
  (vdom : value) (wan_interface_name internet_gateway_ip : string) : Py unit :=
  do response <- requests_put (sdwan_url base_url vdom) headers
                   (interface_data wan_interface_name internet_gateway_ip);
  if status_code response =? 200 then
    print [Txt (wan_interface_name
                +:+ " interface added to the Internet SD-WAN zone successfully.")]
  else
    print [Txt ("Failed to add " +:+ wan_interface_name
                +:+ " interface to the Internet SD-WAN zone. Status code: ");
           Fmt (VInt (status_code response))].

(** [main]; [api_key] is the value of the environment variable. *)
Definition main (api_key : option string) : Py unit :=
  let headers := api_headers api_key in
  do user_input <- getUserInput;
  let '(base_url, wan_interface_name, internet_gateway_ip) := user_input in
  do vdom <- getTrafficVdomName base_url headers;
  createInternetSdwanZone base_url headers vdom ;;
  addInterfaceToSdwanZone base_url headers vdom wan_interface_name internet_gateway_ip ;;
  configureDefaultRoute base_url headers vdom.

End Sdwan.

(** ** Vocabulary of the specification

    The specification describes a version as three groups of digits
    separated by dots. *)
Module VersionSpec.

Definition digit_group (d : string) : Prop :=
  d <> "" /\ Re.all_in Re.Digit d = true.

Definition dotted_version (g : string) : Prop :=
  exists a b c, g = a +:+ "." +:+ b +:+ "." +:+ c
                /\ digit_group a /\ digit_group b /\ digit_group c.

(** The pattern after its optional "v": the group. *)
Definition group_pattern : Re.pattern := tail Upgrade.version_pattern.

(** [s] contains a version: [s = pre ++ g ++ post] with [g] a version. *)
Definition contains_version (s : string) : Prop :=
  exists pre g post, s = pre +:+ g +:+ post /\ dotted_version g.

End VersionSpec.

(** ** Vocabulary for the statements about runs *)

(** The world after some more console output, most recent first. *)
Definition add_lines (ls : list output) (w : world) : world :=
  {| console := ls ++ console w; stdin := stdin w; files := files w;
     permits := permits w; codec := codec w;
        sent := sent w; server := server w |}.

(** The world after some more requests, most recent first. *)
Definition add_sent (reqs : list request) (w : world) : world :=
  {| console := console w; stdin := stdin w; files := files w;
     permits := permits w; codec := codec w;
     sent := reqs ++ sent w; server := server w |}.

(** The world after a file was written. *)
Definition add_file (name content : string) (w : world) : world :=
  {| console := console w; stdin := stdin w; files := <[name := content]> (files w);
     permits := permits w; codec := codec w;
        sent := sent w; server := server w |}.

(** A computation that only prints. *)
Definition prints {A : Type} (m : Py A) : Prop :=
  forall w, exists ls o, m w = (add_lines ls w, o).

(** [w'] is [w] some output and some requests later. *)
Definition extends (w w' : world) : Prop :=
  server w' = server w
  /\ (exists ls, console w' = (ls ++ console w)%list)
  /\ (exists reqs, sent w' = (reqs ++ sent w)%list).

(** A computation that leaves the server alone and only adds to the
    console and to the requests. *)
Definition steady {A : Type} (m : Py A) : Prop :=
  forall w w' o, m w = (w', o) -> extends w w'.

Definition is_get (req : request) : bool :=
  match meth req with
  | GET => true
  | _ => false
  end.

(** The requests of a run that read: for the upgrade script, its firmware
    queries, one per device it connects to. *)
Definition queries (w : world) : list request := filter (fun req => is_get req = true) (sent w).

(** The world after the input was read up to [rest]. *)
Definition read_to (rest : list string) (w : world) : world :=
  {| console := console w; stdin := rest; files := files w;
     permits := permits w; codec := codec w;
        sent := sent w; server := server w |}.

(** A computation all of whose runs relate the world before to the world
    after by [R]. *)
Definition keeps (R : world -> world -> Prop) {A : Type} (m : Py A) : Prop :=
  forall w w' o, m w = (w', o) -> R w w'.

(** [w'] is [w] after some requests, all of them with the property [P]. *)
Definition sends (P : request -> Prop) (w w' : world) : Prop :=
  exists reqs, sent w' = (reqs ++ sent w)%list /\ Forall P reqs.

(** From [w] to [w'] no file changed but at paths with the property [P]. *)
Definition writes (P : string -> Prop) (w w' : world) : Prop :=
  forall path, files w' !! path = files w !! path \/ P path.

(** A computation that raises nothing but exceptions with the property [P]. *)
Definition raises_only (P : exn -> Prop) {A : Type} (m : Py A) : Prop :=
  forall w w' e, m w = (w', Raise e) -> P e.

Module UpgradeSpec.
Import Upgrade.

Definition query_request (fw_ip api_token : string) : request :=
  {| meth := GET; url := firmware_url fw_ip; headers := bearer api_token;
     json_data := None |}.

Definition backup_request (fw_ip api_token : string) : request :=
  {| meth := POST; url := backup_url fw_ip; headers := bearer_json api_token;
     json_data := Some backup_data |}.

Definition upload_request (fw_ip api_token filename content : string) : request :=
  {| meth := POST; url := upgrade_url fw_ip; headers := bearer_json api_token;
     json_data :=
       Some (VDict (list_to_map
                      [("source", VStr "upload");
                       ("file_content", VStr (b64encode content));
                       ("filename", VStr (basename filename))])) |}.

(** [fw.get(k)] on an entry that is a dict. *)
Definition field (fw : value) (k : string) : value :=
  match fw with
  | VDict d => default VNone (d !! k)
  | _ => VNone
  end.

Definition is_dict (v : value) : Prop :=
  match v with
  | VDict _ => True
  | _ => False
  end.

(** An entry of the raw answer with its four required fields truthy. *)
Definition complete (fw : value) : bool :=
  truthy (field fw "version") && truthy (field fw "build")
  && truthy (field fw "release-type") && truthy (field fw "maturity").

(** The candidate [get_available_firmware] keeps for a raw entry. *)
Definition candidate_of (fw : value) : value :=
  VDict (list_to_map
           [("version", field fw "version"); ("build", field fw "build");
            ("release-type", field fw "release-type");
            ("maturity", field fw "maturity"); ("notes", field fw "notes")]).

(** What [get_available_firmware] makes of the body of a 200 answer. *)
Definition decode_firmware (r : response) : outcome (value * value) :=
  match json r with
  | None => Raise JSONDecodeError
  | Some firmware_json =>
      dop results <- getitem firmware_json "results";
      dop current <- getitem results "current";
      dop current_firmware <- getitem current "version";
      dop available <- getitem results "available";
      dop entries <- py_iter available;
      dop available_firmware <- collect_firmware entries [];
      Return (current_firmware, VList available_firmware)
  end.

(** Following the specification's [findCandidate]: exact string match on
    the version, the first match wins. *)
Definition findCandidate (available : list value) (target : string) : option value :=
  List.find (fun fw => eq_str (field fw "version") target) available.

(** The lines [print_firmware_options] prints for the candidates, most
    recent first. *)
Definition option_line (i : Z) (fw : value) : output :=
  Line [Fmt (VInt (i + 1)); Txt ". Version: "; Fmt (field fw "version");
        Txt ", Build: "; Fmt (field fw "build");
        Txt ", Release Type: "; Fmt (field fw "release-type");
        Txt ", Maturity: "; Fmt (field fw "maturity")].

Definition is_post (req : request) : Prop := meth req = POST.

(** What a device workflow sends after its firmware query, most recent
    first: nothing, the backup request, or the backup request and then the
    upload of the image. *)
Definition upgrade_posts (filename fw_ip api_token : string) (posts : list request) : Prop :=
  posts = []
  \/ posts = [backup_request fw_ip api_token]
  \/ exists content,
       posts = [upload_request fw_ip api_token filename content;
                backup_request fw_ip api_token].

Definition connecting_line (fgt_name fw_ip : string) : output :=
  Line [Txt (nl +:+ "Connecting to " +:+ fgt_name +:+ " (" +:+ fw_ip +:+ ")..." +:+ nl)].

Definition query_error_line (fw_ip : string) : output :=
  Line [Txt ("Error: unable to retrieve firmware versions from FortiGate API for firewall at "
             +:+ fw_ip)].


Definition started_line (fgt_name filename : string) : output :=
  Line [Txt (nl +:+ "Firmware upgrade started for " +:+ fgt_name
             +:+ ". Filename: " +:+ filename)].

Definition upload_exception_line (fgt_name fw_ip : string) (e : exn) : output :=
  Line [Txt ("Error: Unable to upgrade firmware on " +:+ fgt_name
             +:+ " (" +:+ fw_ip +:+ "). Exception: "); FmtExn e].

Definition connect_exception_line (fgt_name fw_ip : string) (e : exn) : output :=
  Line [Txt ("Error: Unable to connect to " +:+ fgt_name +:+ " (" +:+ fw_ip
             +:+ "). Exception: "); FmtExn e].

(** A row whose three fields are set and not empty. *)
Definition names (row : gmap string (option string)) (fgt_name fw_ip api_token : string)
  : Prop :=
  row !! "fgt_name" = Some (Some fgt_name) /\ row !! "fw_ip" = Some (Some fw_ip)
  /\ row !! "api_token" = Some (Some api_token)
  /\ fgt_name <> "" /\ fw_ip <> "" /\ api_token <> "".

(** No slash in a path: it names a file of the working directory itself. *)
Fixpoint no_slash (s : string) : bool :=
  match s with
  | EmptyString => true
  | String a s' => negb (Ascii.eqb a "/") && no_slash s'
  end.

(** The name of the backup file of a device. *)
Definition backup_path (deviceName address : string) : string :=
  deviceName +:+ "-" +:+ address +:+ "-config-backup.conf".

(** A row with its three fields set: the device it names. *)
Definition row_of (fgt_name fw_ip api_token : string) : gmap string (option string) :=
  list_to_map [("fgt_name", Some fgt_name); ("fw_ip", Some fw_ip);
               ("api_token", Some api_token)].

(** A row that has the three columns and leaves at least one of them empty
    or unset. *)
Definition malformed (row : gmap string (option string)) : Prop :=
  exists fgt_name fw_ip api_token,
    row !! "fgt_name" = Some fgt_name /\ row !! "fw_ip" = Some fw_ip
    /\ row !! "api_token" = Some api_token
    /\ (field_truthy fgt_name && field_truthy fw_ip && field_truthy api_token) = false.

Definition missing_line (row : gmap string (option string)) : output :=
  Line [Txt "Error: Missing information for firewall '";
        Fmt (field_value (default None (row !! "fgt_name")));
        Txt "' in firewalls.csv"].

Definition header_line : output := Line [Txt ("Firmware Versions:" +:+ nl)].

Definition current_line (current_firmware : value) : output :=
  Line [Txt "0. Current Version: "; Fmt current_firmware].

(** The listing of [print_firmware_options], most recent line first. *)
Definition options_lines (current_firmware : value) (available : list value)
  : list output :=
  (rev (map (fun '(i, fw) => option_line i fw) (enumerate available))
   ++ [current_line current_firmware; header_line])%list.

Definition not_found_line (version fgt_name : string) : output :=
  Line [Txt ("Error: Firmware version " +:+ version +:+ " not found for "
             +:+ fgt_name +:+ "." +:+ nl)].

Definition completed_line (fgt_name : string) : output :=
  Line [Txt ("Firmware upgrade completed for " +:+ fgt_name +:+ "." +:+ nl)].

Definition saved_line (fgt_name fw_ip : string) : output :=
  Line [Txt ("Configuration file saved to " +:+ backup_filename fgt_name fw_ip)].

Definition upload_error_line (fw_ip : string) : output :=
  Line [Txt ("Error: unable to upload firmware image to FortiGate device at " +:+ fw_ip)].

(** The world of a device workflow once the device was queried and its
    firmware listed. *)
Definition listed (fgt_name fw_ip api_token : string) (current_firmware : value)
  (available : list value) (w : world) : world :=
  add_lines (options_lines current_firmware available ++ [connecting_line fgt_name fw_ip])
    (add_sent [query_request fw_ip api_token] w).

(** The branch of the workflow for a version that was found: the backup,
    then the upload. *)
Definition install (filename fgt_name fw_ip api_token : string) : Py unit :=
  save_configuration fgt_name fw_ip api_token ;;
  print [Txt (nl +:+ "Firmware upgrade started for " +:+ fgt_name
              +:+ ". Filename: " +:+ filename)] ;;
  do uploaded <-
    try_except
      (do file_id <- upload_firmware fw_ip api_token filename;
       ret (Some file_id))
      (fun e =>
         print [Txt ("Error: Unable to upgrade firmware on " +:+ fgt_name
                     +:+ " (" +:+ fw_ip +:+ "). Exception: "); FmtExn e] ;;
         ret None);
  match uploaded with
  | None => ret tt
  | Some _ =>
      print [Txt ("Firmware upgrade completed for " +:+ fgt_name +:+ "." +:+ nl)]
  end.

(** The device a row names, when its three fields are set and not empty. *)
Definition device_of (row : gmap string (option string))
  : option (string * string * string) :=
  match row !! "fgt_name", row !! "fw_ip", row !! "api_token" with
  | Some (Some fgt_name), Some (Some fw_ip), Some (Some api_token) =>
      if negb (String.eqb fgt_name "") && negb (String.eqb fw_ip "")
         && negb (String.eqb api_token "")
      then Some (fgt_name, fw_ip, api_token) else None
  | _, _, _ => None
  end.

(** The devices of an inventory, in its order. *)
Definition devices (reader : list (gmap string (option string)))
  : list (string * string * string) :=
  omap device_of reader.

Definition query_of (device : string * string * string) : request :=
  let '(_, fw_ip, api_token) := device in query_request fw_ip api_token.

(** A row without one of the three columns. *)
Definition lacks_column (row : gmap string (option string)) : Prop :=
  row !! "fgt_name" = None \/ row !! "fw_ip" = None \/ row !! "api_token" = None.

(** A request to the monitor API of the device at [fw_ip] that carries
    [api_token]. *)
Definition authorized (fw_ip api_token : string) (req : request) : Prop :=
  (exists path,
     url req = [Txt ("https://" +:+ fw_ip +:+ "/api/v2/monitor/system/" +:+ path)])
  /\ headers req !! "Authorization" = Some ("Bearer " +:+ api_token).

(** A request to a device of the inventory with the token of its row. *)
Definition to_inventory (reader : list (gmap string (option string))) (req : request)
  : Prop :=
  exists row fgt_name fw_ip api_token,
    In row reader /\ names row fgt_name fw_ip api_token
    /\ authorized fw_ip api_token req.

(** The path of the backup of a device of the inventory. *)
Definition inventory_backup (reader : list (gmap string (option string)))
  (path : string) : Prop :=
  exists row fgt_name fw_ip api_token,
    In row reader /\ names row fgt_name fw_ip api_token
    /\ path = backup_filename fgt_name fw_ip.

(** An entry that has the four keys the listing reads. *)
Definition printable (fw : value) : Prop :=
  (exists v, getitem fw "version" = Return v)
  /\ (exists v, getitem fw "build" = Return v)
  /\ (exists v, getitem fw "release-type" = Return v)
  /\ (exists v, getitem fw "maturity" = Return v).

(** A value that [for ... in] cannot iterate over. *)
Definition not_iterable (v : value) : Prop :=
  match v with
  | VStr _ | VList _ | VDict _ => False
  | _ => True
  end.

(** The exceptions that can end a device workflow. *)
Definition workflow_failure (e : exn) : Prop :=
  e = KeyError \/ e = TypeError \/ e = RequestException \/ e = OSError
  \/ e = ValueError.

(** The exceptions that can end the upgrade script. *)
Definition script_failure (e : exn) : Prop :=
  e = SystemExit 1 \/ e = EOFError \/ workflow_failure e.

Definition caught (e : exn) : Prop := is_Exception e = true.

End UpgradeSpec.

Module SdwanSpec.
Import Sdwan.

Definition vdom_request (base_url : string) (headers : gmap string string) : request :=
  {| meth := GET; url := [Txt (base_url +:+ "/cmdb/system/vdom")]; headers := headers;
     json_data := None |}.

(** The three requests of the default-route stage, as the specification
    has them: the GET of the static routes of the VDOM, the DELETE of the
    route with a sequence number, and the POST of a default route bound to
    the SD-WAN zone. *)
Definition routes_request (base_url : string) (headers : gmap string string)
  (vdom : value) : request :=
  {| meth := GET;
     url := [Txt (base_url +:+ "/cmdb/router/static?vdom="); Fmt vdom];
     headers := headers; json_data := None |}.

Definition delete_request (base_url : string) (headers : gmap string string)
  (seq_num vdom : value) : request :=
  {| meth := DELETE;
     url := [Txt (base_url +:+ "/cmdb/router/static/"); Fmt seq_num;
             Txt "?vdom="; Fmt vdom];
     headers := headers; json_data := None |}.

Definition create_request (base_url : string) (headers : gmap string string)
  (vdom : value) : request :=
  {| meth := POST;
     url := [Txt (base_url +:+ "/cmdb/router/static?vdom="); Fmt vdom];
     headers := headers;
     json_data :=
       Some (VDict (list_to_map
                      [("dst", VStr "0.0.0.0 0.0.0.0");
                       ("comment",
                        VStr "Default static route created programmatically.");
                       ("sdwan-zone",
                        VList [VDict (list_to_map
                                        [("name", VStr "Internet SD-WAN")])])])) |}.

Definition select_line : output := Line [Txt "Please select the correct VDOM:"].

Definition menu_line (entry : Z * value) : output :=
  Line [Fmt (VInt (fst entry + 1)); Txt ". "; Fmt (snd entry)].

Definition set_line (vdom : value) : output :=
  Line [Txt "The VDOM is set to "; Fmt vdom].

Definition vdom_prompt : string := "Enter the number of the VDOM: ".

(** The entry [v] is an object whose name is [n]. *)
Definition named (v n : value) : Prop := getitem v "name" = Return n.

(** A route whose destination is the default route. *)
Definition is_default (route : value) : bool :=
  match getitem route "dst" with
  | Return dst => eq_str dst default_dst
  | Raise _ => false
  end.

Definition has_key (k : string) (v : value) : Prop :=
  exists x, getitem v k = Return x.


(** The character of a decimal digit. *)
Definition digit_char (d : Z) : ascii := ascii_of_nat (48 + Z.to_nat d).

(** The decimal numeral of an octet, without leading zeros. *)
Definition octet_text (n : Z) : string :=
  if n <? 10 then String (digit_char n) ""
  else if n <? 100 then
    String (digit_char (n / 10)) (String (digit_char (n mod 10)) "")
  else
    String (digit_char (n / 100))
      (String (digit_char (n / 10 mod 10)) (String (digit_char (n mod 10)) "")).

Definition octet (n : Z) : Prop := 0 <= n <= 255.

(** An address in dotted-decimal notation. *)
Definition dotted_quad (a b c d : Z) : string :=
  octet_text a +:+ "." +:+ octet_text b +:+ "." +:+ octet_text c +:+ "." +:+ octet_text d.

(** All the octets, and all the strings of one to three digits. *)
Definition octets : list Z := map Z.of_nat (seq 0 256).

Definition digits : list ascii := map digit_char (map Z.of_nat (seq 0 10)).

Definition numerals : list string :=
  a ← digits;
  (String a "" ::
   (b ← digits;
    (String a (String b "") ::
     (c ← digits; [String a (String b (String c ""))]))%list))%list.

Definition octet_ok (n : Z) : bool :=
  match parse_octet (octet_text n) with
  | Some m => (m =? n) && negb (contains "." (octet_text n))
              && negb (contains "/" (octet_text n))
  | None => false
  end.

Definition numeral_ok (o : string) : bool :=
  match parse_octet o with
  | Some n => (0 <=? n) && (n <=? 255) && String.eqb o (octet_text n)
  | None => true
  end.

Definition invalid_line : output :=
  Line [Txt "Invalid IP address. Please enter a valid IPv4 address."].

Definition management_prompt : string :=
  "Please enter the FortiGate management IPv4 address: ".

Definition wan_prompt : string := "Enter the primary WAN name: ".

Definition gateway_prompt : string := "Enter the Internet gateway IPv4 address: ".

(** What the console shows, most recent first, for the rejected answers
    [bads] to [prompt]: each was asked for and then refused. *)
Definition reprompts (prompt : string) (bads : list string) : list output :=
  flat_map (fun _ => [invalid_line; Ask prompt]) bads.

Definition rejected (ip : string) : Prop := validateIpv4 ip = false.

Definition zone_request (base_url : string) (headers : gmap string string)
  (vdom : value) : request :=
  {| meth := PUT; url := sdwan_url base_url vdom; headers := headers;
     json_data := Some zone_data |}.

Definition member_request (base_url : string) (headers : gmap string string)
  (vdom : value) (wan_interface_name internet_gateway_ip : string) : request :=
  {| meth := PUT; url := sdwan_url base_url vdom; headers := headers;
     json_data := Some (interface_data wan_interface_name internet_gateway_ip) |}.

(** What the two stages print for the answer [r]. *)
Definition zone_line (r : response) : output :=
  if status_code r =? 200 then Line [Txt "Internet SD-WAN zone created successfully."]
  else Line [Txt "Failed to create Internet SD-WAN zone. Status code: ";
             Fmt (VInt (status_code r))].

Definition member_line (wan_interface_name : string) (r : response) : output :=
  if status_code r =? 200 then
    Line [Txt (wan_interface_name
               +:+ " interface added to the Internet SD-WAN zone successfully.")]
  else
    Line [Txt ("Failed to add " +:+ wan_interface_name
               +:+ " interface to the Internet SD-WAN zone. Status code: ");
          Fmt (VInt (status_code r))].

(** A request with the headers [h] to the configuration API under
    [base_url]. *)
Definition addressed (base_url : string) (h : gmap string string) (req : request)
  : Prop :=
  headers req = h
  /\ exists path rest, url req = Txt (base_url +:+ "/cmdb/" +:+ path) :: rest.

(** The world once the menu of [names] was shown and the answer read. *)
Definition asked (base_url : string) (headers : gmap string string)
  (names : list value) (rest : list string) (w : world) : world :=
  read_to rest
    (add_lines (Ask vdom_prompt :: rev (map menu_line (enumerate names)) ++ [select_line])
       (add_sent [vdom_request base_url headers] w)).

End SdwanSpec.

(** ** Sample devices and runs, for the examples *)
Module Demo.
Import Upgrade UpgradeSpec Sdwan SdwanSpec.

Definition image : string := "FGT_upgrade_v7.4.1.out".

Definition entry_741 : value :=
  VDict (list_to_map
           [("version", VStr "v7.4.1"); ("build", VInt 2463);
            ("release-type", VStr "GA"); ("maturity", VStr "M");
            ("notes", VStr "https://docs.example/7.4.1")]).

(** Build 0 is falsy. *)
Definition entry_740 : value :=
  VDict (list_to_map
           [("version", VStr "v7.4.0"); ("build", VInt 0);
            ("release-type", VStr "GA"); ("maturity", VStr "F")]).

(** No notes. *)
Definition entry_728 : value :=
  VDict (list_to_map
           [("version", VStr "v7.2.8"); ("build", VInt 1639);
            ("release-type", VStr "GA"); ("maturity", VStr "M")]).

(** No maturity. *)
Definition entry_700 : value :=
  VDict (list_to_map
           [("version", VStr "v7.0.0"); ("build", VInt 66);
            ("release-type", VStr "GA")]).

Definition firmware_body : value :=
  VDict {[ "results" :=
    VDict (list_to_map
             [("current", VDict {[ "version" := VStr "v7.2.5" ]});
              ("available", VList [entry_741; entry_740; entry_728; entry_700])]) ]}.

Definition answer (status : Z) (body : string) (decoded : option value) : response :=
  {| status_code := status; content := body; text := body; json := decoded |}.

Definition firmware_answer : response := answer 200 "" (Some firmware_body).
Definition error_answer : response := answer 500 "Internal Server Error" None.
Definition backup_answer : response := answer 200 "config-version=FGT60F-7.2.5" None.
Definition denied_answer : response := answer 403 "" None.
Definition upload_answer : response :=
  answer 200 "" (Some (VDict {[ "file_id" := VStr "0a1b" ]})).

Definition is_backup (req : request) : bool :=
  match json_data req with
  | Some (VDict d) => bool_decide (is_Some (d !! "destination"))
  | _ => false
  end.

Definition to_address (fw_ip : string) (req : request) : bool :=
  match url req with
  | [Txt u] => String.prefix ("https://" +:+ fw_ip +:+ "/") u
  | _ => false
  end.

(** Every device answers every request with status 200. *)
Definition healthy (history : list request) (req : request) : reply :=
  match meth req with
  | GET => Reply firmware_answer
  | POST => if is_backup req then Reply backup_answer else Reply upload_answer
  | _ => NoReply
  end.

(** The device at 10.0.0.1 answers its firmware query with status 500. *)
Definition first_fails (history : list request) (req : request) : reply :=
  if to_address "10.0.0.1" req then Reply error_answer else healthy history req.


Definition start (srv : list request -> request -> reply) : world :=
  {| console := []; stdin := [image]; files := {[ image := "IMG" ]};
     permits := fun _ => true; codec := utf8_text; sent := []; server := srv |}.

Definition fw1 : gmap string (option string) := row_of "fw1" "10.0.0.1" "tok1".
Definition fw3 : gmap string (option string) := row_of "fw3" "10.0.0.3" "tok3".

(** The second row of the inventory, its line too short for [api_token]. *)
Definition fw2_short : gmap string (option string) :=
  list_to_map [("fgt_name", Some "fw2"); ("fw_ip", Some "10.0.0.2");
               ("api_token", None)].

(** The same row with an empty [api_token]. *)
Definition fw2_empty : gmap string (option string) :=
  list_to_map [("fgt_name", Some "fw2"); ("fw_ip", Some "10.0.0.2");
               ("api_token", Some "")].

Definition vdom_named (name : string) : value := VDict {[ "name" := VStr name ]}.

Definition results_body (results : value) : value := VDict {[ "results" := results ]}.

Definition two_vdoms : value :=
  results_body (VList [vdom_named "root"; vdom_named "traffic"]).

Definition three_vdoms : value :=
  results_body (VList [vdom_named "root"; vdom_named "traffic"; vdom_named "dmz"]).

Definition one_vdom : value := results_body (VList [vdom_named "root"]).

Definition route (seq_num : Z) (dst : string) : value :=
  VDict (list_to_map [("seq_num", VInt seq_num); ("dst", VStr dst)]).

Definition routes_with_default : value :=
  results_body (VList [route 1 "10.1.0.0 255.255.0.0"; route 2 "0.0.0.0 0.0.0.0";
                       route 3 "0.0.0.0 0.0.0.0"]).

Definition routes_without_default : value :=
  results_body (VList [route 1 "10.1.0.0 255.255.0.0"]).

(** A device that answers every GET with [body] and everything else with
    an empty 200. *)
Definition serving (body : value) (history : list request) (req : request) : reply :=
  match meth req with
  | GET => Reply (answer 200 "" (Some body))
  | _ => Reply (answer 200 "" None)
  end.

Definition refusing (history : list request) (req : request) : reply :=
  Reply (answer 401 "" None).

Definition console_of (answers : list string) (srv : list request -> request -> reply)
  : world :=
  {| console := []; stdin := answers; files := ∅; permits := fun _ => true;
     codec := utf8_text;
     sent := []; server := srv |}.

Definition base : string := "https://192.0.2.1/api/v2".

Definition auth : gmap string string :=
  <["Content-Type" := "application/json"]> {[ "Authorization" := "Bearer key" ]}.

(** No device answers: every exchange fails in transport. *)
Definition silent (history : list request) (req : request) : reply := NoReply.

(** The upload is refused with status 403. *)
Definition upload_denied (history : list request) (req : request) : reply :=
  match meth req with
  | POST => if is_backup req then Reply backup_answer else Reply denied_answer
  | _ => healthy history req
  end.

(** The backup request gets no answer. *)
Definition backup_silent (history : list request) (req : request) : reply :=
  match meth req with
  | POST => if is_backup req then NoReply else Reply upload_answer
  | _ => healthy history req
  end.

(** A row of an inventory that has no [api_token] column. *)
Definition fw1_no_token : gmap string (option string) :=
  list_to_map [("fgt_name", Some "fw1"); ("fw_ip", Some "10.0.0.1")].

(** The answers of an operator who first types a host name, and then a
    gateway with an octet out of range. *)
Definition operator : list string :=
  ["fortigate.local"; "192.0.2.1"; "wan1"; "192.0.2.300"; "192.0.2.254"].

(** A device with two VDOMs and no default route that refuses every PUT
    with status 500. *)
Definition put_refused (history : list request) (req : request) : reply :=
  match meth req with
  | GET =>
      match history with
      | [] => Reply (answer 200 "" (Some two_vdoms))
      | _ => Reply (answer 200 "" (Some routes_without_default))
      end
  | PUT => Reply (answer 500 "" None)
  | _ => Reply (answer 200 "" None)
  end.

(** The image under a directory, and nothing else. *)
Definition image_path : string := "/srv/images/FGT_v7.4.1.out".

Definition staged : world :=
  {| console := []; stdin := []; files := {[ image_path := "IMAGE" ]};
     permits := fun _ => true; codec := utf8_text; sent := []; server := healthy |}.

(** No file can be opened for writing. *)
Definition read_only (srv : list request -> request -> reply) : world :=
  {| console := []; stdin := [image]; files := {[ image := "IMAGE" ]};
     permits := fun _ => false; codec := utf8_text; sent := []; server := srv |}.

(** A configuration with a character outside ASCII, an e with an acute
    accent, code point 233; as a body in Latin-1 it is the same bytes. *)
Definition accented : string :=
  "set comment caf" +:+ String (ascii_of_nat 233) EmptyString.

Definition accented_answer : response := answer 200 accented None.

(** The backup is answered with that configuration. *)
Definition accented_backup (history : list request) (req : request) : reply :=
  match meth req with
  | POST => if is_backup req then Reply accented_answer else Reply upload_answer
  | _ => healthy history req
  end.

(** The same start on a platform whose text encoding is ASCII. *)
Definition c_locale (srv : list request -> request -> reply) : world :=
  {| console := []; stdin := [image]; files := {[ image := "IMG" ]};
     permits := fun _ => true; codec := ascii_text; sent := []; server := srv |}.

(** A device whose name in the inventory holds a NUL character. *)
Definition fw_nul : gmap string (option string) :=
  row_of ("fw" +:+ String (ascii_of_nat 0) EmptyString) "10.0.0.9" "tok9".



End Demo.

(** * Properties *)

Example parse_version_unpadded :
  Upgrade.parse_version_from_filename "FGT_60F-v7.2.10.b1234-1.2.3" = Some "v7.2.10".
Proof. reflexivity. Qed.

Example parse_version_leftmost :
  Upgrade.parse_version_from_filename "v1.2-3.44.5x" = Some "v3.44.5".
Proof. reflexivity. Qed.

Example b64encode_Man : Upgrade.b64encode "Man" = "TWFu".
Proof. reflexivity. Qed.

Example b64encode_Ma : Upgrade.b64encode "Ma" = "TWE=".
Proof. reflexivity. Qed.

Example b64encode_M : Upgrade.b64encode "M" = "TQ==".
Proof. reflexivity. Qed.

Example b64encode_hello : Upgrade.b64encode "hello world!?" = "aGVsbG8gd29ybGQhPw==".
Proof. reflexivity. Qed.

Example basename_path : Upgrade.basename "/tmp/img/FGT_v7.4.1.out" = "FGT_v7.4.1.out".
Proof. reflexivity. Qed.

Example py_int_plain : Sdwan.py_int " 12 " = Return 12.
Proof. vm_compute. reflexivity. Qed.

Example py_int_signed : Sdwan.py_int "-1_000" = Return (-1000).
Proof. vm_compute. reflexivity. Qed.

Example py_int_bad : Sdwan.py_int "1__0" = Raise ValueError /\ Sdwan.py_int "" = Raise ValueError
  /\ Sdwan.py_int "two" = Raise ValueError /\ Sdwan.py_int "+ 1" = Raise ValueError.
Proof. vm_compute. repeat split; reflexivity. Qed.

(** ** Strings *)

Lemma str_app_cons (a : ascii) (s t : string) : String a s +:+ t = String a (s +:+ t).
Proof. reflexivity. Qed.

Lemma str_app_empty_l (s : string) : "" +:+ s = s.
Proof. reflexivity. Qed.

Lemma str_app_empty_r (s : string) : s +:+ "" = s.
Proof. induction s as [|a s IH]; [reflexivity|]. rewrite str_app_cons, IH. reflexivity. Qed.

Lemma str_app_assoc (s t u : string) : (s +:+ t) +:+ u = s +:+ t +:+ u.
Proof.
  induction s as [|a s IH]; [reflexivity|].
  rewrite !str_app_cons, IH. reflexivity.
Qed.

(** ** The matcher *)
Module ReFacts.
Import Re.

Lemma pushes_opened (d acc : string) : pushes d (Opened acc) = Opened (acc +:+ d).
Proof.
  revert acc. induction d as [|a d IH]; intros acc; simpl.
  - rewrite str_app_empty_r. reflexivity.
  - rewrite IH, str_app_assoc. reflexivity.
Qed.

Lemma exec_one_inv c p s g r :
  exec (Item c One :: p) s g = Some r ->
  exists a s', s = String a s' /\ accepts c a = true /\ exec p s' (push a g) = Some r.
Proof.
  simpl. destruct s as [|a s']; [discriminate|].
  destruct (accepts c a) eqn:Ha; [|discriminate].
  intros H. exists a, s'. auto.
Qed.

Lemma exec_opt_inv c p s g r :
  exec (Item c Opt :: p) s g = Some r ->
  (exists a s', s = String a s' /\ accepts c a = true /\ exec p s' (push a g) = Some r)
  \/ exec p s g = Some r.
Proof.
  simpl. destruct s as [|a s']; [auto|].
  destruct (accepts c a) eqn:Ha; [|auto].
  destruct (exec p s' (push a g)) as [r'|] eqn:He; [|auto].
  intros [= <-]. left. exists a, s'. auto.
Qed.

Lemma exec_plus_inv c p s g r :
  exec (Item c Plus :: p) s g = Some r ->
  exists d rest, s = d +:+ rest /\ d <> "" /\ all_in c d = true
                 /\ exec p rest (pushes d g) = Some r.
Proof.
  revert g. induction s as [|a s' IH]; intros g; [discriminate|].
  simpl. destruct (accepts c a) eqn:Ha; [|discriminate].
  change ((fix plus (s : string) (g : capture) {struct s} : option capture :=
             match s with
             | String a s' =>
                 if accepts c a then
                   match plus s' (push a g) with
                   | Some r => Some r
                   | None => exec p s' (push a g)
                   end
                 else None
             | EmptyString => None
             end) s' (push a g))
    with (exec (Item c Plus :: p) s' (push a g)).
  destruct (exec (Item c Plus :: p) s' (push a g)) as [r'|] eqn:He.
  - intros [= <-]. destruct (IH _ He) as (d & rest & -> & Hd & Hall & Hr).
    exists (String a d), rest. simpl. rewrite Ha, Hall. auto.
  - intros H. exists (String a ""), s'. simpl. rewrite Ha. auto.
Qed.

(** Greedy: when the rest of the pattern cannot fail, [+] takes every
    character of its class. *)
Lemma exec_plus_greedy c p s g r :
  (forall s' g', exec p s' g' <> None) ->
  exec (Item c Plus :: p) s g = Some r ->
  exists d rest, s = d +:+ rest /\ d <> "" /\ all_in c d = true /\ stops c rest
                 /\ exec p rest (pushes d g) = Some r.
Proof.
  intros Htot. revert g. induction s as [|a s' IH]; intros g; [discriminate|].
  simpl. destruct (accepts c a) eqn:Ha; [|discriminate].
  change ((fix plus (s : string) (g : capture) {struct s} : option capture :=
             match s with
             | String a s' =>
                 if accepts c a then
                   match plus s' (push a g) with
                   | Some r => Some r
                   | None => exec p s' (push a g)
                   end
                 else None
             | EmptyString => None
             end) s' (push a g))
    with (exec (Item c Plus :: p) s' (push a g)).
  destruct (exec (Item c Plus :: p) s' (push a g)) as [r'|] eqn:He.
  - intros [= <-]. destruct (IH _ He) as (d & rest & -> & Hd & Hall & Hstop & Hr).
    exists (String a d), rest. simpl. rewrite Ha, Hall. auto.
  - intros H. exists (String a ""), s'. simpl. rewrite Ha.
    repeat split; auto.
    destruct s' as [|b s'']; [exact I|]. simpl.
    destruct (accepts c b) eqn:Hb; [|reflexivity].
    exfalso. simpl in He. rewrite Hb in He.
    destruct s'' as [|b' s3].
    + destruct (exec p "" (push b (push a g))) eqn:E; [discriminate|].
      exact (Htot _ _ E).
    + destruct (accepts c b');
        repeat match type of He with
               | match ?x with _ => _ end = None => destruct x eqn:?; try discriminate
               end;
        eapply Htot; eassumption.
Qed.

Lemma exec_plus_intro c p d rest g :
  d <> "" -> all_in c d = true ->
  is_Some (exec p rest (pushes d g)) ->
  is_Some (exec (Item c Plus :: p) (d +:+ rest) g).
Proof.
  revert g. induction d as [|a d IH]; intros g Hd Hall Hr; [congruence|].
  simpl in Hall. apply andb_prop in Hall as [Ha Hall].
  rewrite str_app_cons. simpl. rewrite Ha.
  change ((fix plus (s : string) (g : capture) {struct s} : option capture :=
             match s with
             | String a s' =>
                 if accepts c a then
                   match plus s' (push a g) with
                   | Some r => Some r
                   | None => exec p s' (push a g)
                   end
                 else None
             | EmptyString => None
             end) (d +:+ rest) (push a g))
    with (exec (Item c Plus :: p) (d +:+ rest) (push a g)).
  destruct (exec (Item c Plus :: p) (d +:+ rest) (push a g)) as [r|] eqn:He; [eauto|].
  destruct d as [|b d'].
  - exact Hr.
  - assert (is_Some (exec (Item c Plus :: p) (String b d' +:+ rest) (push a g))) as [r Hr'].
    { apply IH; [discriminate|exact Hall|exact Hr]. }
    congruence.
Qed.

Lemma exec_one_intro c p a s g :
  accepts c a = true -> is_Some (exec p s (push a g)) ->
  is_Some (exec (Item c One :: p) (String a s) g).
Proof. intros Ha H. simpl. rewrite Ha. exact H. Qed.

Lemma exec_opt_skip c p s g :
  is_Some (exec p s g) -> is_Some (exec (Item c Opt :: p) s g).
Proof.
  intros H. simpl. destruct s as [|a s']; [exact H|].
  destruct (accepts c a); [|exact H].
  destruct (exec p s' (push a g)); eauto.
Qed.

Lemma exec_opt_take c p a s g :
  accepts c a = true -> is_Some (exec p s (push a g)) ->
  is_Some (exec (Item c Opt :: p) (String a s) g).
Proof. intros Ha [r Hr]. simpl. rewrite Ha, Hr. eauto. Qed.

(** [search] returns the match at the first position that has one. *)
Lemma search_Some p s r :
  search p s = Some r ->
  exists pre s', s = pre +:+ s' /\ exec p s' Unset = Some r
    /\ forall pre1 pre2, pre = pre1 +:+ pre2 -> pre2 <> "" ->
                         exec p (pre2 +:+ s') Unset = None.
Proof.
  induction s as [|a s IH]; simpl.
  - destruct (exec p "" Unset) as [r'|] eqn:He; [|discriminate].
    intros [= <-]. exists "", "". repeat split; auto.
    intros pre1 pre2 Hp Hne. destruct pre1, pre2; try discriminate. congruence.
  - destruct (exec p (String a s) Unset) as [r'|] eqn:He.
    + intros [= <-]. exists "", (String a s). repeat split; auto.
      intros pre1 pre2 Hp Hne. destruct pre1, pre2; try discriminate. congruence.
    + intros H. destruct (IH H) as (pre & s' & -> & Hex & Hleft).
      exists (String a pre), s'. repeat split; auto.
      intros pre1 pre2 Hp Hne. destruct pre1 as [|b pre1].
      * rewrite str_app_empty_l in Hp. subst pre2. exact He.
      * rewrite str_app_cons in Hp. injection Hp as _ Hp. eauto.
Qed.

Lemma search_None p s :
  search p s = None <-> forall pre s', s = pre +:+ s' -> exec p s' Unset = None.
Proof.
  induction s as [|a s IH]; simpl.
  - destruct (exec p "" Unset) as [r'|] eqn:He; split; try discriminate; auto.
    + intros H. rewrite <- He. apply (H ""). reflexivity.
    + intros _ pre s' Hp. destruct pre, s'; try discriminate. exact He.
  - destruct (exec p (String a s) Unset) as [r'|] eqn:He; split; try discriminate.
    + intros H. rewrite <- He. apply (H ""). reflexivity.
    + intros H pre s' Hp. destruct pre as [|b pre].
      * rewrite str_app_empty_l in Hp. subst s'. exact He.
      * rewrite str_app_cons in Hp. injection Hp as _ Hp.
        destruct IH as [IH _]. eauto.
    + intros H. apply IH. intros pre s' ->. apply (H (String a pre)). reflexivity.
Qed.

End ReFacts.

(** ** C4: the version in the file name *)
Module VersionFacts.
Import Re ReFacts VersionSpec.

Lemma exec_close_total s g : exec [GroupClose] s g <> None.
Proof. discriminate. Qed.

Lemma exec_group_inv s g0 r :
  exec group_pattern s g0 = Some r ->
  exists g post, s = g +:+ post /\ dotted_version g /\ r = Closed g /\ stops Digit post.
Proof.
  unfold group_pattern, Upgrade.version_pattern, tail.
  change (exec (GroupOpen :: ?p) s g0) with (exec p s (Opened "")).
  intros H.
  apply exec_plus_inv in H as (a & s1 & -> & Ha & Hall_a & H).
  apply exec_one_inv in H as (x & s2 & -> & Hx & H).
  apply exec_plus_inv in H as (b & s3 & -> & Hb & Hall_b & H).
  apply exec_one_inv in H as (y & s4 & -> & Hy & H).
  apply (exec_plus_greedy _ _ _ _ _ exec_close_total) in H
    as (c & post & -> & Hc & Hall_c & Hstop & H).
  simpl in Hx, Hy. apply Ascii.eqb_eq in Hx, Hy. subst x y.
  rewrite pushes_opened in H. simpl push in H.
  rewrite pushes_opened in H. simpl push in H.
  rewrite pushes_opened in H. simpl in H. injection H as <-.
  exists (a +:+ "." +:+ b +:+ "." +:+ c), post.
  repeat split.
  - rewrite !str_app_assoc, !str_app_cons, !str_app_empty_l. reflexivity.
  - exists a, b, c. repeat split; assumption.
  - rewrite !str_app_assoc, !str_app_cons, !str_app_empty_l. reflexivity.
  - exact Hstop.
Qed.

Lemma exec_group_intro g post g0 :
  dotted_version g -> is_Some (exec group_pattern (g +:+ post) g0).
Proof.
  intros (a & b & c & -> & [Ha Hall_a] & [Hb Hall_b] & [Hc Hall_c]).
  unfold group_pattern, Upgrade.version_pattern, tail.
  change (exec (GroupOpen :: ?p) ?s g0) with (exec p s (Opened "")).
  rewrite !str_app_assoc. apply exec_plus_intro; [assumption..|].
  rewrite str_app_cons, str_app_empty_l. apply exec_one_intro; [reflexivity|].
  apply exec_plus_intro; [assumption..|].
  rewrite str_app_cons, str_app_empty_l. apply exec_one_intro; [reflexivity|].
  apply exec_plus_intro; [assumption..|].
  simpl. eauto.
Qed.

Lemma exec_version_inv s r :
  exec Upgrade.version_pattern s Unset = Some r ->
  exists v g post, s = v +:+ g +:+ post /\ (v = "" \/ v = "v")
                   /\ dotted_version g /\ r = Closed g /\ stops Digit post.
Proof.
  intros H. apply exec_opt_inv in H as [(a & s' & -> & Ha & H)|H].
  - apply exec_group_inv in H as (g & post & -> & Hg & -> & Hstop).
    simpl in Ha. apply Ascii.eqb_eq in Ha. subst a.
    exists "v", g, post. auto.
  - apply exec_group_inv in H as (g & post & -> & Hg & -> & Hstop).
    exists "", g, post. auto.
Qed.

Lemma exec_version_intro g post :
  dotted_version g -> is_Some (exec Upgrade.version_pattern (g +:+ post) Unset).
Proof.
  intros Hg. apply exec_opt_skip. apply (exec_group_intro g post Unset Hg).
Qed.

Lemma split_before_last (s p1 p2 : string) (a : ascii) :
  s +:+ String a "" = p1 +:+ p2 -> p2 <> "" ->
  exists p2', p2 = p2' +:+ String a "" /\ s = p1 +:+ p2'.
Proof.
  revert s. induction p1 as [|z p1 IH]; intros s Hp Hne.
  - exists s. rewrite str_app_empty_l in Hp. auto.
  - destruct s as [|z' s].
    + rewrite str_app_empty_l, str_app_cons in Hp. injection Hp as _ Hp.
      destruct p1; [|discriminate]. rewrite str_app_empty_l in Hp. congruence.
    + rewrite !str_app_cons in Hp. injection Hp as -> Hp.
      destruct (IH s Hp Hne) as (p2' & -> & ->). exists p2'. auto.
Qed.

Lemma dotted_version_head g rest a s :
  dotted_version g -> g +:+ rest = String a s -> is_digit a = true.
Proof.
  intros (x & y & z & -> & [Hx Hall] & _) Heq.
  destruct x as [|b x]; [congruence|].
  rewrite !str_app_cons in Heq. injection Heq as <- _.
  simpl in Hall. apply andb_prop in Hall as [Hb _]. exact Hb.
Qed.

Lemma parse_version_Some filename r :
  Upgrade.parse_version_from_filename filename = Some r ->
  exists pre g post,
    r = "v" +:+ g /\ filename = pre +:+ g +:+ post /\ dotted_version g
    /\ stops Digit post
    /\ (forall pre1 pre2 g' post',
          pre = pre1 +:+ pre2 -> pre2 <> "" ->
          pre2 +:+ g +:+ post = g' +:+ post' -> ~ dotted_version g').
Proof.
  unfold Upgrade.parse_version_from_filename.
  destruct (search Upgrade.version_pattern filename) as [m|] eqn:Hs; [|discriminate].
  apply search_Some in Hs as (pre & s' & -> & Hex & Hleft).
  apply exec_version_inv in Hex as (v & g & post & -> & Hv & Hg & -> & Hstop).
  simpl. intros [= <-].
  exists (pre +:+ v), g, post. repeat split; auto.
  - rewrite str_app_assoc. reflexivity.
  - intros pre1 pre2 g' post' Hp Hne Heq Hg'.
    assert (forall q1 q2, pre = q1 +:+ q2 -> q2 <> "" ->
              q2 +:+ v +:+ g +:+ post = g' +:+ post' -> False) as Hin.
    { intros q1 q2 Hq Hq2 Hq3. specialize (Hleft q1 q2 Hq Hq2). rewrite Hq3 in Hleft.
      destruct (exec_version_intro g' post' Hg') as [x Hx]. congruence. }
    destruct Hv as [-> | ->].
    + rewrite str_app_empty_r in Hp. apply (Hin pre1 pre2 Hp Hne). exact Heq.
    + destruct (split_before_last _ _ _ _ Hp Hne) as (q2 & -> & Hq).
      destruct q2 as [|z q2].
      * (* the match starts at the "v", which no version starts with *)
        rewrite str_app_empty_l, str_app_cons in Heq. symmetry in Heq.
        pose proof (dotted_version_head _ _ _ _ Hg' Heq). discriminate.
      * apply (Hin pre1 (String z q2) Hq); [discriminate|].
        rewrite str_app_assoc in Heq. exact Heq.
Qed.

Lemma parse_version_None filename :
  Upgrade.parse_version_from_filename filename = None <-> ~ contains_version filename.
Proof.
  unfold Upgrade.parse_version_from_filename. split.
  - destruct (search Upgrade.version_pattern filename) as [m|] eqn:Hs.
    + apply search_Some in Hs as (pre & s' & _ & Hex & _).
      apply exec_version_inv in Hex as (v & g & post & _ & _ & _ & -> & _). discriminate.
    + intros _ (pre & g & post & -> & Hg).
      destruct (search_None Upgrade.version_pattern (pre +:+ g +:+ post)) as [Hn _].
      specialize (Hn Hs pre (g +:+ post) eq_refl).
      destruct (exec_version_intro g post Hg) as [x Hx]. congruence.
  - intros Hno.
    destruct (search Upgrade.version_pattern filename) as [m|] eqn:Hs; [|reflexivity].
    exfalso. apply Hno.
    apply search_Some in Hs as (pre & s' & -> & Hex & _).
    apply exec_version_inv in Hex as (v & g & post & -> & _ & Hg & _).
    exists (pre +:+ v), g, post. rewrite str_app_assoc. auto.
Qed.

End VersionFacts.

(** C4. [parse_version_from_filename] (the specification's [extractVersion])
    looks for three groups of digits separated by dots, with an optional
    "v" in front.  When it returns a string, that is "v" followed by such a
    version [g] occurring in the file name; [g] is the first one from the
    left and its last group of digits is not cut short.  It returns [None]
    (the specification's "none") exactly when the file name contains no such
    version.  On "FGT_upgrade_v7.4.1.out" the result is "v7.4.1", on
    "firmware_image.out" it is [None]. *)
Theorem C4_extract_version :
  (forall filename r,
     Upgrade.parse_version_from_filename filename = Some r ->
     exists pre g post,
       r = "v" +:+ g /\ filename = pre +:+ g +:+ post /\ VersionSpec.dotted_version g
       /\ Re.stops Re.Digit post
       /\ (forall pre1 pre2 g' post',
             pre = pre1 +:+ pre2 -> pre2 <> "" ->
             pre2 +:+ g +:+ post = g' +:+ post' -> ~ VersionSpec.dotted_version g'))
  /\ (forall filename,
        Upgrade.parse_version_from_filename filename = None
        <-> ~ VersionSpec.contains_version filename)
  /\ Upgrade.parse_version_from_filename "FGT_upgrade_v7.4.1.out" = Some "v7.4.1"
  /\ Upgrade.parse_version_from_filename "firmware_image.out" = None.
Proof.
  split; [exact VersionFacts.parse_version_Some|].
  split; [exact VersionFacts.parse_version_None|].
  split; reflexivity.
Qed.

(** ** Runs *)
Module RunFacts.

Lemma add_lines_nil w : add_lines [] w = w.
Proof. destruct w; reflexivity. Qed.

Lemma add_lines_app l1 l2 w : add_lines l1 (add_lines l2 w) = add_lines (l1 ++ l2) w.
Proof. unfold add_lines. simpl. rewrite List.app_assoc. reflexivity. Qed.

Lemma prints_print l : prints (print l).
Proof. intros w. exists [Line l], (Return tt). reflexivity. Qed.

Lemma prints_lift {A} (o : outcome A) : prints (lift o).
Proof. intros w. exists [], o. rewrite add_lines_nil. reflexivity. Qed.

Lemma prints_ret {A} (a : A) : prints (ret a).
Proof. intros w. exists [], (Return a). rewrite add_lines_nil. reflexivity. Qed.

Lemma prints_bind {A B} (m : Py A) (k : A -> Py B) :
  prints m -> (forall a, prints (k a)) -> prints (bind m k).
Proof.
  intros Hm Hk w. unfold bind. destruct (Hm w) as (ls & o & ->).
  destruct o as [a|e].
  - destruct (Hk a (add_lines ls w)) as (ls' & o' & ->).
    exists (ls' ++ ls)%list, o'. rewrite add_lines_app. reflexivity.
  - exists ls, (Raise e). reflexivity.
Qed.

Lemma prints_for_each {A} (l : list A) (body : A -> Py unit) :
  (forall x, prints (body x)) -> prints (for_each l body).
Proof.
  intros Hb. induction l as [|x l IH]; simpl.
  - apply prints_ret.
  - apply prints_bind; auto.
Qed.

Lemma prints_frame {A} (m : Py A) w w' o :
  prints m -> m w = (w', o) ->
  sent w' = sent w /\ server w' = server w /\ files w' = files w
  /\ writable w' = writable w /\ stdin w' = stdin w.
Proof.
  intros Hm H. destruct (Hm w) as (ls & o' & E). rewrite E in H.
  injection H as <- _. auto.
Qed.

Lemma extends_refl w : extends w w.
Proof. repeat split; exists []; reflexivity. Qed.

Lemma extends_trans w1 w2 w3 : extends w1 w2 -> extends w2 w3 -> extends w1 w3.
Proof.
  intros (Hs & [ls Hc] & [rs Hr]) (Hs' & [ls' Hc'] & [rs' Hr']).
  repeat split.
  - congruence.
  - exists (ls' ++ ls)%list. rewrite Hc', Hc, List.app_assoc. reflexivity.
  - exists (rs' ++ rs)%list. rewrite Hr', Hr, List.app_assoc. reflexivity.
Qed.

Lemma steady_ret {A} (a : A) : steady (ret a).
Proof. intros w w' o [= <- _]. apply extends_refl. Qed.

Lemma steady_raise {A} e : steady (@raise A e).
Proof. intros w w' o [= <- _]. apply extends_refl. Qed.

Lemma steady_lift {A} (o : outcome A) : steady (lift o).
Proof. intros w w' o' [= <- _]. apply extends_refl. Qed.

Lemma steady_print l : steady (print l).
Proof.
  intros w w' o [= <- _]. repeat split; simpl.
  - exists [Line l]. reflexivity.
  - exists []. reflexivity.
Qed.

Lemma steady_input prompt : steady (input prompt).
Proof.
  intros w w' o. unfold input.
  destruct (stdin w); intros [= <- _]; repeat split; simpl;
    try (exists [Ask prompt]; reflexivity); exists []; reflexivity.
Qed.

Lemma steady_read_file name : steady (read_file name).
Proof.
  intros w w' o. unfold read_file.
  destruct (files w !! name); intros [= <- _]; apply extends_refl.
Qed.

Lemma steady_write_file name content : steady (write_file name content).
Proof.
  intros w w' o. unfold write_file.
  destruct (has_nul name); [intros [= <- _]; apply extends_refl|].
  destruct (permits w name); [|intros [= <- _]; apply extends_refl].
  destruct (codec w content); intros [= <- _];
    repeat split; simpl; exists []; reflexivity.
Qed.

Lemma steady_http req : steady (http req).
Proof.
  intros w w' o. unfold http.
  destruct (server w (sent w) req); intros [= <- _]; repeat split; simpl;
    try (exists [req]; reflexivity); exists []; reflexivity.
Qed.

Lemma steady_response_json r : steady (response_json r).
Proof. unfold response_json. destruct (json r); [apply steady_ret | apply steady_raise]. Qed.

Lemma steady_bind {A B} (m : Py A) (k : A -> Py B) :
  steady m -> (forall a, steady (k a)) -> steady (bind m k).
Proof.
  intros Hm Hk w w' o. unfold bind.
  destruct (m w) as [w1 [a|e]] eqn:E.
  - intros H. eapply extends_trans; [eapply Hm; exact E | eapply Hk; exact H].
  - intros [= <- _]. eapply Hm; exact E.
Qed.

Lemma steady_try_except {A} (m : Py A) (h : exn -> Py A) :
  steady m -> (forall e, steady (h e)) -> steady (try_except m h).
Proof.
  intros Hm Hh w w' o. unfold try_except.
  destruct (m w) as [w1 [a|e]] eqn:E.
  - intros [= <- _]. eapply Hm; exact E.
  - destruct (is_Exception e).
    + intros H. eapply extends_trans; [eapply Hm; exact E | eapply Hh; exact H].
    + intros [= <- _]. eapply Hm; exact E.
Qed.

Lemma steady_for_each {A} (l : list A) (body : A -> Py unit) :
  (forall x, steady (body x)) -> steady (for_each l body).
Proof.
  intros Hb. induction l as [|x l IH]; simpl.
  - apply steady_ret.
  - apply steady_bind; auto.
Qed.

Lemma prints_steady {A} (m : Py A) : prints m -> steady m.
Proof.
  intros Hm w w' o H. destruct (Hm w) as (ls & o' & E). rewrite E in H.
  injection H as <- _. repeat split; simpl; [exists ls | exists []]; reflexivity.
Qed.

End RunFacts.

Create HintDb steady.

#[local] Hint Resolve RunFacts.steady_ret RunFacts.steady_raise RunFacts.steady_lift
  RunFacts.steady_print RunFacts.steady_input RunFacts.steady_read_file
  RunFacts.steady_write_file RunFacts.steady_http RunFacts.steady_response_json
  RunFacts.steady_for_each : steady.

(** Splits a computation along its binds and branches, down to the steps
    the hint database knows. *)
Ltac steady_steps :=
  repeat first
    [ progress eauto with steady
    | apply RunFacts.steady_bind; [|intros ?]
    | apply RunFacts.steady_try_except; [|intros ?]
    | apply RunFacts.steady_for_each; intros ?
    | match goal with
      | |- steady (match ?x with _ => _ end) => destruct x
      | |- steady (if ?b then _ else _) => destruct b
      | |- steady (let '(_, _) := ?x in _) => destruct x
      end ].

(** ** The upgrade script, function by function *)
Module UpgradeFacts.
Import Upgrade UpgradeSpec RunFacts.

Lemma dict_get_field d k : dict_get (VDict d) k = Return (field (VDict d) k).
Proof. reflexivity. Qed.

Lemma getitem_field fw k v : getitem fw k = Return v -> field fw k = v.
Proof.
  destruct fw; try discriminate. simpl.
  destruct (d !! k); [|discriminate]. intros [= <-]. reflexivity.
Qed.

Lemma eq_str_true v s : eq_str v s = true -> v = VStr s.
Proof.
  destruct v; try discriminate. simpl. intros H. apply String.eqb_eq in H. congruence.
Qed.

Lemma candidate_fields fw :
  getitem (candidate_of fw) "version" = Return (field fw "version")
  /\ getitem (candidate_of fw) "build" = Return (field fw "build")
  /\ getitem (candidate_of fw) "release-type" = Return (field fw "release-type")
  /\ getitem (candidate_of fw) "maturity" = Return (field fw "maturity")
  /\ getitem (candidate_of fw) "notes" = Return (field fw "notes").
Proof. repeat split. Qed.

Lemma collect_firmware_cons d rest acc :
  collect_firmware (VDict d :: rest) acc
  = if complete (VDict d) then collect_firmware rest (acc ++ [candidate_of (VDict d)])
    else collect_firmware rest acc.
Proof. reflexivity. Qed.

Lemma collect_firmware_Return entries acc l :
  collect_firmware entries acc = Return l ->
  Forall is_dict entries /\ l = (acc ++ map candidate_of (List.filter complete entries))%list.
Proof.
  revert acc. induction entries as [|fw rest IH]; intros acc.
  - simpl. intros [= <-]. rewrite app_nil_r. auto.
  - destruct fw as [| | | | | |d]; try discriminate.
    rewrite collect_firmware_cons. cbn [List.filter].
    destruct (complete (VDict d)) eqn:Hc.
    + intros H. apply IH in H as [Hd ->]. split; [constructor; [exact I|exact Hd]|].
      cbn [map]. rewrite <- List.app_assoc. reflexivity.
    + intros H. apply IH in H as [Hd ->]. split; [constructor; [exact I|exact Hd]|reflexivity].
Qed.

Lemma collect_firmware_dicts entries acc :
  Forall is_dict entries ->
  collect_firmware entries acc
  = Return (acc ++ map candidate_of (List.filter complete entries))%list.
Proof.
  intros H. revert acc. induction H as [|fw rest Hfw _ IH]; intros acc.
  - simpl. rewrite app_nil_r. reflexivity.
  - destruct fw as [| | | | | |d]; try contradiction.
    rewrite collect_firmware_cons. cbn [List.filter].
    destruct (complete (VDict d)) eqn:Hc; rewrite IH; [|reflexivity].
    cbn [map]. rewrite <- List.app_assoc. reflexivity.
Qed.

Lemma find_version_true entries version :
  find_version entries version = Return true ->
  exists c, findCandidate entries version = Some c /\ field c "version" = VStr version.
Proof.
  unfold findCandidate. induction entries as [|fw rest IH]; simpl; [discriminate|].
  destruct (getitem fw "version") as [v|] eqn:Hv; [|discriminate]. simpl.
  rewrite (getitem_field _ _ _ Hv).
  destruct (eq_str v version) eqn:He.
  - intros _. exists fw. split; [reflexivity|].
    rewrite (getitem_field _ _ _ Hv). apply eq_str_true. exact He.
  - exact IH.
Qed.

(** On the candidates [get_available_firmware] returns, the search of
    [main] does not raise and finds what [findCandidate] finds. *)
Lemma find_version_candidates raw version :
  find_version (map candidate_of raw) version
  = Return (bool_decide (is_Some (findCandidate (map candidate_of raw) version))).
Proof.
  unfold findCandidate. induction raw as [|fw rest IH]; [reflexivity|].
  cbn [map find_version List.find].
  destruct (candidate_fields fw) as (-> & _). cbn [obind].
  assert (field (candidate_of fw) "version" = field fw "version") as -> by reflexivity.
  destruct (eq_str (field fw "version") version); [reflexivity|exact IH].
Qed.

Lemma decode_firmware_Return r cur avail :
  decode_firmware r = Return (cur, avail) ->
  exists body results current raw entries,
    json r = Some body /\ getitem body "results" = Return results
    /\ getitem results "current" = Return current
    /\ getitem current "version" = Return cur
    /\ getitem results "available" = Return raw
    /\ py_iter raw = Return entries
    /\ Forall is_dict entries
    /\ avail = VList (map candidate_of (List.filter complete entries)).
Proof.
  unfold decode_firmware. destruct (json r) as [body|]; [|discriminate].
  destruct (getitem body "results") as [results|] eqn:H1; [|discriminate]. cbn [obind].
  destruct (getitem results "current") as [current|] eqn:H2; [|discriminate]. cbn [obind].
  destruct (getitem current "version") as [cur'|] eqn:H3; [|discriminate]. cbn [obind].
  destruct (getitem results "available") as [raw|] eqn:H4; [|discriminate]. cbn [obind].
  destruct (py_iter raw) as [entries|] eqn:H5; [|discriminate]. cbn [obind].
  destruct (collect_firmware entries []) as [l|] eqn:H6; [|discriminate]. cbn [obind].
  intros [= <- <-]. apply collect_firmware_Return in H6 as [Hd ->].
  exists body, results, current, raw, entries. repeat split; auto.
Qed.

Lemma prints_print_firmware_options cur avail :
  prints (print_firmware_options cur avail).
Proof.
  unfold print_firmware_options.
  repeat first [ apply prints_bind; [|intros ?] | apply prints_print | apply prints_lift
               | apply prints_for_each; intros [? ?] ].
Qed.

Lemma for_each_candidates (raw : list value) (i : Z) w :
  for_each (enumerate_from i (map candidate_of raw)) (fun '(i, fw) =>
    do version <- lift (getitem fw "version");
    do build <- lift (getitem fw "build");
    do releaseType <- lift (getitem fw "release-type");
    do maturity <- lift (getitem fw "maturity");
    print [Fmt (VInt (i + 1)); Txt ". Version: "; Fmt version;
           Txt ", Build: "; Fmt build; Txt ", Release Type: "; Fmt releaseType;
           Txt ", Maturity: "; Fmt maturity]) w
  = (add_lines (rev (map (fun '(i, fw) => option_line i fw) (enumerate_from i raw))) w,
     Return tt).
Proof.
  revert i w. induction raw as [|fw rest IH]; intros i w.
  - simpl. rewrite add_lines_nil. reflexivity.
  - cbn [map enumerate_from for_each]. unfold bind at 1.
    unfold bind at 1 2 3 4, lift.
    destruct (candidate_fields fw) as (-> & -> & -> & -> & _).
    cbn [print]. rewrite IH. cbn [rev]. rewrite <- add_lines_app. reflexivity.
Qed.


Lemma get_available_firmware_run fw_ip api_token w :
  get_available_firmware fw_ip api_token w =
  match server w (sent w) (query_request fw_ip api_token) with
  | NoReply => (add_sent [query_request fw_ip api_token] w, Raise RequestException)
  | Reply r =>
      if status_code r =? 200 then
        (add_sent [query_request fw_ip api_token] w, decode_firmware r)
      else
        (add_lines [Line [Txt ("Error: unable to retrieve firmware versions from FortiGate API for firewall at " +:+ fw_ip)]]
           (add_sent [query_request fw_ip api_token] w),
         Return (VNone, VNone))
  end.
Proof.
  unfold get_available_firmware, requests_get, http, bind, query_request. simpl.
  destruct (server w (sent w) _) as [|r]; [reflexivity|].
  destruct (status_code r =? 200); [|reflexivity]. simpl.
  unfold decode_firmware, response_json, lift, ret, raise.
  destruct (json r) as [j|]; [|reflexivity]. simpl.
  destruct (getitem j "results") as [results|]; [|reflexivity]. simpl.
  destruct (getitem results "current") as [current|]; [|reflexivity]. simpl.
  destruct (getitem current "version") as [cur|]; [|reflexivity]. simpl.
  destruct (getitem results "available") as [available|]; [|reflexivity]. simpl.
  destruct (py_iter available) as [entries|]; [|reflexivity]. simpl.
  destruct (collect_firmware entries []) as [l|]; reflexivity.
Qed.

Lemma save_configuration_run fgt_name fw_ip api_token w :
  save_configuration fgt_name fw_ip api_token w =
  let w1 := add_sent [backup_request fw_ip api_token] w in
  match server w (sent w) (backup_request fw_ip api_token) with
  | NoReply => (w1, Raise RequestException)
  | Reply r =>
      if status_code r =? 200 then
        if has_nul (backup_filename fgt_name fw_ip) then (w1, Raise ValueError)
        else if permits w (backup_filename fgt_name fw_ip) then
          match codec w (text r) with
          | Some bytes =>
              (add_lines [Line [Txt ("Configuration file saved to " +:+ backup_filename fgt_name fw_ip)]]
                 (add_file (backup_filename fgt_name fw_ip) bytes w1),
               Return VNone)
          | None =>
              (add_file (backup_filename fgt_name fw_ip) "" w1, Raise ValueError)
          end
        else (w1, Raise OSError)
      else
        (add_lines [Line [Txt ("Error: unable to retrieve configuration file from FortiGate "
                               +:+ fgt_name +:+ " at " +:+ fw_ip)]] w1,
         Return VNone)
  end.
Proof.
  unfold save_configuration, requests_post, http, bind, backup_request. simpl.
  destruct (server w (sent w) _) as [|r]; [reflexivity|].
  destruct (status_code r =? 200); [|reflexivity]. simpl.
  unfold write_file. simpl.
  destruct (has_nul _); [reflexivity|].
  destruct (permits w _); [|reflexivity].
  destruct (codec w (text r)); reflexivity.
Qed.

Lemma upload_firmware_run fw_ip api_token filename w :
  upload_firmware fw_ip api_token filename w =
  match files w !! filename with
  | None => (w, Raise OSError)
  | Some content =>
      let w1 := add_sent [upload_request fw_ip api_token filename content] w in
      match server w (sent w) (upload_request fw_ip api_token filename content) with
      | NoReply => (w1, Raise RequestException)
      | Reply r =>
          if status_code r =? 200 then
            (w1, match json r with
                 | Some j => dict_get j "file_id"
                 | None => Raise JSONDecodeError
                 end)
          else
            (add_lines [Line [Txt ("Error: unable to upload firmware image to FortiGate device at " +:+ fw_ip)]] w1,
             Return VNone)
      end
  end.
Proof.
  unfold upload_firmware, read_file, requests_post, http, bind, upload_request.
  destruct (files w !! filename) as [content|]; [|reflexivity]. simpl.
  destruct (server w (sent w) _) as [|r]; [reflexivity|].
  destruct (status_code r =? 200); [|reflexivity]. simpl.
  unfold response_json. destruct (json r); reflexivity.
Qed.

Lemma save_configuration_sent fgt_name fw_ip api_token w w' o :
  save_configuration fgt_name fw_ip api_token w = (w', o) ->
  sent w' = backup_request fw_ip api_token :: sent w /\ server w' = server w
  /\ writable w' = writable w.
Proof.
  rewrite save_configuration_run. simpl.
  destruct (server w (sent w) _) as [|r]; [intros [= <- _]; auto|].
  destruct (status_code r =? 200); [|intros [= <- _]; auto].
  destruct (has_nul _); [intros [= <- _]; auto|].
  destruct (permits w _); [|intros [= <- _]; auto].
  destruct (codec w (text r)); intros [= <- _]; auto.
Qed.

Lemma upload_firmware_sent fw_ip api_token filename w w' o :
  upload_firmware fw_ip api_token filename w = (w', o) ->
  server w' = server w
  /\ match files w !! filename with
     | Some content => sent w' = upload_request fw_ip api_token filename content :: sent w
     | None => sent w' = sent w
     end.
Proof.
  rewrite upload_firmware_run.
  destruct (files w !! filename) as [content|]; [|intros [= <- _]; auto]. simpl.
  destruct (server w (sent w) _) as [|r]; [intros [= <- _]; auto|].
  destruct (status_code r =? 200); intros [= <- _]; auto.
Qed.

Lemma upgrade_posts_post filename fw_ip api_token posts :
  upgrade_posts filename fw_ip api_token posts -> Forall is_post posts.
Proof.
  intros [-> | [-> | [content ->]]]; repeat constructor.
Qed.

Lemma upgrade_device_sent filename version fgt_name fw_ip api_token w w' o :
  upgrade_device filename version fgt_name fw_ip api_token w = (w', o) ->
  exists posts,
    sent w' = (posts ++ query_request fw_ip api_token :: sent w)%list
    /\ upgrade_posts filename fw_ip api_token posts
    /\ server w' = server w
    /\ (posts <> [] ->
        exists rq cur avail c,
          server w (sent w) (query_request fw_ip api_token) = Reply rq
          /\ status_code rq = 200
          /\ decode_firmware rq = Return (cur, VList avail)
          /\ findCandidate avail version = Some c
          /\ field c "version" = VStr version).
Proof.
  assert (forall W : world, sent W = query_request fw_ip api_token :: sent w ->
            server W = server w ->
            exists posts, sent W = (posts ++ query_request fw_ip api_token :: sent w)%list
              /\ upgrade_posts filename fw_ip api_token posts /\ server W = server w
              /\ (posts <> [] -> exists rq cur avail c,
                   server w (sent w) (query_request fw_ip api_token) = Reply rq
                   /\ status_code rq = 200
                   /\ decode_firmware rq = Return (cur, VList avail)
                   /\ findCandidate avail version = Some c
                   /\ field c "version" = VStr version)) as Hnone.
  { intros W HW HS. exists []. repeat split; auto; [left; reflexivity | congruence]. }
  unfold upgrade_device, bind, try_except. simpl.
  rewrite get_available_firmware_run. simpl.
  destruct (server w (sent w) (query_request fw_ip api_token)) as [|rq] eqn:Hq; simpl.
  { intros [= <- <-]. apply Hnone; reflexivity. }
  destruct (status_code rq =? 200) eqn:Hs; simpl.
  2:{ intros [= <- <-]. apply Hnone; reflexivity. }
  apply Z.eqb_eq in Hs.
  destruct (decode_firmware rq) as [[cur avail]|e] eqn:Hd; simpl.
  2:{ destruct (is_Exception e); simpl; intros [= <- <-]; apply Hnone; reflexivity. }
  destruct (decode_firmware_Return _ _ _ Hd)
    as (body & results & current & raw & entries & _ & _ & _ & _ & _ & _ & _ & ->).
  set (l := map candidate_of (List.filter complete entries)) in *.
  match goal with
  | |- context [print_firmware_options ?c ?a ?W] =>
      destruct (prints_print_firmware_options c a W) as (ls & o1 & ->)
  end.
  destruct o1 as [[]|e]; simpl.
  2:{ intros [= <- <-]. apply Hnone; reflexivity. }
  unfold lift. simpl.
  destruct (find_version l version) as [[|]|e] eqn:Hf; simpl.
  2,3: intros [= <- <-]; apply Hnone; reflexivity.
  destruct (find_version_true _ _ Hf) as (c & Hc & Hcv).
  match goal with
  | |- context [save_configuration ?a ?b ?c ?W] =>
      destruct (save_configuration a b c W) as [w1 o1] eqn:Hsave
  end.
  apply save_configuration_sent in Hsave as (Hs1 & Hv1 & _). simpl in Hs1, Hv1.
  destruct o1 as [v1|e]; simpl.
  2:{ intros [= <- <-]. exists [backup_request fw_ip api_token].
      repeat split; eauto 10. right; left; reflexivity. }
  match goal with
  | |- context [upload_firmware ?a ?b ?c ?W] =>
      destruct (upload_firmware a b c W) as [w2 o2] eqn:Hup
  end.
  apply upload_firmware_sent in Hup as (Hv2 & Hs2). simpl in Hv2, Hs2.
  assert (exists posts, sent w2 = (posts ++ query_request fw_ip api_token :: sent w)%list
                        /\ upgrade_posts filename fw_ip api_token posts /\ posts <> []) as (posts & Hp & Hall & Hne).
  { destruct (files w1 !! filename) as [content|].
    - exists [upload_request fw_ip api_token filename content; backup_request fw_ip api_token].
      rewrite Hs2, Hs1. repeat split; [right; right; eauto | discriminate].
    - exists [backup_request fw_ip api_token].
      rewrite Hs2, Hs1. repeat split; [right; left; reflexivity | discriminate]. }
  destruct o2 as [v2|e]; simpl.
  - intros [= <- <-]. exists posts. simpl. repeat split; eauto 10. congruence.
  - destruct (is_Exception e); simpl; intros [= <- <-]; exists posts; simpl;
      repeat split; eauto 10; congruence.
Qed.
Lemma field_truthy_Some s : s <> "" -> field_truthy (Some s) = true.
Proof.
  intros H. simpl. destruct (String.eqb s "") eqn:E; [|reflexivity].
  apply String.eqb_eq in E. contradiction.
Qed.

Lemma loop_body_names filename version row fgt_name fw_ip api_token w :
  names row fgt_name fw_ip api_token ->
  loop_body filename version row w
  = upgrade_device filename version fgt_name fw_ip api_token w.
Proof.
  intros (H1 & H2 & H3 & N1 & N2 & N3).
  unfold loop_body, bind, lift, row_get. rewrite H1, H2, H3.
  rewrite !field_truthy_Some by assumption. reflexivity.
Qed.

Lemma loop_body_malformed filename version row w :
  malformed row ->
  loop_body filename version row w = (add_lines [missing_line row] w, Return tt).
Proof.
  intros (n & ip & t & H1 & H2 & H3 & Hf).
  unfold loop_body, bind, lift, row_get, missing_line. rewrite H1, H2, H3, Hf.
  reflexivity.
Qed.

(** A query answered with an error status: [get_available_firmware] returns
    [(None, None)], and [print_firmware_options] raises on it. *)
Lemma upgrade_device_query_status filename version fgt_name fw_ip api_token w r :
  server w (sent w) (query_request fw_ip api_token) = Reply r ->
  status_code r <> 200 ->
  upgrade_device filename version fgt_name fw_ip api_token w
  = (add_lines [Line [Txt "0. Current Version: "; Fmt VNone];
                Line [Txt ("Firmware Versions:" +:+ nl)];
                query_error_line fw_ip; connecting_line fgt_name fw_ip]
       (add_sent [query_request fw_ip api_token] w),
     Raise TypeError).
Proof.
  intros Hr Hs. apply Z.eqb_neq in Hs.
  unfold upgrade_device, bind, try_except. simpl.
  rewrite get_available_firmware_run. simpl. rewrite Hr, Hs. reflexivity.
Qed.

(** A query that fails in transport: the exception is caught and the
    workflow ends there. *)
Lemma upgrade_device_no_reply filename version fgt_name fw_ip api_token w :
  server w (sent w) (query_request fw_ip api_token) = NoReply ->
  upgrade_device filename version fgt_name fw_ip api_token w
  = (add_lines [connect_exception_line fgt_name fw_ip RequestException;
                connecting_line fgt_name fw_ip]
       (add_sent [query_request fw_ip api_token] w),
     Return tt).
Proof.
  intros Hr.
  unfold upgrade_device, bind, try_except. simpl.
  rewrite get_available_firmware_run. simpl. rewrite Hr. reflexivity.
Qed.

Lemma getitem_of_field c k s : field c k = VStr s -> getitem c k = Return (VStr s).
Proof.
  destruct c; try discriminate. simpl.
  destruct (d !! k); simpl; [congruence | discriminate].
Qed.


Lemma steady_upgrade_device filename version fgt_name fw_ip api_token :
  steady (upgrade_device filename version fgt_name fw_ip api_token).
Proof.
  unfold upgrade_device, get_available_firmware, print_firmware_options,
    save_configuration, upload_firmware, requests_get, requests_post.
  steady_steps.
Qed.

Lemma queries_posts posts rest :
  Forall is_post posts ->
  filter (fun req => is_get req = true) (posts ++ rest)%list
  = filter (fun req => is_get req = true) rest.
Proof.
  induction 1 as [|req posts Hreq _ IH]; [reflexivity|].
  simpl. rewrite filter_cons_False; [exact IH|].
  unfold is_get. unfold is_post in Hreq. rewrite Hreq. discriminate.
Qed.

Lemma upgrade_device_queries filename version fgt_name fw_ip api_token w w' o :
  upgrade_device filename version fgt_name fw_ip api_token w = (w', o) ->
  queries w' = query_request fw_ip api_token :: queries w.
Proof.
  intros H. apply upgrade_device_sent in H as (posts & Hs & Hp & _).
  unfold queries. rewrite Hs.
  rewrite queries_posts by eauto using upgrade_posts_post.
  rewrite filter_cons_True by reflexivity. reflexivity.
Qed.

Lemma for_each_malformed filename version row rest w :
  malformed row ->
  for_each (row :: rest) (loop_body filename version) w
  = for_each rest (loop_body filename version) (add_lines [missing_line row] w).
Proof.
  intros H. cbn [for_each]. unfold bind. rewrite (loop_body_malformed _ _ _ _ H).
  reflexivity.
Qed.

Lemma basename_from_no_slash acc s :
  no_slash s = true -> basename_from acc s = acc +:+ s.
Proof.
  revert acc. induction s as [|a s IH]; intros acc; simpl.
  - intros _. rewrite str_app_empty_r. reflexivity.
  - destruct (Ascii.eqb a "/"); [discriminate|]. simpl. intros H.
    rewrite (IH _ H), str_app_assoc. reflexivity.
Qed.

Lemma no_slash_app s t : no_slash (s +:+ t) = no_slash s && no_slash t.
Proof.
  induction s as [|a s IH]; [reflexivity|].
  rewrite str_app_cons. simpl. rewrite IH, andb_assoc. reflexivity.
Qed.

Lemma candidate_complete fw :
  complete (candidate_of fw) = complete fw.
Proof. reflexivity. Qed.

End UpgradeFacts.

(** ** The claims about the upgrade script *)
Section UpgradeClaims.
Import Upgrade UpgradeSpec RunFacts UpgradeFacts.

(** C1 (the code departs from the claim).  When the firmware query of a
    device is answered with a status other than 200, [get_available_firmware]
    returns [(None, None)], [print_firmware_options] raises [TypeError] on
    it outside every [try], and the loop of [main] ends there: the run
    raises [TypeError] and no request is sent for any later row. *)
Theorem C1_query_status_aborts_run filename version row rest fgt_name fw_ip api_token w r :
  names row fgt_name fw_ip api_token ->
  server w (sent w) (query_request fw_ip api_token) = Reply r ->
  status_code r <> 200 ->
  exists w',
    for_each (row :: rest) (loop_body filename version) w = (w', Raise TypeError)
    /\ sent w' = query_request fw_ip api_token :: sent w.
Proof.
  intros Hrow Hr Hs. cbn [for_each]. unfold bind.
  rewrite (loop_body_names _ _ _ _ _ _ _ Hrow).
  rewrite (upgrade_device_query_status _ _ _ _ _ _ _ Hr Hs).
  eexists. split; reflexivity.
Qed.

(** C2.  After its firmware query a device workflow sends nothing, or the
    backup request, or the backup request and the upload.  It sends any of
    them only if the firmware query of that same device returned a list of
    candidates in which [findCandidate], the first exact string match on the
    version, finds one: a candidate whose version is the requested string
    itself. *)
Theorem C2_upgrade_only_on_exact_match filename version fgt_name fw_ip api_token w w' o :
  upgrade_device filename version fgt_name fw_ip api_token w = (w', o) ->
  exists posts,
    sent w' = (posts ++ query_request fw_ip api_token :: sent w)%list
    /\ upgrade_posts filename fw_ip api_token posts
    /\ (posts <> [] ->
        exists w1 cur avail c,
          get_available_firmware fw_ip api_token
            (add_lines [connecting_line fgt_name fw_ip] w)
          = (w1, Return (cur, VList avail))
          /\ findCandidate avail version = Some c
          /\ getitem c "version" = Return (VStr version)).
Proof.
  intros H. apply upgrade_device_sent in H as (posts & Hs & Hp & _ & Hfound).
  exists posts. repeat split; auto.
  intros Hne. destruct (Hfound Hne) as (rq & cur & avail & c & Hq & Hst & Hd & Hc & Hv).
  rewrite get_available_firmware_run. simpl. rewrite Hq.
  apply Z.eqb_eq in Hst. rewrite Hst, Hd.
  eexists _, cur, avail, c. repeat split; auto using getitem_of_field.
Qed.


(** C5.  A row that has the three columns and leaves one of them empty or
    unset is skipped: the loop prints one error line for it, sends nothing,
    and goes on with the rest of the inventory.  With three rows of which
    the second is such a row, and a first device whose workflow ends
    normally, the first and the third device are the ones queried, in that
    order: two devices are processed, and the error of the second row is on
    the console. *)
Theorem C5_malformed_row_skipped :
  (forall filename version row rest w,
     malformed row ->
     for_each (row :: rest) (loop_body filename version) w
     = for_each rest (loop_body filename version) (add_lines [missing_line row] w))
  /\ (forall filename version row1 row2 row3 n1 ip1 t1 n3 ip3 t3 w w1,
        names row1 n1 ip1 t1 -> malformed row2 -> names row3 n3 ip3 t3 ->
        upgrade_device filename version n1 ip1 t1 w = (w1, Return tt) ->
        exists w' o,
          for_each [row1; row2; row3] (loop_body filename version) w = (w', o)
          /\ queries w' = query_request ip3 t3 :: query_request ip1 t1 :: queries w
          /\ length (queries w') = (length (queries w) + 2)%nat
          /\ In (missing_line row2) (console w')).
Proof.
  split; [exact for_each_malformed|].
  intros filename version row1 row2 row3 n1 ip1 t1 n3 ip3 t3 w w1 H1 H2 H3 Hrun.
  cbn [for_each]. unfold bind at 1.
  rewrite (loop_body_names _ _ _ _ _ _ _ H1), Hrun.
  unfold bind at 1. rewrite (loop_body_malformed _ _ _ _ H2).
  unfold bind at 1. rewrite (loop_body_names _ _ _ _ _ _ _ H3).
  destruct (upgrade_device filename version n3 ip3 t3 (add_lines [missing_line row2] w1))
    as [w3 o3] eqn:Hrun3.
  pose proof (upgrade_device_queries _ _ _ _ _ _ _ _ Hrun) as Hq1.
  pose proof (upgrade_device_queries _ _ _ _ _ _ _ _ Hrun3) as Hq3.
  pose proof (steady_upgrade_device _ _ _ _ _ _ _ _ Hrun3) as (_ & [ls Hc] & _).
  assert (queries w3 = query_request ip3 t3 :: query_request ip1 t1 :: queries w) as Hq.
  { rewrite Hq3. unfold queries at 1. cbn [add_lines sent]. fold (queries w1).
    rewrite Hq1. reflexivity. }
  assert (In (missing_line row2) (console w3)) as Hin.
  { rewrite Hc. apply in_or_app. right. left. reflexivity. }
  destruct o3 as [[]|e]; cbn [ret].
  - exists w3, (Return tt). repeat split; auto. rewrite Hq. simpl. lia.
  - exists w3, (Raise e). repeat split; auto. rewrite Hq. simpl. lia.
Qed.

(** C8 (amended).  When the backup request of a device is answered with
    status 200, [save_configuration] opens one file for writing: its path,
    relative to the working directory, is the name of the device, a dash,
    its address and "-config-backup.conf".  When the path has no NUL
    character, the operating system permits it and the platform can encode
    the text of the answer, that file is written and no other file changes:
    its content is the text of the answer in the text encoding of the
    platform, which is the raw body of the answer exactly when that encoding
    gives the bytes of the body back; and the path has no directory part
    when neither the name nor the address holds a slash.  Otherwise
    [save_configuration] raises [ValueError] or [OSError] and no backup is
    written: the files are as they were, or the backup file is left
    empty. *)
Theorem C8_backup_file fgt_name fw_ip api_token w r :
  server w (sent w) (backup_request fw_ip api_token) = Reply r ->
  status_code r = 200 ->
  (forall bytes,
     has_nul (backup_path fgt_name fw_ip) = false ->
     permits w (backup_path fgt_name fw_ip) = true ->
     codec w (text r) = Some bytes ->
     exists w',
       save_configuration fgt_name fw_ip api_token w = (w', Return VNone)
       /\ files w' = <[backup_path fgt_name fw_ip := bytes]> (files w)
       /\ files w' !! backup_path fgt_name fw_ip = Some bytes
       /\ (forall other, other <> backup_path fgt_name fw_ip ->
                         files w' !! other = files w !! other)
       /\ (files w' !! backup_path fgt_name fw_ip = Some (content r)
           <-> bytes = content r)
       /\ (no_slash fgt_name = true -> no_slash fw_ip = true ->
           basename (backup_path fgt_name fw_ip) = backup_path fgt_name fw_ip))
  /\ (has_nul (backup_path fgt_name fw_ip) = true
      \/ permits w (backup_path fgt_name fw_ip) = false
      \/ codec w (text r) = None ->
      exists w' e,
        save_configuration fgt_name fw_ip api_token w = (w', Raise e)
        /\ (e = ValueError \/ e = OSError)
        /\ (files w' = files w
            \/ files w' = <[backup_path fgt_name fw_ip := ""]> (files w))).
Proof.
  intros Hr Hs. apply Z.eqb_eq in Hs.
  change (backup_path fgt_name fw_ip) with (backup_filename fgt_name fw_ip).
  rewrite save_configuration_run. cbn zeta. rewrite Hr, Hs. split.
  - intros bytes Hn Hp Hc. rewrite Hn, Hp, Hc.
    eexists. split; [reflexivity|]. cbn [files add_lines add_file add_sent].
    split; [reflexivity|]. split; [apply lookup_insert_eq|].
    split; [intros other Hne; apply lookup_insert_ne; congruence|]. split.
    + rewrite lookup_insert_eq. split; [intros [= ->]; reflexivity|intros ->; reflexivity].
    + intros Hname Hip. unfold basename. rewrite basename_from_no_slash; [reflexivity|].
      unfold backup_filename. rewrite !no_slash_app, Hname, Hip. reflexivity.
  - intros H.
    destruct (has_nul (backup_filename fgt_name fw_ip)) eqn:Hn.
    { eexists _, _. split; [reflexivity|]. auto. }
    destruct (permits w (backup_filename fgt_name fw_ip)) eqn:Hp.
    2: { eexists _, _. split; [reflexivity|]. auto. }
    destruct H as [H|[H|H]]; try discriminate. rewrite H.
    eexists _, _. split; [reflexivity|]. auto.
Qed.

(** C10.  When the firmware query is answered with status 200 and
    [get_available_firmware] returns, the list it returns holds, in order,
    one candidate for each entry of the raw list whose version, build,
    release type and maturity are all truthy, and nothing else: every
    candidate has these four fields truthy, an entry with one of them
    missing or falsy leaves no candidate, and an entry with the four of them
    is kept whether or not it has notes. *)
Theorem C10_candidates_complete fw_ip api_token w w' r cur avail :
  server w (sent w) (query_request fw_ip api_token) = Reply r ->
  status_code r = 200 ->
  get_available_firmware fw_ip api_token w = (w', Return (cur, avail)) ->
  exists body results raw entries kept,
    json r = Some body /\ getitem body "results" = Return results
    /\ getitem results "available" = Return raw
    /\ py_iter raw = Return entries
    /\ kept = map candidate_of (List.filter complete entries)
    /\ avail = VList kept
    /\ (forall c, In c kept ->
          truthy (field c "version") = true /\ truthy (field c "build") = true
          /\ truthy (field c "release-type") = true
          /\ truthy (field c "maturity") = true)
    /\ (forall fw, In fw entries -> complete fw = false -> ~ In (candidate_of fw) kept)
    /\ (forall fw, In fw entries -> complete fw = true ->
          In (candidate_of fw) kept
          /\ getitem (candidate_of fw) "notes" = Return (field fw "notes")).
Proof.
  intros Hr Hs. apply Z.eqb_eq in Hs.
  rewrite get_available_firmware_run, Hr, Hs. intros [= _ Hd].
  apply decode_firmware_Return in Hd
    as (body & results & current & raw & entries & Hj & Hres & _ & _ & Hraw & Hit & _ & ->).
  exists body, results, raw, entries, (map candidate_of (List.filter complete entries)).
  assert (forall c, In c (map candidate_of (List.filter complete entries)) ->
                    complete c = true) as Hkept.
  { intros c Hc. apply in_map_iff in Hc as (fw & <- & Hfw).
    apply filter_In in Hfw as [_ Hfw]. rewrite candidate_complete. exact Hfw. }
  split; [exact Hj|]. split; [exact Hres|]. split; [exact Hraw|].
  split; [exact Hit|]. split; [reflexivity|]. split; [reflexivity|].
  split; [|split].
  - intros c Hc. specialize (Hkept c Hc). unfold complete in Hkept.
    apply andb_prop in Hkept as [Hkept Hm].
    apply andb_prop in Hkept as [Hkept Hrt].
    apply andb_prop in Hkept as [Hv Hb]. auto.
  - intros fw _ Hc Hin. apply Hkept in Hin. rewrite candidate_complete in Hin.
    congruence.
  - intros fw Hfw Hc. split; [|reflexivity].
    apply in_map. apply filter_In. auto.
Qed.

End UpgradeClaims.

(** ** The provisioning script, function by function *)
Module SdwanFacts.
Import Sdwan SdwanSpec RunFacts.

Lemma getitem_not_unbound v k e : getitem v k = Raise e -> e <> UnboundLocalError.
Proof.
  destruct v; simpl; try (intros [= <-]; discriminate).
  destruct (d !! k); [discriminate|]. intros [= <-]. discriminate.
Qed.

Lemma py_len_not_unbound v e : py_len v = Raise e -> e <> UnboundLocalError.
Proof. destruct v; simpl; try discriminate; intros [= <-]; discriminate. Qed.

Lemma py_iter_not_unbound v e : py_iter v = Raise e -> e <> UnboundLocalError.
Proof. destruct v; simpl; try discriminate; intros [= <-]; discriminate. Qed.

Lemma list_index_not_unbound {A} (l : list A) i e :
  list_index l i = Raise e -> e <> UnboundLocalError.
Proof.
  unfold list_index. destruct (_ && _); [destruct (l !! _); [discriminate|]|];
    intros [= <-]; discriminate.
Qed.

Lemma getindex_not_unbound v i e : getindex v i = Raise e -> e <> UnboundLocalError.
Proof.
  destruct v; simpl; eauto using list_index_not_unbound;
    intros [= <-]; discriminate.
Qed.

Lemma py_int_not_unbound s e : py_int s = Raise e -> e <> UnboundLocalError.
Proof.
  unfold py_int. destruct (match strip s with String _ _ => _ | _ => _ end) as [neg ds].
  destruct (parse_digits ds 0 0 false) as [[n seen]|]; [destruct (_ <? _)%nat|];
    try discriminate; intros [= <-]; discriminate.
Qed.

Lemma prints_print_menu entries : prints (print_menu entries).
Proof.
  unfold print_menu. apply prints_for_each. intros [i vdom].
  apply prints_bind; [apply prints_lift | intros ?; apply prints_print].
Qed.

Lemma print_menu_from_not_unbound (entries : list (Z * value)) w w' e :
  for_each entries (fun '(i, vdom) =>
    do name <- lift (getitem vdom "name");
    print [Fmt (VInt (i + 1)); Txt ". "; Fmt name]) w = (w', Raise e) ->
  e <> UnboundLocalError.
Proof.
  revert w. induction entries as [|[i vdom] rest IH]; intros w; [discriminate|].
  cbn [for_each]. unfold bind at 1. unfold bind at 1, lift.
  destruct (getitem vdom "name") as [name|e'] eqn:Hn.
  - cbn [print]. apply IH.
  - intros [= _ <-]. eauto using getitem_not_unbound.
Qed.

Lemma print_menu_not_unbound entries w w' e :
  print_menu entries w = (w', Raise e) -> e <> UnboundLocalError.
Proof. apply print_menu_from_not_unbound. Qed.

(** The menu for entries that all have a name. *)
Lemma print_menu_from_named (vdoms names : list value) (i : Z) w :
  Forall2 named vdoms names ->
  for_each (enumerate_from i vdoms) (fun '(i, vdom) =>
    do name <- lift (getitem vdom "name");
    print [Fmt (VInt (i + 1)); Txt ". "; Fmt name]) w
  = (add_lines (rev (map menu_line (enumerate_from i names))) w, Return tt).
Proof.
  intros H. revert i w. induction H as [|v n vdoms names Hv _ IH]; intros i w.
  - simpl. rewrite add_lines_nil. reflexivity.
  - cbn [enumerate_from for_each]. unfold bind at 1. unfold bind at 1, lift.
    unfold named in Hv. rewrite Hv. cbn [print]. rewrite IH.
    cbn [map rev]. rewrite <- add_lines_app. reflexivity.
Qed.

Lemma list_index_in_range {A} (l : list A) (k : Z) :
  1 <= k <= Z.of_nat (length l) ->
  exists x, l !! Z.to_nat (k - 1) = Some x /\ list_index l (k - 1) = Return x.
Proof.
  intros Hk. unfold list_index.
  assert ((k - 1 <? 0) = false) as -> by lia.
  assert (((0 <=? k - 1) && (k - 1 <? Z.of_nat (length l))) = true) as ->.
  { apply andb_true_intro. split; lia. }
  destruct (l !! Z.to_nat (k - 1)) as [x|] eqn:Hx; [eauto|].
  apply lookup_ge_None in Hx. lia.
Qed.


(** What [next(..., None)] returns on routes that all have a destination. *)
Lemma first_default_find routes :
  Forall (has_key "dst") routes ->
  first_default routes = Return (default VNone (List.find is_default routes)).
Proof.
  induction 1 as [|route rest [dst Hdst] _ IH]; [reflexivity|].
  cbn [first_default List.find]. unfold is_default. rewrite Hdst. cbn [obind].
  destruct (eq_str dst default_dst); [reflexivity|exact IH].
Qed.

Lemma first_default_Return routes route :
  first_default routes = Return route ->
  route = VNone \/ exists dst, getitem route "dst" = Return dst.
Proof.
  induction routes as [|r rest IH]; simpl.
  - intros [= <-]. auto.
  - destruct (getitem r "dst") as [dst|] eqn:Hd; [|discriminate]. simpl.
    destruct (eq_str dst default_dst); [|exact IH].
    intros [= <-]. eauto.
Qed.

(** Closes a branch that ends in an exception other than the one asked for. *)
Ltac other_exception :=
  intros [= _ ->]; exfalso;
  match goal with
  | H : _ = Raise UnboundLocalError |- _ =>
      first [ exact (getitem_not_unbound _ _ _ H eq_refl)
            | exact (py_len_not_unbound _ _ H eq_refl)
            | exact (py_iter_not_unbound _ _ H eq_refl)
            | exact (getindex_not_unbound _ _ _ H eq_refl)
            | exact (py_int_not_unbound _ _ H eq_refl) ]
  | H : _ = (_, Raise UnboundLocalError) |- _ =>
      exact (print_menu_not_unbound _ _ _ _ H eq_refl)
  end.

(** [resolve_vdom] itself never raises [UnboundLocalError]. *)
Lemma resolve_vdom_not_unbound base_url headers w w' :
  resolve_vdom base_url headers w <> (w', Raise UnboundLocalError).
Proof.
  unfold resolve_vdom, requests_get, http, bind. simpl.
  destruct (server w (sent w) _) as [|r]; [discriminate|].
  destruct (status_code r =? 200); [|discriminate]. simpl.
  unfold response_json. destruct (json r) as [body|] eqn:Hj; [|discriminate]. simpl.
  unfold lift. simpl.
  destruct (getitem body "results") as [vdoms|e] eqn:H1; [|other_exception].
  destruct (py_len vdoms) as [n|e] eqn:H2; [|other_exception].
  destruct (n =? 2).
  - destruct (getindex vdoms 1) as [second|e] eqn:H3; [|other_exception].
    destruct (getitem second "name") as [vdom|e] eqn:H4; [|other_exception].
    discriminate.
  - destruct (n >? 2); [|discriminate]. simpl.
    destruct (py_iter vdoms) as [entries|e] eqn:H3; [|other_exception].
    match goal with
    | |- context [print_menu ?es ?W] =>
        destruct (print_menu es W) as [w1 [[]|e]] eqn:H4; [|other_exception]
    end.
    unfold input. destruct (stdin w1) as [|answer rest]; [discriminate|].
    destruct (py_int answer) as [k|e] eqn:H5; [|other_exception].
    destruct (getindex vdoms (k - 1)) as [chosen|e] eqn:H6; [|other_exception].
    destruct (getitem chosen "name") as [vdom|e] eqn:H7; [|other_exception].
    discriminate.
Qed.

(** When [resolve_vdom] leaves [vdom] unassigned. *)
Lemma resolve_vdom_None base_url headers w :
  (exists w', resolve_vdom base_url headers w = (w', Return None))
  <-> exists r,
        server w (sent w) (vdom_request base_url headers) = Reply r
        /\ (status_code r <> 200
            \/ exists body vdoms n,
                 status_code r = 200 /\ json r = Some body
                 /\ getitem body "results" = Return vdoms
                 /\ py_len vdoms = Return n /\ n < 2).
Proof.
  unfold resolve_vdom, requests_get, http, bind, vdom_request. simpl. split.
  - intros [w' H]. revert H.
    destruct (server w (sent w) _) as [|r]; [discriminate|].
    destruct (status_code r =? 200) eqn:Hs.
    2:{ intros _. exists r. split; [reflexivity|]. left. apply Z.eqb_neq. exact Hs. }
    apply Z.eqb_eq in Hs. simpl.
    unfold response_json. destruct (json r) as [body|] eqn:Hj; [|discriminate]. simpl.
    unfold lift. simpl.
    destruct (getitem body "results") as [vdoms|e] eqn:H1; [|discriminate].
    destruct (py_len vdoms) as [n|e] eqn:H2; [|discriminate].
    destruct (n =? 2) eqn:Hn2.
    { destruct (getindex vdoms 1) as [second|e]; [|discriminate].
      destruct (getitem second "name") as [vdom|e]; discriminate. }
    destruct (n >? 2) eqn:Hn.
    { simpl. destruct (py_iter vdoms) as [entries|e]; [|discriminate].
      match goal with
      | |- context [print_menu ?es ?W] =>
          destruct (print_menu es W) as [w1 [[]|e]]; [|discriminate]
      end.
      unfold input. destruct (stdin w1) as [|answer rest]; [discriminate|].
      destruct (py_int answer) as [k|e]; [|discriminate].
      destruct (getindex vdoms (k - 1)) as [chosen|e]; [|discriminate].
      destruct (getitem chosen "name") as [vdom|e]; discriminate. }
    intros _. exists r. split; [reflexivity|]. right.
    exists body, vdoms, n. repeat split; auto.
    apply Z.eqb_neq in Hn2. rewrite Z.gtb_ltb in Hn. apply Z.ltb_ge in Hn. lia.
  - intros (r & -> & [Hs | (body & vdoms & n & Hs & Hj & Hres & Hlen & Hn)]).
    + apply Z.eqb_neq in Hs. rewrite Hs. simpl. eauto.
    + apply Z.eqb_eq in Hs. rewrite Hs. simpl.
      unfold response_json. rewrite Hj. simpl. unfold lift. simpl.
      rewrite Hres, Hlen.
      assert ((n =? 2) = false) as -> by lia.
      assert ((n >? 2) = false) as -> by (rewrite Z.gtb_ltb; apply Z.ltb_ge; lia).
      eauto.
Qed.

Lemma getTrafficVdomName_unbound base_url headers w w' :
  getTrafficVdomName base_url headers w = (w', Raise UnboundLocalError)
  <-> resolve_vdom base_url headers w = (w', Return None).
Proof.
  unfold getTrafficVdomName, bind.
  destruct (resolve_vdom base_url headers w) as [w1 [[v|]|e]] eqn:H.
  - split; discriminate.
  - split; intros [= <-]; reflexivity.
  - split; [|discriminate]. intros [= <- ->]. exfalso.
    exact (resolve_vdom_not_unbound _ _ _ _ H).
Qed.

Lemma getTrafficVdomName_Return base_url headers w w' v :
  getTrafficVdomName base_url headers w = (w', Return v)
  <-> resolve_vdom base_url headers w = (w', Return (Some v)).
Proof.
  unfold getTrafficVdomName, bind.
  destruct (resolve_vdom base_url headers w) as [w1 [[x|]|e]] eqn:H.
  - split; intros [= <- <-]; reflexivity.
  - split; discriminate.
  - split; discriminate.
Qed.





Lemma resolve_vdom_two base_url headers w r body first second name :
  server w (sent w) (vdom_request base_url headers) = Reply r ->
  status_code r = 200 ->
  json r = Some body ->
  getitem body "results" = Return (VList [first; second]) ->
  named second name ->
  resolve_vdom base_url headers w
  = (add_lines [set_line name] (add_sent [vdom_request base_url headers] w),
     Return (Some name)).
Proof.
  intros Hr Hs Hj Hres Hn. apply Z.eqb_eq in Hs.
  unfold resolve_vdom, requests_get, http, bind. simpl.
  unfold vdom_request in Hr. rewrite Hr, Hs. simpl.
  unfold response_json. rewrite Hj. simpl. unfold lift. simpl.
  rewrite Hres. simpl. unfold named in Hn. rewrite Hn. reflexivity.
Qed.

(** With more than two entries: the menu, the prompt, and the entry the
    answer counts to. *)
Lemma resolve_vdom_menu base_url headers w r body vdoms names answer rest k :
  server w (sent w) (vdom_request base_url headers) = Reply r ->
  status_code r = 200 ->
  json r = Some body ->
  getitem body "results" = Return (VList vdoms) ->
  (2 < length vdoms)%nat ->
  Forall2 named vdoms names ->
  stdin w = answer :: rest ->
  py_int answer = Return k ->
  1 <= k <= Z.of_nat (length vdoms) ->
  exists name w',
    names !! Z.to_nat (k - 1) = Some name
    /\ resolve_vdom base_url headers w = (w', Return (Some name))
    /\ console w'
       = (set_line name :: Ask vdom_prompt
            :: rev (map menu_line (enumerate names)) ++ select_line :: console w)%list
    /\ stdin w' = rest
    /\ sent w' = vdom_request base_url headers :: sent w.
Proof.
  intros Hr Hs Hj Hres Hlen Hnames Hin Hk Hrange. apply Z.eqb_eq in Hs.
  destruct (list_index_in_range vdoms k Hrange) as (chosen & Hch & Hidx).
  destruct (Forall2_lookup_l _ _ _ _ _ Hnames Hch) as (name & Hname & Hnamed).
  exists name.
  unfold resolve_vdom, requests_get, http, bind. simpl.
  unfold vdom_request in Hr. rewrite Hr, Hs. simpl.
  unfold response_json. rewrite Hj. simpl. unfold lift. simpl.
  rewrite Hres. simpl.
  assert ((Z.of_nat (length vdoms) =? 2) = false) as -> by lia.
  assert ((Z.of_nat (length vdoms) >? 2) = true) as ->
    by (rewrite Z.gtb_ltb; apply Z.ltb_lt; lia).
  simpl. unfold print_menu, enumerate. rewrite (print_menu_from_named _ _ _ _ Hnames).
  unfold input. simpl. rewrite Hin, Hk. simpl. rewrite Hidx.
  unfold named in Hnamed. rewrite Hnamed.
  eexists. split; [exact Hname|]. split; [reflexivity|]. simpl.
  repeat split.
Qed.

(** Whenever a name is chosen, there were two entries and no prompt, or more
    than two and a prompt. *)
Lemma resolve_vdom_Some base_url headers w w' v :
  resolve_vdom base_url headers w = (w', Return (Some v)) ->
  exists r body vdoms n,
    server w (sent w) (vdom_request base_url headers) = Reply r
    /\ status_code r = 200 /\ json r = Some body
    /\ getitem body "results" = Return vdoms /\ py_len vdoms = Return n
    /\ ((n = 2 /\ stdin w' = stdin w /\ console w' = set_line v :: console w)
        \/ (2 < n /\ exists answer, stdin w = answer :: stdin w'
                                    /\ In (Ask vdom_prompt) (console w'))).
Proof.
  unfold resolve_vdom, requests_get, http, bind, vdom_request. simpl.
  destruct (server w (sent w) _) as [|r]; [discriminate|].
  destruct (status_code r =? 200) eqn:Hs; [|discriminate].
  apply Z.eqb_eq in Hs. simpl.
  unfold response_json. destruct (json r) as [body|] eqn:Hj; [|discriminate]. simpl.
  unfold lift. simpl.
  destruct (getitem body "results") as [vdoms|e] eqn:H1; [|discriminate].
  destruct (py_len vdoms) as [n|e] eqn:H2; [|discriminate].
  destruct (n =? 2) eqn:Hn2.
  - destruct (getindex vdoms 1) as [second|e]; [|discriminate].
    destruct (getitem second "name") as [vdom|e]; [|discriminate].
    intros [= <- <-]. exists r, body, vdoms, n. repeat split; auto.
    left. repeat split. apply Z.eqb_eq. exact Hn2.
  - destruct (n >? 2) eqn:Hn; [|discriminate]. simpl.
    destruct (py_iter vdoms) as [entries|e]; [|discriminate].
    match goal with
    | |- context [print_menu ?es ?W] =>
        destruct (prints_print_menu es W) as (ls & o1 & ->)
    end.
    destruct o1 as [[]|e]; [|discriminate].
    unfold input. simpl. destruct (stdin w) as [|answer rest]; [discriminate|].
    destruct (py_int answer) as [k|e]; [|discriminate].
    destruct (getindex vdoms (k - 1)) as [chosen|e]; [|discriminate].
    destruct (getitem chosen "name") as [vdom|e]; [|discriminate].
    intros [= <- <-]. exists r, body, vdoms, n. repeat split; auto.
    right. split; [rewrite Z.gtb_ltb in Hn; apply Z.ltb_lt; exact Hn|]. exists answer. simpl. split; [reflexivity|].
    right. left. reflexivity.
Qed.

End SdwanFacts.

(** ** The claims about the provisioning script *)
Section SdwanClaims.
Import Sdwan SdwanSpec RunFacts SdwanFacts.

(** C9.  [getTrafficVdomName] raises [UnboundLocalError], reaching its
    [return] with [vdom] never assigned, exactly when the VDOM query is
    answered with a status other than 200 or with status 200 and a list of
    VDOMs of length below 2. *)
Theorem C9_unbound_vdom base_url headers w :
  (exists w', getTrafficVdomName base_url headers w = (w', Raise UnboundLocalError))
  <-> exists r,
        server w (sent w) (vdom_request base_url headers) = Reply r
        /\ (status_code r <> 200
            \/ exists body vdoms n,
                 status_code r = 200 /\ json r = Some body
                 /\ getitem body "results" = Return vdoms
                 /\ py_len vdoms = Return n /\ n < 2).
Proof.
  rewrite <- resolve_vdom_None. split; intros [w' H]; exists w';
    apply getTrafficVdomName_unbound; exact H.
Qed.

(** C6.  When the VDOM query is answered with status 200 and a list:
    with exactly two entries [getTrafficVdomName] returns the name of the
    second without a prompt (for root and traffic, traffic); with more than
    two it prints a menu numbered from 1 in the order of the list, asks for
    a number, and on the answer k, from 1 to the length of the list, returns
    the name of the k-th entry; and whenever it returns a name there were
    exactly two entries and no prompt, or more than two and a prompt. *)
Theorem C6_vdom_selection :
  (forall base_url headers w r body first second name,
     server w (sent w) (vdom_request base_url headers) = Reply r ->
     status_code r = 200 ->
     json r = Some body ->
     getitem body "results" = Return (VList [first; second]) ->
     named second name ->
     getTrafficVdomName base_url headers w
     = (add_lines [set_line name] (add_sent [vdom_request base_url headers] w),
        Return name))
  /\ (forall base_url headers w r body vdoms names answer rest k,
        server w (sent w) (vdom_request base_url headers) = Reply r ->
        status_code r = 200 ->
        json r = Some body ->
        getitem body "results" = Return (VList vdoms) ->
        (2 < length vdoms)%nat ->
        Forall2 named vdoms names ->
        stdin w = answer :: rest ->
        py_int answer = Return k ->
        1 <= k <= Z.of_nat (length vdoms) ->
        exists name w',
          names !! Z.to_nat (k - 1) = Some name
          /\ getTrafficVdomName base_url headers w = (w', Return name)
          /\ console w'
             = (set_line name :: Ask vdom_prompt
                  :: rev (map menu_line (enumerate names))
                  ++ select_line :: console w)%list
          /\ stdin w' = rest
          /\ sent w' = vdom_request base_url headers :: sent w)
  /\ (forall base_url headers w w' v,
        getTrafficVdomName base_url headers w = (w', Return v) ->
        exists r body vdoms n,
          server w (sent w) (vdom_request base_url headers) = Reply r
          /\ status_code r = 200 /\ json r = Some body
          /\ getitem body "results" = Return vdoms /\ py_len vdoms = Return n
          /\ ((n = 2 /\ stdin w' = stdin w /\ console w' = set_line v :: console w)
              \/ (2 < n /\ exists answer, stdin w = answer :: stdin w'
                                          /\ In (Ask vdom_prompt) (console w'))))
  /\ (forall base_url headers w r,
        server w (sent w) (vdom_request base_url headers) = Reply r ->
        status_code r = 200 ->
        json r = Some (VDict {[ "results" :=
                   VList [VDict {[ "name" := VStr "root" ]};
                          VDict {[ "name" := VStr "traffic" ]}] ]}) ->
        getTrafficVdomName base_url headers w
        = (add_lines [set_line (VStr "traffic")]
             (add_sent [vdom_request base_url headers] w),
           Return (VStr "traffic"))).
Proof.
  split; [|split; [|split]].
  - intros base_url headers w r body first second name Hr Hs Hj Hres Hn.
    apply getTrafficVdomName_Return. eapply resolve_vdom_two; eassumption.
  - intros base_url headers w r body vdoms names answer rest k
      Hr Hs Hj Hres Hlen Hnames Hin Hk Hrange.
    destruct (resolve_vdom_menu _ _ _ _ _ _ _ _ _ _ Hr Hs Hj Hres Hlen Hnames Hin Hk Hrange)
      as (name & w' & Hname & Hrun & Hc & Hi & Hsent).
    exists name, w'. repeat split; auto. apply getTrafficVdomName_Return. exact Hrun.
  - intros base_url headers w w' v H. apply getTrafficVdomName_Return in H.
    exact (resolve_vdom_Some _ _ _ _ _ H).
  - intros base_url headers w r Hr Hs Hj.
    apply getTrafficVdomName_Return.
    eapply resolve_vdom_two; [exact Hr | exact Hs | exact Hj | reflexivity | reflexivity].
Qed.


End SdwanClaims.

(** ** Relations that runs keep *)
Module KeepFacts.

Section Relation.
Context (R : world -> world -> Prop).
Hypothesis R_refl : forall w, R w w.
Hypothesis R_trans : forall w1 w2 w3, R w1 w2 -> R w2 w3 -> R w1 w3.

Lemma keeps_ret {A} (a : A) : keeps R (ret a).
Proof. intros w w' o [= <- _]. apply R_refl. Qed.

Lemma keeps_raise {A} e : keeps R (@raise A e).
Proof. intros w w' o [= <- _]. apply R_refl. Qed.

Lemma keeps_lift {A} (o : outcome A) : keeps R (lift o).
Proof. intros w w' o' [= <- _]. apply R_refl. Qed.

Lemma keeps_response_json r : keeps R (response_json r).
Proof. unfold response_json. destruct (json r); [apply keeps_ret | apply keeps_raise]. Qed.

Lemma keeps_bind {A B} (m : Py A) (k : A -> Py B) :
  keeps R m -> (forall a, keeps R (k a)) -> keeps R (bind m k).
Proof.
  intros Hm Hk w w' o. unfold bind.
  destruct (m w) as [w1 [a|e]] eqn:E.
  - intros H. eapply R_trans; [eapply Hm; exact E | eapply Hk; exact H].
  - intros [= <- _]. eapply Hm; exact E.
Qed.

Lemma keeps_try_except {A} (m : Py A) (h : exn -> Py A) :
  keeps R m -> (forall e, keeps R (h e)) -> keeps R (try_except m h).
Proof.
  intros Hm Hh w w' o. unfold try_except.
  destruct (m w) as [w1 [a|e]] eqn:E.
  - intros [= <- _]. eapply Hm; exact E.
  - destruct (is_Exception e).
    + intros H. eapply R_trans; [eapply Hm; exact E | eapply Hh; exact H].
    + intros [= <- _]. eapply Hm; exact E.
Qed.

Lemma keeps_for_each {A} (l : list A) (body : A -> Py unit) :
  (forall x, keeps R (body x)) -> keeps R (for_each l body).
Proof.
  intros Hb. induction l as [|x l IH]; simpl.
  - apply keeps_ret.
  - apply keeps_bind; auto.
Qed.

End Relation.

Lemma sends_refl P w : sends P w w.
Proof. exists []. split; [reflexivity|constructor]. Qed.

Lemma sends_trans P w1 w2 w3 : sends P w1 w2 -> sends P w2 w3 -> sends P w1 w3.
Proof.
  intros (r1 & E1 & F1) (r2 & E2 & F2). exists (r2 ++ r1)%list.
  rewrite E2, E1, List.app_assoc. split; [reflexivity|].
  apply Forall_app. auto.
Qed.

Lemma sends_same P w w' : sent w' = sent w -> sends P w w'.
Proof. intros E. exists []. split; [exact E|constructor]. Qed.

Lemma sends_print P l : keeps (sends P) (print l).
Proof. intros w w' o [= <- _]. apply sends_same. reflexivity. Qed.

Lemma sends_input P prompt : keeps (sends P) (input prompt).
Proof.
  intros w w' o. unfold input.
  destruct (stdin w); intros [= <- _]; apply sends_same; reflexivity.
Qed.

Lemma sends_read_file P name : keeps (sends P) (read_file name).
Proof.
  intros w w' o. unfold read_file.
  destruct (files w !! name); intros [= <- _]; apply sends_refl.
Qed.

Lemma sends_write_file P name content : keeps (sends P) (write_file name content).
Proof.
  intros w w' o. unfold write_file.
  destruct (has_nul name); [intros [= <- _]; apply sends_refl|].
  destruct (permits w name); [|intros [= <- _]; apply sends_refl].
  destruct (codec w content); intros [= <- _]; apply sends_same; reflexivity.
Qed.

Lemma sends_http (P : request -> Prop) req : P req -> keeps (sends P) (http req).
Proof.
  intros HP w w' o. unfold http.
  destruct (server w (sent w) req); intros [= <- _]; exists [req];
    (split; [reflexivity|constructor; [exact HP|constructor]]).
Qed.

Lemma writes_refl P w : writes P w w.
Proof. intros path. left. reflexivity. Qed.

Lemma writes_trans P w1 w2 w3 : writes P w1 w2 -> writes P w2 w3 -> writes P w1 w3.
Proof.
  intros H1 H2 path. destruct (H2 path) as [E2|]; [|right; assumption].
  destruct (H1 path) as [E1|]; [|right; assumption]. left. congruence.
Qed.

Lemma writes_same P w w' : files w' = files w -> writes P w w'.
Proof. intros E path. left. rewrite E. reflexivity. Qed.

Lemma writes_print P l : keeps (writes P) (print l).
Proof. intros w w' o [= <- _]. apply writes_same. reflexivity. Qed.

Lemma writes_input P prompt : keeps (writes P) (input prompt).
Proof.
  intros w w' o. unfold input.
  destruct (stdin w); intros [= <- _]; apply writes_same; reflexivity.
Qed.

Lemma writes_read_file P name : keeps (writes P) (read_file name).
Proof.
  intros w w' o. unfold read_file.
  destruct (files w !! name); intros [= <- _]; apply writes_refl.
Qed.

Lemma writes_http P req : keeps (writes P) (http req).
Proof.
  intros w w' o. unfold http.
  destruct (server w (sent w) req); intros [= <- _]; apply writes_same; reflexivity.
Qed.

Lemma writes_write_file (P : string -> Prop) name content :
  P name -> keeps (writes P) (write_file name content).
Proof.
  intros HP w w' o. unfold write_file.
  destruct (has_nul name); [intros [= <- _]; apply writes_refl|].
  destruct (permits w name); [|intros [= <- _]; apply writes_refl].
  destruct (codec w content); intros [= <- _]; intros path; simpl;
    (destruct (decide (path = name)) as [->|Hne]; [right; exact HP|]);
    left; apply lookup_insert_ne; congruence.
Qed.

End KeepFacts.

Create HintDb keeps.

#[local] Hint Resolve KeepFacts.sends_refl KeepFacts.sends_trans
  KeepFacts.writes_refl KeepFacts.writes_trans
  KeepFacts.keeps_ret KeepFacts.keeps_raise KeepFacts.keeps_lift
  KeepFacts.keeps_response_json
  KeepFacts.sends_print KeepFacts.sends_input KeepFacts.sends_read_file
  KeepFacts.sends_write_file KeepFacts.sends_http
  KeepFacts.writes_print KeepFacts.writes_input KeepFacts.writes_read_file
  KeepFacts.writes_http KeepFacts.writes_write_file : keeps.

(** Splits a computation along its binds and branches, down to the steps
    the hint database knows. *)
Ltac keeps_steps :=
  repeat first
    [ progress eauto with keeps
    | apply KeepFacts.keeps_bind; [eauto with keeps| |intros ?]
    | apply KeepFacts.keeps_try_except; [eauto with keeps| |intros ?]
    | apply KeepFacts.keeps_for_each; [eauto with keeps|eauto with keeps|intros ?]
    | match goal with
      | |- keeps _ (match ?x with _ => _ end) => destruct x
      | |- keeps _ (if ?b then _ else _) => destruct b
      | |- keeps _ (let '(_, _) := ?x in _) => destruct x
      end ].

(** ** The upgrade script: the workflow of a device and the fleet loop *)
Module WorkflowFacts.
Import Upgrade UpgradeSpec RunFacts UpgradeFacts KeepFacts.

Lemma option_line_candidate i fw : option_line i (candidate_of fw) = option_line i fw.
Proof.
  unfold option_line. destruct (candidate_fields fw) as (H1 & H2 & H3 & H4 & _).
  rewrite (getitem_field _ _ _ H1), (getitem_field _ _ _ H2),
    (getitem_field _ _ _ H3), (getitem_field _ _ _ H4). reflexivity.
Qed.

Lemma option_lines_candidates i raw :
  map (fun '(i, fw) => option_line i fw) (enumerate_from i (map candidate_of raw))
  = map (fun '(i, fw) => option_line i fw) (enumerate_from i raw).
Proof.
  revert i. induction raw as [|fw raw IH]; intros i; [reflexivity|].
  simpl. rewrite option_line_candidate, IH. reflexivity.
Qed.

(** The listing for a list of candidates. *)
Lemma print_firmware_options_run cur raw w :
  print_firmware_options cur (VList (map candidate_of raw)) w
  = (add_lines (options_lines cur (map candidate_of raw)) w, Return tt).
Proof.
  unfold print_firmware_options, bind. simpl. unfold lift. simpl.
  unfold enumerate. rewrite for_each_candidates.
  unfold options_lines, enumerate. rewrite option_lines_candidates.
  unfold add_lines. simpl. rewrite <- List.app_assoc. reflexivity.
Qed.

(** A device that answers its query with candidates: the workflow lists
    them and installs when the requested version is among them. *)
Lemma upgrade_device_listed filename version fgt_name fw_ip api_token w rq cur avail :
  server w (sent w) (query_request fw_ip api_token) = Reply rq ->
  status_code rq = 200 ->
  decode_firmware rq = Return (cur, VList avail) ->
  upgrade_device filename version fgt_name fw_ip api_token w
  = (if bool_decide (is_Some (findCandidate avail version))
     then install filename fgt_name fw_ip api_token
     else print [Txt ("Error: Firmware version " +:+ version +:+ " not found for "
                      +:+ fgt_name +:+ "." +:+ nl)])
      (listed fgt_name fw_ip api_token cur avail w).
Proof.
  intros Hq Hst Hd. apply Z.eqb_eq in Hst.
  destruct (decode_firmware_Return _ _ _ Hd)
    as (body & results & current & raw & entries & _ & _ & _ & _ & _ & _ & _ & Hav).
  injection Hav as ->.
  unfold upgrade_device. unfold bind at 1. cbn [print]. unfold bind at 1.
  unfold try_except. unfold bind at 1.
  rewrite get_available_firmware_run. cbn [sent server]. rewrite Hq, Hst, Hd.
  cbn [ret]. unfold bind at 1. rewrite print_firmware_options_run.
  unfold bind at 1. unfold lift at 1. cbn [py_iter]. unfold bind at 1. unfold lift at 1.
  rewrite find_version_candidates.
  assert (forall W : world,
    W = listed fgt_name fw_ip api_token cur
          (map candidate_of (List.filter complete entries)) w ->
    forall (m : Py unit), m W = m (listed fgt_name fw_ip api_token cur
          (map candidate_of (List.filter complete entries)) w)) as HW
    by (intros W -> m; reflexivity).
  destruct (bool_decide _).
  - apply (HW _). unfold listed, add_lines, add_sent. cbn.
    rewrite <- List.app_assoc. reflexivity.
  - apply (HW _). unfold listed, add_lines, add_sent. cbn.
    rewrite <- List.app_assoc. reflexivity.
Qed.

End WorkflowFacts.

Module FleetFacts.
Import Upgrade UpgradeSpec RunFacts UpgradeFacts KeepFacts WorkflowFacts.

Lemma getitem_exception v k e : getitem v k = Raise e -> is_Exception e = true.
Proof.
  destruct v; simpl; try (intros [= <-]; reflexivity).
  destruct (_ !! k); [discriminate|]. intros [= <-]. reflexivity.
Qed.

Lemma py_iter_exception v e : py_iter v = Raise e -> is_Exception e = true.
Proof. destruct v; simpl; try discriminate; intros [= <-]; reflexivity. Qed.

Lemma dict_get_exception v k e : dict_get v k = Raise e -> is_Exception e = true.
Proof. destruct v; simpl; try discriminate; intros [= <-]; reflexivity. Qed.

Lemma collect_firmware_exception entries acc e :
  collect_firmware entries acc = Raise e -> is_Exception e = true.
Proof.
  revert acc. induction entries as [|fw rest IH]; intros acc; [discriminate|].
  destruct fw as [| | | | | |d]; try (simpl; intros [= <-]; reflexivity).
  rewrite collect_firmware_cons. destruct (complete (VDict d)); apply IH.
Qed.

(** What cannot be made of an answer is an [Exception], which [main]
    catches. *)
Lemma decode_firmware_exception r e :
  decode_firmware r = Raise e -> is_Exception e = true.
Proof.
  unfold decode_firmware. destruct (json r) as [body|]; [|intros [= <-]; reflexivity].
  destruct (getitem body "results") as [results|e1] eqn:H1; simpl;
    [|intros [= <-]; eauto using getitem_exception].
  destruct (getitem results "current") as [current|e1] eqn:H2; simpl;
    [|intros [= <-]; eauto using getitem_exception].
  destruct (getitem current "version") as [cur|e1] eqn:H3; simpl;
    [|intros [= <-]; eauto using getitem_exception].
  destruct (getitem results "available") as [available|e1] eqn:H4; simpl;
    [|intros [= <-]; eauto using getitem_exception].
  destruct (py_iter available) as [entries|e1] eqn:H5; simpl;
    [|intros [= <-]; eauto using py_iter_exception].
  destruct (collect_firmware entries []) as [l|e1] eqn:H6; simpl; [discriminate|].
  intros [= <-]. eauto using collect_firmware_exception.
Qed.

(** An answer with status 200 that cannot be decoded: the exception is
    caught and the workflow of the device ends. *)
Lemma upgrade_device_undecoded filename version fgt_name fw_ip api_token w r e :
  server w (sent w) (query_request fw_ip api_token) = Reply r ->
  status_code r = 200 ->
  decode_firmware r = Raise e ->
  upgrade_device filename version fgt_name fw_ip api_token w
  = (add_lines [connect_exception_line fgt_name fw_ip e; connecting_line fgt_name fw_ip]
       (add_sent [query_request fw_ip api_token] w),
     Return tt).
Proof.
  intros Hq Hst Hd. apply Z.eqb_eq in Hst.
  unfold upgrade_device, bind, try_except; simpl.
  rewrite get_available_firmware_run; simpl. rewrite Hq, Hst, Hd. simpl.
  rewrite (decode_firmware_exception _ _ Hd). reflexivity.
Qed.

Lemma for_each_names filename version row rest fgt_name fw_ip api_token w :
  names row fgt_name fw_ip api_token ->
  for_each (row :: rest) (loop_body filename version) w
  = (upgrade_device filename version fgt_name fw_ip api_token ;;
     for_each rest (loop_body filename version)) w.
Proof.
  intros Hn. cbn [for_each]. unfold bind.
  rewrite (loop_body_names _ _ _ _ _ _ _ Hn). reflexivity.
Qed.

(** The branch for a version that was found, step by step. *)
Lemma install_run filename fgt_name fw_ip api_token w :
  install filename fgt_name fw_ip api_token w
  = match save_configuration fgt_name fw_ip api_token w with
    | (w1, Raise e) => (w1, Raise e)
    | (w1, Return _) =>
        match upload_firmware fw_ip api_token filename
                (add_lines [started_line fgt_name filename] w1) with
        | (w2, Return _) => (add_lines [completed_line fgt_name] w2, Return tt)
        | (w2, Raise e) =>
            if is_Exception e
            then (add_lines [upload_exception_line fgt_name fw_ip e] w2, Return tt)
            else (w2, Raise e)
        end
    end.
Proof.
  unfold install. unfold bind at 1.
  destruct (save_configuration fgt_name fw_ip api_token w) as [w1 [v|e]]; [|reflexivity].
  unfold bind at 1. cbn [print]. unfold bind at 1. unfold try_except. unfold bind at 1.
  change {| console := _ :: console w1; stdin := stdin w1; files := files w1;
            permits := permits w1; codec := codec w1;
            sent := sent w1; server := server w1 |}
    with (add_lines [started_line fgt_name filename] w1).
  destruct (upload_firmware fw_ip api_token filename _) as [w2 [v2|e]]; [reflexivity|].
  destruct (is_Exception e); reflexivity.
Qed.

Lemma names_device_of row fgt_name fw_ip api_token :
  names row fgt_name fw_ip api_token <-> device_of row = Some (fgt_name, fw_ip, api_token).
Proof.
  unfold names, device_of. split.
  - intros (-> & -> & -> & Hn & Hi & Ht).
    apply String.eqb_neq in Hn, Hi, Ht. rewrite Hn, Hi, Ht. reflexivity.
  - destruct (row !! "fgt_name") as [[n|]|]; try discriminate.
    destruct (row !! "fw_ip") as [[i|]|]; try discriminate.
    destruct (row !! "api_token") as [[t|]|]; try discriminate.
    destruct (String.eqb n "") eqn:Hn; [discriminate|].
    destruct (String.eqb i "") eqn:Hi; [discriminate|].
    destruct (String.eqb t "") eqn:Ht; [discriminate|].
    intros [= <- <- <-]. apply String.eqb_neq in Hn, Hi, Ht. auto 10.
Qed.

(** A row names a device, or lacks a field, or lacks a column. *)
Lemma row_cases row :
  (exists fgt_name fw_ip api_token, names row fgt_name fw_ip api_token)
  \/ (malformed row /\ device_of row = None)
  \/ (lacks_column row /\ device_of row = None).
Proof.
  destruct (device_of row) as [[[n i] t]|] eqn:Hd.
  { left. exists n, i, t. apply names_device_of. exact Hd. }
  right. unfold malformed, lacks_column. unfold device_of in Hd.
  destruct (row !! "fgt_name") as [n|] eqn:Hn; [|right; auto].
  destruct (row !! "fw_ip") as [i|] eqn:Hi; [|right; auto].
  destruct (row !! "api_token") as [t|] eqn:Ht; [|right; auto].
  left. split; [|reflexivity]. exists n, i, t. repeat split.
  destruct n as [n|], i as [i|], t as [t|]; simpl; try reflexivity;
    rewrite ?andb_false_r; try reflexivity.
  destruct (String.eqb n ""), (String.eqb i ""), (String.eqb t "");
    simpl in *; try reflexivity; discriminate.
Qed.

Lemma loop_body_lacks_column filename version row w :
  lacks_column row -> loop_body filename version row w = (w, Raise KeyError).
Proof.
  unfold lacks_column, loop_body, bind, lift, row_get.
  intros [H|[H|H]]; rewrite H; try reflexivity.
  - destruct (row !! "fgt_name"); reflexivity.
  - destruct (row !! "fgt_name"); [|reflexivity]. destruct (row !! "fw_ip"); reflexivity.
Qed.

Lemma devices_cons row rest :
  devices (row :: rest)
  = match device_of row with
    | Some device => device :: devices rest
    | None => devices rest
    end.
Proof. reflexivity. Qed.

Lemma queries_add_lines ls w : queries (add_lines ls w) = queries w.
Proof. reflexivity. Qed.

(** Whatever makes [R] hold across the steps of a device workflow holds
    across the workflow. *)
Lemma keeps_upgrade_device (R : world -> world -> Prop)
  filename version fgt_name fw_ip api_token :
  (forall w, R w w) -> (forall w1 w2 w3, R w1 w2 -> R w2 w3 -> R w1 w3) ->
  (forall l, keeps R (print l)) ->
  keeps R (read_file filename) ->
  keeps R (http (query_request fw_ip api_token)) ->
  keeps R (http (backup_request fw_ip api_token)) ->
  (forall content, keeps R (http (upload_request fw_ip api_token filename content))) ->
  (forall content, keeps R (write_file (backup_filename fgt_name fw_ip) content)) ->
  keeps R (upgrade_device filename version fgt_name fw_ip api_token).
Proof.
  intros Hr Ht Hp Hrd Hq Hb Hu Hw.
  pose proof (@keeps_ret R Hr) as Hret. pose proof (@keeps_raise R Hr) as Hraise.
  pose proof (@keeps_lift R Hr) as Hlift. pose proof (@keeps_response_json R Hr) as Hj.
  assert (forall A (m : Py A) B (k : A -> Py B),
            keeps R m -> (forall a, keeps R (k a)) -> keeps R (bind m k)) as Hbind
    by (intros; apply keeps_bind; auto).
  unfold upgrade_device.
  apply Hbind; [apply Hp|intros _].
  apply Hbind.
  { apply keeps_try_except; [exact Ht| |intros e; apply Hbind; auto].
    apply Hbind; [|auto]. unfold get_available_firmware, requests_get.
    apply Hbind; [exact Hq|]. intros r.
    destruct (negb _); [apply Hbind; auto|].
    repeat (apply Hbind; [auto|intros ?]). auto. }
  intros [[cur avail]|]; [|auto].
  apply Hbind.
  { unfold print_firmware_options. apply Hbind; [auto|intros _].
    apply Hbind; [auto|intros _]. apply Hbind; [auto|intros entries].
    apply keeps_for_each; auto. intros [i fw].
    repeat (apply Hbind; [auto|intros ?]). auto. }
  intros _. apply Hbind; [auto|intros entries]. apply Hbind; [auto|intros found].
  destruct found; [|auto].
  apply Hbind.
  { unfold save_configuration, requests_post. apply Hbind; [exact Hb|]. intros r.
    destruct (negb _); [apply Hbind; auto|].
    apply Hbind; [apply Hw|intros _]. apply Hbind; auto. }
  intros _. apply Hbind; [auto|intros _].
  apply Hbind.
  { apply keeps_try_except; [exact Ht| |intros e; apply Hbind; auto].
    apply Hbind; [|auto]. unfold upload_firmware.
    apply Hbind; [exact Hrd|]. intros content. unfold requests_post.
    apply Hbind; [apply Hu|]. intros r.
    destruct (negb _); [apply Hbind; auto|]. apply Hbind; auto. }
  intros [v|]; auto.
Qed.

Lemma keeps_loop_body (R : world -> world -> Prop) filename version row :
  (forall w, R w w) -> (forall w1 w2 w3, R w1 w2 -> R w2 w3 -> R w1 w3) ->
  (forall l, keeps R (print l)) ->
  (forall fgt_name fw_ip api_token,
     names row fgt_name fw_ip api_token ->
     keeps R (upgrade_device filename version fgt_name fw_ip api_token)) ->
  keeps R (loop_body filename version row).
Proof.
  intros Hr Ht Hp Hd w w' o.
  destruct (row_cases row) as [(n & i & t & Hn)|[[Hm _]|[Hl _]]].
  - rewrite (loop_body_names _ _ _ _ _ _ _ Hn). apply Hd. exact Hn.
  - rewrite (loop_body_malformed _ _ _ _ Hm). intros [= <- _].
    eapply (Hp _ w). reflexivity.
  - rewrite (loop_body_lacks_column _ _ _ _ Hl). intros [= <- _]. apply Hr.
Qed.

Lemma keeps_main (R : world -> world -> Prop) reader :
  (forall w, R w w) -> (forall w1 w2 w3, R w1 w2 -> R w2 w3 -> R w1 w3) ->
  (forall l, keeps R (print l)) -> (forall prompt, keeps R (input prompt)) ->
  (forall filename version row fgt_name fw_ip api_token,
     In row reader -> names row fgt_name fw_ip api_token ->
     keeps R (upgrade_device filename version fgt_name fw_ip api_token)) ->
  keeps R (main reader).
Proof.
  intros Hr Ht Hp Hi Hd. unfold main.
  apply keeps_bind; [exact Ht|apply Hp|intros _].
  apply keeps_bind; [exact Ht|apply Hi|intros filename].
  destruct (parse_version_from_filename filename) as [version|].
  2: { apply keeps_bind; [exact Ht|apply Hp|intros _]. apply keeps_raise, Hr. }
  assert (forall rows, (forall row, In row rows -> In row reader) ->
            keeps R (for_each rows (loop_body filename version))) as H.
  { induction rows as [|row rows IH]; intros Hin; [apply keeps_ret, Hr|].
    cbn [for_each]. apply keeps_bind; [exact Ht| |intros _; apply IH].
    - apply keeps_loop_body; auto. intros n i t Hn. eapply Hd; [|exact Hn].
      apply Hin. left. reflexivity.
    - intros r Hr'. apply Hin. right. exact Hr'. }
  apply H. auto.
Qed.

Lemma authorized_query fw_ip api_token :
  authorized fw_ip api_token (query_request fw_ip api_token).
Proof. split; [eexists; reflexivity|]. apply lookup_singleton_eq. Qed.

Lemma authorized_backup fw_ip api_token :
  authorized fw_ip api_token (backup_request fw_ip api_token).
Proof. split; [eexists; reflexivity|]. apply lookup_insert_eq. Qed.

Lemma authorized_upload fw_ip api_token filename content :
  authorized fw_ip api_token (upload_request fw_ip api_token filename content).
Proof. split; [eexists; reflexivity|]. apply lookup_insert_eq. Qed.

End FleetFacts.

Module PayloadFacts.
Import Re Upgrade UpgradeSpec VersionSpec ReFacts VersionFacts
  RunFacts UpgradeFacts WorkflowFacts FleetFacts.

Lemma for_each_printable (avail : list value) (i : Z) w :
  Forall printable avail ->
  for_each (enumerate_from i avail) (fun '(i, fw) =>
    do version <- lift (getitem fw "version");
    do build <- lift (getitem fw "build");
    do releaseType <- lift (getitem fw "release-type");
    do maturity <- lift (getitem fw "maturity");
    print [Fmt (VInt (i + 1)); Txt ". Version: "; Fmt version;
           Txt ", Build: "; Fmt build; Txt ", Release Type: "; Fmt releaseType;
           Txt ", Maturity: "; Fmt maturity]) w
  = (add_lines (rev (map (fun '(i, fw) => option_line i fw) (enumerate_from i avail))) w,
     Return tt).
Proof.
  intros H. revert i w.
  induction H as [|fw avail ([v1 H1] & [v2 H2] & [v3 H3] & [v4 H4]) _ IH]; intros i w.
  - simpl. rewrite add_lines_nil. reflexivity.
  - cbn [enumerate_from for_each]. unfold bind at 1. unfold bind at 1, lift.
    rewrite H1. unfold bind at 1. rewrite H2. unfold bind at 1. rewrite H3.
    unfold bind at 1. rewrite H4. cbn [print]. rewrite IH.
    cbn [map rev]. rewrite <- add_lines_app. unfold option_line.
    rewrite (getitem_field _ _ _ H1), (getitem_field _ _ _ H2),
      (getitem_field _ _ _ H3), (getitem_field _ _ _ H4). reflexivity.
Qed.

Lemma basename_from_last acc dir name :
  basename_from acc (dir +:+ String "/" name) = basename_from "" name.
Proof.
  revert acc. induction dir as [|a dir IH]; intros acc.
  - rewrite str_app_empty_l. reflexivity.
  - rewrite str_app_cons. simpl. destruct (Ascii.eqb a "/"); apply IH.
Qed.

(** What [basename_from] returns has no slash, and is all of the path or
    what follows a slash of it. *)
Lemma basename_from_component acc path :
  no_slash acc = true ->
  no_slash (basename_from acc path) = true
  /\ (acc +:+ path = basename_from acc path
      \/ exists dir, acc +:+ path = dir +:+ "/" +:+ basename_from acc path).
Proof.
  revert acc. induction path as [|a path IH]; intros acc Hacc; simpl.
  - split; [exact Hacc|]. left. apply str_app_empty_r.
  - destruct (Ascii.eqb a "/") eqn:Ha.
    + apply Ascii.eqb_eq in Ha as ->.
      destruct (IH "" eq_refl) as [Hn [Hd|[dir Hd]]]; rewrite str_app_empty_l in Hd;
        (split; [exact Hn|]); right.
      * exists acc. rewrite <- Hd. reflexivity.
      * exists (acc +:+ "/" +:+ dir).
        repeat rewrite ?str_app_assoc, ?str_app_cons, ?str_app_empty_l.
        repeat rewrite ?str_app_cons, ?str_app_empty_l in Hd.
        f_equal. f_equal. exact Hd.
    + destruct (IH (acc +:+ String a "")) as [Hn Hd].
      { rewrite no_slash_app, Hacc. simpl. rewrite Ha. reflexivity. }
      split; [exact Hn|].
      rewrite str_app_assoc, str_app_cons, str_app_empty_l in Hd. exact Hd.
Qed.

(** Only one name is that component. *)
Lemma component_basename path name :
  no_slash name = true ->
  path = name \/ (exists dir, path = dir +:+ "/" +:+ name) ->
  basename path = name.
Proof.
  intros Hn [->|[dir ->]]; unfold basename.
  - rewrite (basename_from_no_slash _ _ Hn). apply str_app_empty_l.
  - rewrite str_app_cons, str_app_empty_l, basename_from_last.
    rewrite (basename_from_no_slash _ _ Hn). apply str_app_empty_l.
Qed.

Lemma b64_groups_length l :
  String.length (b64_groups l) = (4 * ((length l + 2) / 3))%nat.
Proof.
  assert (forall n l, (length l <= n)%nat ->
            String.length (b64_groups l) = (4 * ((length l + 2) / 3))%nat) as H.
  { clear l. induction n as [|n IH]; intros l Hl.
    - destruct l; [reflexivity|simpl in Hl; lia].
    - destruct l as [|a [|b [|c rest]]]; try reflexivity.
      cbn [b64_groups String.length length].
      rewrite IH by (simpl in Hl; lia).
      replace (S (S (S (length rest))) + 2)%nat with (length rest + 2 + 1 * 3)%nat by lia.
      rewrite Nat.div_add by lia. lia. }
  apply (H (length l)). lia.
Qed.

Lemma b64encode_length content :
  String.length (b64encode content) = (4 * ((String.length content + 2) / 3))%nat.
Proof.
  unfold b64encode. rewrite b64_groups_length, length_map. f_equal. f_equal. f_equal.
  induction content as [|a s IH]; [reflexivity|]. simpl. rewrite IH. reflexivity.
Qed.

Lemma digit_group_split a x a' x' :
  all_in Digit a = true -> all_in Digit a' = true ->
  a +:+ String "." x = a' +:+ String "." x' -> a = a' /\ x = x'.
Proof.
  revert a'. induction a as [|d a IH]; intros a' Ha Ha'.
  - rewrite str_app_empty_l. destruct a' as [|d' a'].
    + rewrite str_app_empty_l. intros [= ->]. auto.
    + rewrite str_app_cons. intros [= <- _]. simpl in Ha'. discriminate.
  - rewrite str_app_cons. destruct a' as [|d' a'].
    + rewrite str_app_empty_l. intros [= -> _]. simpl in Ha. discriminate.
    + rewrite str_app_cons. intros [= <- E]. simpl in Ha, Ha'.
      apply andb_prop in Ha as [_ Ha], Ha' as [_ Ha'].
      destruct (IH a' Ha Ha' E) as [-> ->]. auto.
Qed.

Lemma digit_group_whole c c' post :
  all_in Digit c = true -> c = c' +:+ post -> stops Digit post -> post = "".
Proof.
  revert c. induction c' as [|d c' IH]; intros c Hc.
  - rewrite str_app_empty_l. intros <-. destruct c as [|p c]; [reflexivity|].
    simpl in Hc |- *. apply andb_prop in Hc as [Hp _]. congruence.
  - rewrite str_app_cons. intros -> Hs. simpl in Hc. apply andb_prop in Hc as [_ Hc].
    exact (IH _ Hc eq_refl Hs).
Qed.

(** A version is one version only: a version at its head is all of it. *)
Lemma dotted_version_whole g g' post :
  dotted_version g -> dotted_version g' -> g = g' +:+ post -> stops Digit post ->
  g' = g.
Proof.
  intros (a & b & c & -> & [_ Ha] & [_ Hb] & [_ Hc])
         (a' & b' & c' & -> & [_ Ha'] & [_ Hb'] & [_ Hc']) E Hs.
  repeat (rewrite ?str_app_assoc, ?str_app_cons, ?str_app_empty_l in E).
  apply digit_group_split in E as [<- E]; [|assumption..].
  apply digit_group_split in E as [<- E]; [|assumption..].
  apply (digit_group_whole _ _ _ Hc E) in Hs. subst post.
  rewrite str_app_empty_r in E. subst c. reflexivity.
Qed.

End PayloadFacts.

Module RaiseFacts.
Import Upgrade UpgradeSpec RunFacts UpgradeFacts WorkflowFacts
  FleetFacts.

Lemma raises_ret P {A} (a : A) : raises_only P (ret a).
Proof. intros w w' e. discriminate. Qed.

Lemma raises_print P l : raises_only P (print l).
Proof. intros w w' e. discriminate. Qed.

Lemma raises_raise (P : exn -> Prop) {A} e : P e -> raises_only P (@raise A e).
Proof. intros H w w' e' [= _ <-]. exact H. Qed.

Lemma raises_lift (P : exn -> Prop) {A} (o : outcome A) :
  (forall e, o = Raise e -> P e) -> raises_only P (lift o).
Proof. intros H w w' e [= _ E]. auto. Qed.

Lemma raises_bind P {A B} (m : Py A) (k : A -> Py B) :
  raises_only P m -> (forall a, raises_only P (k a)) -> raises_only P (bind m k).
Proof.
  intros Hm Hk w w' e. unfold bind. destruct (m w) as [w1 [a|e1]] eqn:E.
  - apply Hk.
  - intros [= _ <-]. eapply Hm, E.
Qed.

(** What a [try] catches does not leave it. *)
Lemma raises_try_except P {A} (m : Py A) (h : exn -> Py A) :
  raises_only caught m -> (forall e, raises_only P (h e)) ->
  raises_only P (try_except m h).
Proof.
  intros Hm Hh w w' e. unfold try_except. destruct (m w) as [w1 [a|e1]] eqn:E.
  - discriminate.
  - rewrite (Hm _ _ _ E). apply Hh.
Qed.

Lemma raises_for_each P {A} (l : list A) (body : A -> Py unit) :
  (forall x, raises_only P (body x)) -> raises_only P (for_each l body).
Proof.
  intros Hb. induction l as [|x l IH]; simpl.
  - apply raises_ret.
  - apply raises_bind; auto.
Qed.

Lemma raises_http (P : exn -> Prop) req : P RequestException -> raises_only P (http req).
Proof.
  intros H w w' e. unfold http. destruct (server w (sent w) req); [|discriminate].
  intros [= _ <-]. exact H.
Qed.

Lemma raises_read_file (P : exn -> Prop) name : P OSError -> raises_only P (read_file name).
Proof.
  intros H w w' e. unfold read_file. destruct (files w !! name); [discriminate|].
  intros [= _ <-]. exact H.
Qed.

Lemma raises_write_file (P : exn -> Prop) name content :
  P OSError -> P ValueError -> raises_only P (write_file name content).
Proof.
  intros H1 H2 w w' e. unfold write_file.
  destruct (has_nul name); [intros [= _ <-]; exact H2|].
  destruct (permits w name); [|intros [= _ <-]; exact H1].
  destruct (codec w content); [discriminate|]. intros [= _ <-]. exact H2.
Qed.

Lemma raises_input (P : exn -> Prop) prompt : P EOFError -> raises_only P (input prompt).
Proof.
  intros H w w' e. unfold input. destruct (stdin w); [|discriminate].
  intros [= _ <-]. exact H.
Qed.

Lemma raises_response_json (P : exn -> Prop) r :
  P JSONDecodeError -> raises_only P (response_json r).
Proof.
  intros H. unfold response_json. destruct (json r);
    [apply raises_ret|apply raises_raise, H].
Qed.

Lemma getitem_failure v k e : getitem v k = Raise e -> workflow_failure e.
Proof.
  unfold workflow_failure.
  destruct v; simpl; try (intros [= <-]; auto 10).
  destruct (_ !! k); [discriminate|]. intros [= <-]. auto 10.
Qed.

Lemma py_iter_failure v e : py_iter v = Raise e -> workflow_failure e.
Proof.
  unfold workflow_failure. destruct v; simpl; try discriminate; intros [= <-]; auto 10.
Qed.

Lemma find_version_failure entries version e :
  find_version entries version = Raise e -> workflow_failure e.
Proof.
  induction entries as [|fw rest IH]; simpl; [discriminate|].
  destruct (getitem fw "version") as [v|e1] eqn:Hv; simpl.
  - destruct (eq_str v version); [discriminate|exact IH].
  - intros [= <-]. eauto using getitem_failure.
Qed.

Lemma get_available_firmware_caught fw_ip api_token :
  raises_only caught (get_available_firmware fw_ip api_token).
Proof.
  intros w w' e. rewrite get_available_firmware_run.
  destruct (server w (sent w) _) as [|r]; [intros [= _ <-]; reflexivity|].
  destruct (status_code r =? 200); [|discriminate].
  intros [= _ H]. eapply decode_firmware_exception, H.
Qed.

Lemma upload_firmware_caught fw_ip api_token filename :
  raises_only caught (upload_firmware fw_ip api_token filename).
Proof.
  intros w w' e. rewrite upload_firmware_run.
  destruct (files w !! filename); [|intros [= _ <-]; reflexivity]. cbn zeta.
  destruct (server w (sent w) _) as [|r]; [intros [= _ <-]; reflexivity|].
  destruct (status_code r =? 200); [|discriminate].
  destruct (json r) as [j|]; [|intros [= _ <-]; reflexivity].
  intros [= _ H]. eapply dict_get_exception, H.
Qed.

Lemma save_configuration_failure fgt_name fw_ip api_token :
  raises_only workflow_failure (save_configuration fgt_name fw_ip api_token).
Proof.
  intros w w' e. rewrite save_configuration_run. cbn zeta. unfold workflow_failure.
  destruct (server w (sent w) _) as [|r]; [intros [= _ <-]; auto 10|].
  destruct (status_code r =? 200); [|discriminate].
  destruct (has_nul _); [intros [= _ <-]; auto 10|].
  destruct (permits w _); [|intros [= _ <-]; auto 10].
  destruct (codec w (text r)); [discriminate|]. intros [= _ <-]. auto 10.
Qed.

Lemma upgrade_device_failure filename version fgt_name fw_ip api_token :
  raises_only workflow_failure
    (upgrade_device filename version fgt_name fw_ip api_token).
Proof.
  unfold upgrade_device.
  apply raises_bind; [apply raises_print|intros _].
  apply raises_bind.
  { apply raises_try_except.
    - apply raises_bind; [apply get_available_firmware_caught|intros; apply raises_ret].
    - intros e. apply raises_bind; [apply raises_print|intros; apply raises_ret]. }
  intros [[cur avail]|]; [|apply raises_ret].
  apply raises_bind.
  { unfold print_firmware_options.
    apply raises_bind; [apply raises_print|intros _].
    apply raises_bind; [apply raises_print|intros _].
    apply raises_bind; [apply raises_lift, py_iter_failure|intros entries].
    apply raises_for_each. intros [i fw].
    repeat (apply raises_bind; [apply raises_lift, getitem_failure|intros ?]).
    apply raises_print. }
  intros _. apply raises_bind; [apply raises_lift, py_iter_failure|intros entries].
  apply raises_bind; [apply raises_lift, find_version_failure|intros found].
  destruct found; [|apply raises_print].
  apply raises_bind; [apply save_configuration_failure|intros _].
  apply raises_bind; [apply raises_print|intros _].
  apply raises_bind.
  { apply raises_try_except.
    - apply raises_bind; [apply upload_firmware_caught|intros; apply raises_ret].
    - intros e. apply raises_bind; [apply raises_print|intros; apply raises_ret]. }
  intros [v|]; [apply raises_print|apply raises_ret].
Qed.

Lemma loop_body_failure filename version row :
  raises_only workflow_failure (loop_body filename version row).
Proof.
  intros w w' e.
  destruct (row_cases row) as [(n & i & t & Hn)|[[Hm _]|[Hl _]]].
  - rewrite (loop_body_names _ _ _ _ _ _ _ Hn). apply upgrade_device_failure.
  - rewrite (loop_body_malformed _ _ _ _ Hm). discriminate.
  - rewrite (loop_body_lacks_column _ _ _ _ Hl). intros [= _ <-]. left. reflexivity.
Qed.

End RaiseFacts.

(** ** Further properties of the upgrade script *)
Section UpgradeProperties.
Import Re Upgrade UpgradeSpec VersionSpec ReFacts VersionFacts RunFacts UpgradeFacts
  KeepFacts WorkflowFacts FleetFacts PayloadFacts RaiseFacts.

(** X1.  When the file name the operator enters contains no version (no
    three groups of digits separated by dots), [main] prints its error and
    ends with exit code 1 right after the prompt: whatever the inventory,
    no request is sent and no file is touched. *)
Theorem main_exits_without_version reader w filename rest :
  stdin w = filename :: rest ->
  ~ contains_version filename ->
  main reader w
  = (read_to rest
       (add_lines
          [Line [Txt "Error: Unable to extract firmware version from filename."];
           Ask "Enter the filename of the firmware image to upgrade to: ";
           Line [Txt ("FortiGate firewall firmware upgrade script" +:+ nl)]] w),
     Raise (SystemExit 1)).
Proof.
  intros Hin Hv. apply parse_version_None in Hv.
  unfold main, bind, input. simpl. rewrite Hin, Hv. reflexivity.
Qed.

(** X2.  A device whose firmware query fails in transport, or is answered
    with status 200 and a body that cannot be decoded (no JSON, a missing
    key, an entry that is not an object), is given up alone: the exception
    is caught and printed, nothing but the query was sent, and the loop goes
    on with the rest of the inventory. *)
Theorem query_failure_is_isolated filename version row rest fgt_name fw_ip api_token w e :
  names row fgt_name fw_ip api_token ->
  (server w (sent w) (query_request fw_ip api_token) = NoReply /\ e = RequestException)
  \/ (exists r, server w (sent w) (query_request fw_ip api_token) = Reply r
                /\ status_code r = 200 /\ decode_firmware r = Raise e) ->
  for_each (row :: rest) (loop_body filename version) w
  = for_each rest (loop_body filename version)
      (add_lines [connect_exception_line fgt_name fw_ip e; connecting_line fgt_name fw_ip]
         (add_sent [query_request fw_ip api_token] w)).
Proof.
  intros Hn H. rewrite (for_each_names _ _ _ _ _ _ _ _ Hn). unfold bind.
  destruct H as [[Hq ->]|(r & Hq & Hs & Hd)].
  - rewrite (upgrade_device_no_reply _ _ _ _ _ _ Hq). reflexivity.
  - rewrite (upgrade_device_undecoded _ _ _ _ _ _ _ _ Hq Hs Hd). reflexivity.
Qed.

(** X3.  A device that does not offer the requested version among its
    candidates is left alone: after the listing the loop prints that the
    version was not found, sends nothing beyond the query, writes no file
    and goes on with the rest of the inventory. *)
Theorem version_not_offered filename version row rest fgt_name fw_ip api_token w rq cur avail :
  names row fgt_name fw_ip api_token ->
  server w (sent w) (query_request fw_ip api_token) = Reply rq ->
  status_code rq = 200 ->
  decode_firmware rq = Return (cur, VList avail) ->
  findCandidate avail version = None ->
  for_each (row :: rest) (loop_body filename version) w
  = for_each rest (loop_body filename version)
      (add_lines [not_found_line version fgt_name]
         (listed fgt_name fw_ip api_token cur avail w)).
Proof.
  intros Hn Hq Hs Hd Hc. rewrite (for_each_names _ _ _ _ _ _ _ _ Hn). unfold bind.
  rewrite (upgrade_device_listed _ _ _ _ _ _ _ _ _ Hq Hs Hd), Hc.
  rewrite bool_decide_false by (intros [? [=]]). reflexivity.
Qed.

(** X4.  The workflow of a device when everything succeeds: the version
    is among the candidates, the backup is answered 200, its file can be
    opened and its text encoded, the image can be read and the upload is
    answered 200 with a JSON object.  Then the requests are the query, the
    backup and the upload, in this order, the backup file holds the text of
    the backup answer as the platform encodes it, the console ends with the
    saved, started and completed lines, and the loop goes on with the rest.
    The image is read after the backup was written: an image path that is
    the path of the backup uploads the bytes of the backup file. *)
Theorem upgrade_completes filename version row rest fgt_name fw_ip api_token w
  rq cur avail c rb bytes image ru d :
  names row fgt_name fw_ip api_token ->
  server w (sent w) (query_request fw_ip api_token) = Reply rq ->
  status_code rq = 200 ->
  decode_firmware rq = Return (cur, VList avail) ->
  findCandidate avail version = Some c ->
  server w (query_request fw_ip api_token :: sent w) (backup_request fw_ip api_token)
  = Reply rb ->
  status_code rb = 200 ->
  has_nul (backup_path fgt_name fw_ip) = false ->
  permits w (backup_path fgt_name fw_ip) = true ->
  codec w (text rb) = Some bytes ->
  <[backup_path fgt_name fw_ip := bytes]> (files w) !! filename = Some image ->
  server w (backup_request fw_ip api_token :: query_request fw_ip api_token :: sent w)
    (upload_request fw_ip api_token filename image) = Reply ru ->
  status_code ru = 200 ->
  json ru = Some (VDict d) ->
  for_each (row :: rest) (loop_body filename version) w
  = for_each rest (loop_body filename version)
      (add_lines [completed_line fgt_name; started_line fgt_name filename;
                  saved_line fgt_name fw_ip]
         (add_sent [upload_request fw_ip api_token filename image;
                    backup_request fw_ip api_token]
            (add_file (backup_path fgt_name fw_ip) bytes
               (listed fgt_name fw_ip api_token cur avail w)))).
Proof.
  intros Hn Hq Hs Hd Hc Hb Hsb Hnul Hw Hcodec Hf Hu Hsu Hj.
  apply Z.eqb_eq in Hsb, Hsu.
  change (backup_path fgt_name fw_ip) with (backup_filename fgt_name fw_ip) in *.
  rewrite (for_each_names _ _ _ _ _ _ _ _ Hn). unfold bind.
  rewrite (upgrade_device_listed _ _ _ _ _ _ _ _ _ Hq Hs Hd), Hc.
  rewrite bool_decide_true by eauto.
  rewrite install_run, save_configuration_run.
  cbn [listed add_lines add_sent sent server permits codec app].
  rewrite Hb, Hsb, Hnul, Hw, Hcodec.
  rewrite upload_firmware_run.
  cbn [listed add_lines add_sent add_file files sent server app].
  rewrite Hf, Hu, Hsu, Hj. reflexivity.
Qed.

(** X5.  An upload answered with a status other than 200 is still reported
    as completed: [upload_firmware] prints its error and returns [None], no
    exception reaches [main], which prints that the firmware upgrade
    completed for the device and goes on with the rest. *)
Theorem refused_upload_reported_completed
  filename version row rest fgt_name fw_ip api_token w rq cur avail c w1 v content ru :
  names row fgt_name fw_ip api_token ->
  server w (sent w) (query_request fw_ip api_token) = Reply rq ->
  status_code rq = 200 ->
  decode_firmware rq = Return (cur, VList avail) ->
  findCandidate avail version = Some c ->
  save_configuration fgt_name fw_ip api_token
    (listed fgt_name fw_ip api_token cur avail w) = (w1, Return v) ->
  files w1 !! filename = Some content ->
  server w1 (sent w1) (upload_request fw_ip api_token filename content) = Reply ru ->
  status_code ru <> 200 ->
  for_each (row :: rest) (loop_body filename version) w
  = for_each rest (loop_body filename version)
      (add_lines [completed_line fgt_name; upload_error_line fw_ip;
                  started_line fgt_name filename]
         (add_sent [upload_request fw_ip api_token filename content] w1)).
Proof.
  intros Hn Hq Hs Hd Hc Hsave Hf Hu Hsu. apply Z.eqb_neq in Hsu.
  rewrite (for_each_names _ _ _ _ _ _ _ _ Hn). unfold bind.
  rewrite (upgrade_device_listed _ _ _ _ _ _ _ _ _ Hq Hs Hd), Hc.
  rewrite bool_decide_true by eauto.
  rewrite install_run, Hsave, upload_firmware_run.
  cbn [add_lines files sent server]. rewrite Hf, Hu, Hsu. reflexivity.
Qed.

(** X6.  An exception of [upload_firmware] (the image cannot be read, the
    transport fails, the answer is not a JSON object) is caught: it is
    printed for the device, the completed line is not, and the loop goes on
    with the rest of the inventory. *)
Theorem upload_exception_is_isolated
  filename version row rest fgt_name fw_ip api_token w rq cur avail c w1 v w2 e :
  names row fgt_name fw_ip api_token ->
  server w (sent w) (query_request fw_ip api_token) = Reply rq ->
  status_code rq = 200 ->
  decode_firmware rq = Return (cur, VList avail) ->
  findCandidate avail version = Some c ->
  save_configuration fgt_name fw_ip api_token
    (listed fgt_name fw_ip api_token cur avail w) = (w1, Return v) ->
  upload_firmware fw_ip api_token filename
    (add_lines [started_line fgt_name filename] w1) = (w2, Raise e) ->
  for_each (row :: rest) (loop_body filename version) w
  = for_each rest (loop_body filename version)
      (add_lines [upload_exception_line fgt_name fw_ip e] w2).
Proof.
  intros Hn Hq Hs Hd Hc Hsave Hup.
  rewrite (for_each_names _ _ _ _ _ _ _ _ Hn). unfold bind.
  rewrite (upgrade_device_listed _ _ _ _ _ _ _ _ _ Hq Hs Hd), Hc.
  rewrite bool_decide_true by eauto.
  rewrite install_run, Hsave, Hup.
  rewrite (upload_firmware_caught _ _ _ _ _ _ Hup). reflexivity.
Qed.

(** X7.  The call of [save_configuration] is outside every [try]: when the
    backup request fails in transport, or is answered 200 and the backup
    file cannot be opened for writing, the exception ends the whole run.
    The upload is not sent and no later row of the inventory is processed. *)
Theorem backup_exception_ends_run
  filename version row rest fgt_name fw_ip api_token w rq cur avail c e :
  names row fgt_name fw_ip api_token ->
  server w (sent w) (query_request fw_ip api_token) = Reply rq ->
  status_code rq = 200 ->
  decode_firmware rq = Return (cur, VList avail) ->
  findCandidate avail version = Some c ->
  (server w (query_request fw_ip api_token :: sent w) (backup_request fw_ip api_token)
   = NoReply /\ e = RequestException)
  \/ (exists rb,
        server w (query_request fw_ip api_token :: sent w)
          (backup_request fw_ip api_token) = Reply rb
        /\ status_code rb = 200
        /\ writable w (backup_filename fgt_name fw_ip) = false /\ e = OSError) ->
  for_each (row :: rest) (loop_body filename version) w
  = (add_sent [backup_request fw_ip api_token]
       (listed fgt_name fw_ip api_token cur avail w),
     Raise e).
Proof.
  intros Hn Hq Hs Hd Hc H.
  rewrite (for_each_names _ _ _ _ _ _ _ _ Hn). unfold bind.
  rewrite (upgrade_device_listed _ _ _ _ _ _ _ _ _ Hq Hs Hd), Hc.
  rewrite bool_decide_true by eauto.
  rewrite install_run, save_configuration_run.
  cbn [listed add_lines add_sent sent server permits codec app].
  destruct H as [[Hb ->]|(rb & Hb & Hsb & Hw & ->)].
  - rewrite Hb. reflexivity.
  - apply Z.eqb_eq in Hsb. apply orb_false_elim in Hw as [Hnul Hp].
    cbn [listed add_lines add_sent permits] in Hp.
    rewrite Hb, Hsb, Hnul, Hp. reflexivity.
Qed.

(** X8.  A row without one of the three columns (an inventory file whose
    header lacks it) ends the run with [KeyError] at that row: nothing is
    printed for it, nothing is sent, and no later row is processed. *)
Theorem missing_column_ends_run filename version row rest w :
  lacks_column row ->
  for_each (row :: rest) (loop_body filename version) w = (w, Raise KeyError).
Proof.
  intros H. cbn [for_each]. unfold bind.
  rewrite (loop_body_lacks_column _ _ _ _ H). reflexivity.
Qed.

(** X9.  Whatever the devices answer, the firmware queries of a run are
    those of the devices of the inventory, in the order of the inventory,
    up to the row at which the run ended; rows with an empty field are
    passed over.  A run that ends normally queried every device, once. *)
Theorem queries_follow_inventory filename version reader w w' o :
  for_each reader (loop_body filename version) w = (w', o) ->
  exists k,
    (k <= length (devices reader))%nat
    /\ queries w' = (rev (map query_of (take k (devices reader))) ++ queries w)%list
    /\ (o = Return tt -> k = length (devices reader)).
Proof.
  revert w. induction reader as [|row rest IH]; intros w.
  - intros [= <- <-]. exists 0%nat. auto.
  - destruct (row_cases row) as [(n & i & t & Hn)|[[Hm Hd]|[Hl Hd]]].
    + rewrite (for_each_names _ _ _ _ _ _ _ _ Hn). unfold bind.
      apply names_device_of in Hn. rewrite devices_cons, Hn. cbn [length].
      destruct (upgrade_device filename version n i t w) as [w1 [[]|e]] eqn:Hrun;
        apply upgrade_device_queries in Hrun.
      * intros H. destruct (IH _ H) as (k & Hk & Hq & Ho).
        exists (S k). split; [lia|]. split; [|intros E; rewrite (Ho E); reflexivity].
        rewrite Hq, Hrun. cbn [take map rev query_of]. rewrite <- List.app_assoc.
        reflexivity.
      * intros [= <- <-]. exists 1%nat. split; [lia|]. split; [|discriminate].
        rewrite Hrun. cbn [take map rev query_of]. rewrite take_0. reflexivity.
    + rewrite (for_each_malformed _ _ _ _ _ Hm). rewrite devices_cons, Hd. intros H. destruct (IH _ H) as (k & Hk & Hq & Ho).
      exists k. auto.
    + cbn [for_each]. unfold bind. rewrite (loop_body_lacks_column _ _ _ _ Hl).
      intros [= <- <-]. exists 0%nat. split; [lia|]. split; [reflexivity|discriminate].
Qed.

(** X10.  The only files a run of [main] creates or changes are backup
    files of devices of the inventory: a path whose content differs after
    the run is [{fgt_name}-{fw_ip}-config-backup.conf] for a row of the
    inventory with these fields. *)
Theorem main_writes_backups_only reader w w' o path :
  main reader w = (w', o) ->
  files w' !! path <> files w !! path ->
  inventory_backup reader path.
Proof.
  intros H Hne.
  assert (keeps (writes (inventory_backup reader)) (main reader)) as Hk.
  { apply keeps_main;
      [apply writes_refl|apply writes_trans|apply writes_print|apply writes_input|].
    intros filename version row n i t Hin Hn.
    apply keeps_upgrade_device;
      [apply writes_refl|apply writes_trans|apply writes_print|apply writes_read_file
      |apply writes_http|apply writes_http|intros; apply writes_http|].
    intros content. apply writes_write_file. exists row, n, i, t. auto. }
  destruct (Hk _ _ _ H path) as [E|Hp]; [contradiction|exact Hp].
Qed.

(** X11.  Every request a run of [main] sends goes to the monitor API at
    the address of a device of the inventory and carries, as its bearer
    token, the token of the same row: no token is sent to another device. *)
Theorem main_tokens_to_own_device reader w w' o :
  main reader w = (w', o) ->
  exists reqs, sent w' = (reqs ++ sent w)%list /\ Forall (to_inventory reader) reqs.
Proof.
  intros H.
  assert (keeps (sends (to_inventory reader)) (main reader)) as Hk.
  { apply keeps_main;
      [apply sends_refl|apply sends_trans|apply sends_print|apply sends_input|].
    intros filename version row n i t Hin Hn.
    apply keeps_upgrade_device;
      [apply sends_refl|apply sends_trans|apply sends_print|apply sends_read_file
      | | | |intros; apply sends_write_file].
    - apply sends_http. exists row, n, i, t. auto using authorized_query.
    - apply sends_http. exists row, n, i, t. auto using authorized_backup.
    - intros content. apply sends_http. exists row, n, i, t.
      auto using authorized_upload. }
  exact (Hk _ _ _ H).
Qed.

(** X12.  A run of [main] over the rows the reader yields ends normally or
    with one of seven exceptions: the exit with code 1, [EOFError] of the
    prompt, [KeyError] of a row without a column, [TypeError] of the listing
    after a refused query, and, from [save_configuration], which no [try]
    encloses, [RequestException], [OSError] and [ValueError] (a NUL
    character in the path of the backup, or a text the platform cannot
    encode).  What the two [try] blocks of the loop enclose never ends the
    run. *)
Theorem main_failure_modes reader w w' e :
  main reader w = (w', Raise e) ->
  e = SystemExit 1 \/ e = EOFError \/ e = KeyError \/ e = TypeError
  \/ e = RequestException \/ e = OSError \/ e = ValueError.
Proof.
  assert (raises_only script_failure (main reader)) as H.
  { unfold main. apply raises_bind; [apply raises_print|intros _].
    apply raises_bind; [apply raises_input; right; left; reflexivity|intros filename].
    destruct (parse_version_from_filename filename) as [version|].
    - apply raises_for_each. intros row w1 w2 e1 H. right. right.
      eapply loop_body_failure, H.
    - apply raises_bind; [apply raises_print|intros _].
      apply raises_raise. left. reflexivity. }
  intros Hrun. exact (H _ _ _ Hrun).
Qed.

(** X13.  [print_firmware_options] prints the heading, the current version
    as entry 0 and one line for each candidate, numbered from 1 in the
    order of the list, when every candidate has the four keys it reads.
    When [available_firmware] is not a list, as the [None] that
    [get_available_firmware] returns for a refused query, it raises
    [TypeError] after the heading and the current version. *)
Theorem firmware_listing :
  (forall cur avail w,
     Forall printable avail ->
     print_firmware_options cur (VList avail) w
     = (add_lines (options_lines cur avail) w, Return tt))
  /\ (forall cur avail w,
        not_iterable avail ->
        print_firmware_options cur avail w
        = (add_lines [current_line cur; header_line] w, Raise TypeError)).
Proof.
  split.
  - intros cur avail w H. unfold print_firmware_options, bind. simpl. unfold lift. simpl.
    unfold enumerate. rewrite (for_each_printable _ _ _ H).
    unfold options_lines, enumerate, add_lines. simpl. rewrite <- List.app_assoc.
    reflexivity.
  - intros cur avail w H. unfold print_firmware_options, bind. simpl. unfold lift.
    destruct avail; try contradiction; reflexivity.
Qed.

(** X14.  On an answer with status 200 whose body has
    [results.current.version] and a list of objects as [results.available],
    [get_available_firmware] returns: the current version as it is in the
    body, and the candidates of the complete entries, in order; the query
    is its only request and it prints nothing. *)
Theorem get_available_firmware_returns
  fw_ip api_token w r body results current cur entries :
  server w (sent w) (query_request fw_ip api_token) = Reply r ->
  status_code r = 200 ->
  json r = Some body ->
  getitem body "results" = Return results ->
  getitem results "current" = Return current ->
  getitem current "version" = Return cur ->
  getitem results "available" = Return (VList entries) ->
  Forall is_dict entries ->
  get_available_firmware fw_ip api_token w
  = (add_sent [query_request fw_ip api_token] w,
     Return (cur, VList (map candidate_of (List.filter complete entries)))).
Proof.
  intros Hq Hs Hj H1 H2 H3 H4 Hd. apply Z.eqb_eq in Hs.
  rewrite get_available_firmware_run, Hq, Hs. unfold decode_firmware.
  rewrite Hj, H1. cbn [obind]. rewrite H2. cbn [obind]. rewrite H3. cbn [obind].
  rewrite H4. cbn [obind py_iter]. rewrite (collect_firmware_dicts _ _ Hd). reflexivity.
Qed.

(** X15.  A version read from a file name reads as itself:
    [parse_version_from_filename] returns its own results unchanged. *)
Theorem parse_version_idempotent filename version :
  parse_version_from_filename filename = Some version ->
  parse_version_from_filename version = Some version.
Proof.
  intros H. apply parse_version_Some in H as (pre & g & post & -> & _ & Hg & _).
  destruct (parse_version_from_filename ("v" +:+ g)) as [r|] eqn:Hr.
  2: { apply parse_version_None in Hr. exfalso. apply Hr.
       exists "v", g, "". rewrite str_app_empty_r. auto. }
  f_equal. apply parse_version_Some in Hr
    as (pre' & g' & post' & -> & E & Hg' & Hs & Hleft).
  f_equal. destruct pre' as [|a pre'].
  - rewrite str_app_empty_l in E. exfalso.
    symmetry in E. rewrite str_app_cons, str_app_empty_l in E.
    apply (dotted_version_head _ _ _ _ Hg') in E. discriminate.
  - rewrite !str_app_cons, str_app_empty_l in E. injection E as <- E.
    destruct pre' as [|b pre'].
    + rewrite str_app_empty_l in E. eapply dotted_version_whole; eassumption.
    + exfalso. apply (Hleft "v" (String b pre') g "").
      * reflexivity.
      * discriminate.
      * rewrite str_app_empty_r. symmetry. exact E.
      * exact Hg.
Qed.

(** X16.  What [upload_firmware] sends for an image it can read: one POST
    to the upgrade URL of the device, with the token of the device, whose
    [source] is "upload", whose [filename] is the last component of the
    path (it has no slash, it is the whole path or what follows a slash of
    it, and no other name is so) and whose [file_content] is the base64 text of the whole image,
    four characters for every three bytes, the last group padded.  It
    writes no file. *)
Theorem upload_payload fw_ip api_token filename image w w' o :
  files w !! filename = Some image ->
  upload_firmware fw_ip api_token filename w = (w', o) ->
  exists name,
    sent w'
    = {| meth := POST;
         url := [Txt ("https://" +:+ fw_ip
                      +:+ "/api/v2/monitor/system/firmware/upgrade")];
         headers := <["Authorization" := "Bearer " +:+ api_token]>
                      {[ "Content-Type" := "application/json" ]};
         json_data :=
           Some (VDict (list_to_map
                          [("source", VStr "upload");
                           ("file_content", VStr (b64encode image));
                           ("filename", VStr name)])) |} :: sent w
    /\ no_slash name = true
    /\ (filename = name \/ exists dir, filename = dir +:+ "/" +:+ name)
    /\ (forall other,
          no_slash other = true ->
          filename = other \/ (exists dir, filename = dir +:+ "/" +:+ other) ->
          other = name)
    /\ String.length (b64encode image)
       = (4 * ((String.length image + 2) / 3))%nat
    /\ files w' = files w.
Proof.
  intros Hf H. exists (basename filename).
  destruct (basename_from_component "" filename eq_refl) as [Hn Hd].
  rewrite str_app_empty_l in Hd.
  split; [|split; [exact Hn|split; [exact Hd|split; [|split; [apply b64encode_length|]]]]].
  2: { intros other Ho Hc. symmetry. exact (component_basename _ _ Ho Hc). }
  - pose proof (upload_firmware_sent _ _ _ _ _ _ H) as [_ Hs]. rewrite Hf in Hs.
    exact Hs.
  - rewrite upload_firmware_run, Hf in H. cbn zeta in H.
    destruct (server w (sent w) _) as [|r]; [injection H as <- _; reflexivity|].
    destruct (status_code r =? 200); injection H as <- _; reflexivity.
Qed.

End UpgradeProperties.

(** ** The provisioning script: the operator's input and the stages *)
Module IpFacts.
Import Sdwan SdwanSpec.

Lemma split_nonempty sep s : split sep s <> [].
Proof.
  destruct s as [|a s]; simpl; [discriminate|].
  destruct (Ascii.eqb a sep); [discriminate|].
  destruct (split sep s); discriminate.
Qed.

(** A string without the separator is one piece. *)
Lemma split_one sep p : contains sep p = false -> split sep p = [p].
Proof.
  induction p as [|a p IH]; simpl; [reflexivity|].
  destruct (Ascii.eqb a sep); [discriminate|]. simpl. intros H.
  rewrite IH by exact H. reflexivity.
Qed.

Lemma split_app sep p s :
  contains sep p = false ->
  split sep (p +:+ String sep s) = p :: split sep s.
Proof.
  induction p as [|a p IH]; intros H.
  - rewrite str_app_empty_l. simpl. rewrite Ascii.eqb_refl. reflexivity.
  - rewrite str_app_cons. simpl in *.
    destruct (Ascii.eqb a sep); [discriminate|]. simpl in H.
    rewrite IH by exact H. reflexivity.
Qed.

(** The pieces of [split] are what the separators delimit. *)
Lemma split_inv sep s p ps :
  split sep s = p :: ps ->
  contains sep p = false /\
  match ps with
  | [] => s = p
  | _ :: _ => exists s', s = p +:+ String sep s' /\ split sep s' = ps
  end.
Proof.
  revert p ps. induction s as [|a s IH]; simpl; intros p ps.
  - intros [= <- <-]. auto.
  - destruct (Ascii.eqb a sep) eqn:Ha.
    + intros [= <- <-]. split; [reflexivity|].
      apply Ascii.eqb_eq in Ha as ->.
      pose proof (split_nonempty sep s) as Hn.
      destruct (split sep s) eqn:Hs; [contradiction|].
      exists s. rewrite str_app_empty_l. auto.
    + destruct (split sep s) as [|q qs] eqn:Hs.
      { exfalso. eapply split_nonempty, Hs. }
      intros [= <- <-]. destruct (IH q qs eq_refl) as [Hq Hqs].
      split; [simpl; rewrite Ha; exact Hq|].
      destruct qs as [|q' qs'].
      * subst s. reflexivity.
      * destruct Hqs as (s' & -> & Hs'). exists s'.
        rewrite str_app_cons. auto.
Qed.

Lemma contains_app c s t : contains c (s +:+ t) = contains c s || contains c t.
Proof.
  induction s as [|a s IH]; [rewrite str_app_empty_l; reflexivity|].
  rewrite str_app_cons. simpl. rewrite IH. apply orb_assoc.
Qed.

Lemma octets_all n : octet n -> In n octets.
Proof.
  intros [H0 H1]. unfold octets. apply in_map_iff. exists (Z.to_nat n).
  split; [lia|]. apply in_seq. lia.
Qed.

Lemma is_digit_digits a : Re.is_digit a = true -> In a digits.
Proof.
  destruct a as [[] [] [] [] [] [] [] []]; vm_compute; intros H;
    try discriminate; tauto.
Qed.

Lemma octets_ok : forallb octet_ok octets = true.
Proof. vm_compute. reflexivity. Qed.

Lemma numerals_ok : forallb numeral_ok numerals = true.
Proof. vm_compute. reflexivity. Qed.

Lemma octet_text_ok n :
  octet n ->
  parse_octet (octet_text n) = Some n
  /\ contains "." (octet_text n) = false /\ contains "/" (octet_text n) = false.
Proof.
  intros Hn. pose proof octets_ok as H. rewrite forallb_forall in H.
  specialize (H n (octets_all n Hn)). unfold octet_ok in H.
  destruct (parse_octet (octet_text n)) as [m|]; [|discriminate].
  apply andb_prop in H as [H H2]. apply andb_prop in H as [H0 H1].
  apply Z.eqb_eq in H0 as ->. apply negb_true_iff in H1, H2. auto.
Qed.

Lemma octet_text_nonempty n : String.eqb (octet_text n) "" = false.
Proof. unfold octet_text. destruct (n <? 10); [|destruct (n <? 100)]; reflexivity. Qed.

Lemma numerals_all o :
  String.eqb o "" = false -> Re.all_in Re.Digit o = true ->
  (3 <? String.length o)%nat = false -> In o numerals.
Proof.
  intros H0 Hd Hl. apply list_elem_of_In. unfold numerals.
  destruct o as [|a o]; [discriminate|].
  simpl in Hd. apply andb_prop in Hd as [Ha Hd].
  apply is_digit_digits, list_elem_of_In in Ha.
  apply list_elem_of_bind. exists a. split; [|exact Ha].
  destruct o as [|b o]; [left|right].
  simpl in Hd. apply andb_prop in Hd as [Hb Hd].
  apply is_digit_digits, list_elem_of_In in Hb.
  apply list_elem_of_bind. exists b. split; [|exact Hb].
  destruct o as [|c o]; [left|right].
  simpl in Hd. apply andb_prop in Hd as [Hc Hd].
  apply is_digit_digits, list_elem_of_In in Hc.
  apply list_elem_of_bind. exists c. split; [|exact Hc].
  destruct o as [|d o]; [left|]. simpl in Hl. discriminate.
Qed.

(** An accepted octet is the numeral of a number up to 255. *)
Lemma parse_octet_Some o n : parse_octet o = Some n -> octet n /\ o = octet_text n.
Proof.
  intros H. assert (In o numerals) as Hin.
  { unfold parse_octet, isascii_isdigit in H.
    destruct (String.eqb o "") eqn:H0; [discriminate|]. simpl in H.
    destruct (Re.all_in Re.Digit o) eqn:Hd; [|discriminate]. simpl in H.
    destruct (3 <? String.length o)%nat eqn:Hl; [discriminate|].
    apply numerals_all; assumption. }
  pose proof numerals_ok as Hok. rewrite forallb_forall in Hok.
  specialize (Hok o Hin). unfold numeral_ok in Hok. rewrite H in Hok.
  apply andb_prop in Hok as [Hok H2]. apply andb_prop in Hok as [H0 H1].
  apply String.eqb_eq in H2. unfold octet. split; [lia|exact H2].
Qed.

Lemma IPv4Address_dotted_quad a b c d :
  octet a -> octet b -> octet c -> octet d ->
  IPv4Address (dotted_quad a b c d) = Some (from_bytes_big [a; b; c; d]).
Proof.
  intros Ha Hb Hc Hd.
  destruct (octet_text_ok a Ha) as (Pa & Da & Sa).
  destruct (octet_text_ok b Hb) as (Pb & Db & Sb).
  destruct (octet_text_ok c Hc) as (Pc & Dc & Sc).
  destruct (octet_text_ok d Hd) as (Pd & Dd & Sd).
  unfold IPv4Address, dotted_quad.
  rewrite !contains_app, Sa, Sb, Sc, Sd. simpl.
  unfold ip_int_from_string.
  assert (String.eqb (octet_text a +:+ "." +:+ octet_text b +:+ "." +:+ octet_text c
                      +:+ "." +:+ octet_text d) "" = false) as ->.
  { pose proof (octet_text_nonempty a) as Hne.
    destruct (octet_text a); [discriminate|]. rewrite str_app_cons. reflexivity. }
  rewrite !str_app_cons, !str_app_empty_l.
  rewrite !split_app by assumption. rewrite split_one by assumption.
  simpl. rewrite Pa, Pb, Pc, Pd. reflexivity.
Qed.

Lemma IPv4Address_Some s n :
  IPv4Address s = Some n ->
  exists a b c d, octet a /\ octet b /\ octet c /\ octet d
                  /\ s = dotted_quad a b c d /\ n = from_bytes_big [a; b; c; d].
Proof.
  unfold IPv4Address, ip_int_from_string.
  destruct (contains "/" s); [discriminate|].
  destruct (String.eqb s ""); [discriminate|].
  destruct (split "." s) as [|o1 [|o2 [|o3 [|o4 [|o5 os]]]]] eqn:Hs; try discriminate.
  simpl. destruct (parse_octet o1) as [a|] eqn:Pa; [|discriminate].
  destruct (parse_octet o2) as [b|] eqn:Pb; [|discriminate].
  destruct (parse_octet o3) as [c|] eqn:Pc; [|discriminate].
  destruct (parse_octet o4) as [d|] eqn:Pd; [|discriminate].
  simpl. intros [= <-].
  apply parse_octet_Some in Pa as [Ha ->], Pb as [Hb ->], Pc as [Hc ->], Pd as [Hd ->].
  exists a, b, c, d. repeat (split; [assumption|]). split; [|reflexivity].
  apply split_inv in Hs as (_ & s1 & -> & Hs).
  apply split_inv in Hs as (_ & s2 & -> & Hs).
  apply split_inv in Hs as (_ & s3 & -> & Hs).
  apply split_inv in Hs as (_ & ->).
  unfold dotted_quad. rewrite !str_app_cons, !str_app_empty_l. reflexivity.
Qed.

End IpFacts.

Module InputFacts.
Import Sdwan SdwanSpec IpFacts.

Lemma reprompts_shift prompt bads (c : list output) :
  (reprompts prompt bads ++ invalid_line :: Ask prompt :: c
   = invalid_line :: Ask prompt :: reprompts prompt bads ++ c)%list.
Proof.
  induction bads as [|b bads IH]; [reflexivity|].
  simpl. rewrite IH. reflexivity.
Qed.

(** The answers up to the first valid one are refused, one by one. *)
Lemma ask_ipv4_valid fuel prompt w bads good rest :
  stdin w = (bads ++ good :: rest)%list ->
  Forall rejected bads -> validateIpv4 good = true ->
  (length bads < fuel)%nat ->
  ask_ipv4 fuel prompt w
  = (read_to rest (add_lines (Ask prompt :: reprompts prompt bads) w), Return good).
Proof.
  revert fuel w. induction bads as [|b bads IH]; intros fuel w Hin Hb Hg Hf.
  - destruct fuel as [|fuel]; [simpl in Hf; lia|].
    simpl. unfold bind, input. simpl in Hin. rewrite Hin, Hg. reflexivity.
  - destruct fuel as [|fuel]; [simpl in Hf; lia|].
    inversion Hb as [|? ? Hb1 Hb2]; subst.
    cbn [ask_ipv4]. unfold bind at 1. unfold input. simpl in Hin. rewrite Hin.
    rewrite Hb1. unfold bind at 1. cbn [print].
    erewrite (IH fuel); [|reflexivity|assumption..|simpl in Hf; lia].
    unfold read_to, add_lines. cbn. rewrite reprompts_shift. reflexivity.
Qed.

(** Without a valid answer the loop ends with the input. *)
Lemma ask_ipv4_eof fuel prompt w :
  Forall rejected (stdin w) -> (length (stdin w) < fuel)%nat ->
  ask_ipv4 fuel prompt w
  = (read_to [] (add_lines (Ask prompt :: reprompts prompt (stdin w)) w), Raise EOFError).
Proof.
  remember (stdin w) as l eqn:Hl. revert fuel w Hl.
  induction l as [|b bads IH]; intros fuel w Hl Hb Hf.
  - destruct fuel as [|fuel]; [simpl in Hf; lia|].
    simpl. unfold bind, input. rewrite <- Hl. reflexivity.
  - destruct fuel as [|fuel]; [simpl in Hf; lia|].
    inversion Hb as [|? ? Hb1 Hb2]; subst.
    cbn [ask_ipv4]. unfold bind at 1. unfold input. rewrite <- Hl.
    rewrite Hb1. unfold bind at 1. cbn [print].
    erewrite (IH fuel); [|reflexivity|assumption|simpl in Hf; lia].
    unfold read_to, add_lines. cbn. rewrite reprompts_shift. reflexivity.
Qed.

Lemma first_valid (l : list string) :
  Forall rejected l
  \/ exists bads good rest,
       l = (bads ++ good :: rest)%list /\ Forall rejected bads /\ validateIpv4 good = true.
Proof.
  induction l as [|a l IH].
  - left. constructor.
  - destruct (validateIpv4 a) eqn:Ha.
    + right. exists [], a, l. repeat split; [constructor|exact Ha].
    + destruct IH as [IH|(bads & good & rest & -> & Hb & Hg)].
      * left. constructor; assumption.
      * right. exists (a :: bads), good, rest. repeat split; [|exact Hg].
        constructor; assumption.
Qed.

(** More turns than the loop can make change nothing. *)
Lemma ask_ipv4_fuel fuel prompt w :
  (length (stdin w) < fuel)%nat -> ask_ipv4 fuel prompt w = input_ipv4 prompt w.
Proof.
  intros Hf. unfold input_ipv4.
  destruct (first_valid (stdin w)) as [H|(bads & good & rest & Hl & Hb & Hg)].
  - rewrite !ask_ipv4_eof by (assumption || lia). reflexivity.
  - assert (length bads < length (stdin w))%nat.
    { rewrite Hl, length_app. simpl. lia. }
    rewrite !(ask_ipv4_valid _ prompt w bads good rest) by (assumption || lia).
    reflexivity.
Qed.

(** The loop as the source has it: one turn, then the loop again. *)
Lemma input_ipv4_unfold prompt w :
  input_ipv4 prompt w
  = (do ip <- input prompt;
     if validateIpv4 ip then ret ip
     else print [Txt "Invalid IP address. Please enter a valid IPv4 address."] ;;
          input_ipv4 prompt) w.
Proof.
  unfold input_ipv4 at 1. cbn [ask_ipv4]. unfold bind at 1 3. unfold input.
  destruct (stdin w) as [|a rest] eqn:Hl; [reflexivity|].
  destruct (validateIpv4 a); [reflexivity|].
  unfold bind. cbn [print]. apply ask_ipv4_fuel. simpl. lia.
Qed.

Lemma input_ipv4_valid prompt w bads good rest :
  stdin w = (bads ++ good :: rest)%list ->
  Forall rejected bads -> validateIpv4 good = true ->
  input_ipv4 prompt w
  = (read_to rest (add_lines (Ask prompt :: reprompts prompt bads) w), Return good).
Proof.
  intros Hl Hb Hg. unfold input_ipv4. apply ask_ipv4_valid; try assumption.
  rewrite Hl, length_app. simpl. lia.
Qed.

Lemma input_ipv4_eof prompt w :
  Forall rejected (stdin w) ->
  input_ipv4 prompt w
  = (read_to [] (add_lines (Ask prompt :: reprompts prompt (stdin w)) w), Raise EOFError).
Proof. intros H. unfold input_ipv4. apply ask_ipv4_eof; [exact H|lia]. Qed.

(** What a loop leaves: a valid address, or the end of the input. *)
Lemma input_ipv4_outcome prompt w w' o :
  input_ipv4 prompt w = (w', o) ->
  sent w' = sent w /\ files w' = files w /\ server w' = server w
  /\ match o with
     | Return ip => validateIpv4 ip = true
     | Raise e => e = EOFError /\ stdin w' = []
     end.
Proof.
  destruct (first_valid (stdin w)) as [H|(bads & good & rest & Hl & Hb & Hg)].
  - rewrite input_ipv4_eof by exact H. intros [= <- <-]. simpl. auto.
  - rewrite (input_ipv4_valid prompt w bads good rest) by assumption.
    intros [= <- <-]. simpl. auto.
Qed.

(** [getUserInput] sends nothing. *)
Lemma getUserInput_sent w w' o : getUserInput w = (w', o) -> sent w' = sent w.
Proof.
  unfold getUserInput. unfold bind at 1.
  destruct (input_ipv4 _ w) as [w1 [ip|e]] eqn:H1;
    apply input_ipv4_outcome in H1 as (Hs1 & _).
  2: { intros [= <- _]. exact Hs1. }
  unfold bind at 1. unfold input.
  destruct (stdin w1) as [|wan rest]; [intros [= <- _]; exact Hs1|].
  unfold bind at 1.
  match goal with |- context [input_ipv4 ?p ?w0] =>
    destruct (input_ipv4 p w0) as [w2 [gw|e]] eqn:H2 end;
    apply input_ipv4_outcome in H2 as (Hs2 & _); simpl in Hs2;
    intros [= <- _]; congruence.
Qed.

(** The base URL it returns is made from a valid address. *)
Lemma getUserInput_base_url w w' base_url wan gateway :
  getUserInput w = (w', Return (base_url, wan, gateway)) ->
  exists management_ip,
    validateIpv4 management_ip = true
    /\ base_url = "https://" +:+ management_ip +:+ "/api/v2".
Proof.
  unfold getUserInput. unfold bind at 1.
  destruct (input_ipv4 _ w) as [w1 [ip|e]] eqn:H1; [|discriminate].
  apply input_ipv4_outcome in H1 as (_ & _ & _ & H1).
  unfold bind at 1. unfold input.
  destruct (stdin w1) as [|wan' rest]; [discriminate|].
  unfold bind at 1.
  match goal with |- context [input_ipv4 ?p ?w0] =>
    destruct (input_ipv4 p w0) as [w2 [gw|e]] end; [|discriminate].
  intros [= _ <- _ _]. eauto.
Qed.

End InputFacts.

Module SdwanMainFacts.
Import Sdwan SdwanSpec RunFacts SdwanFacts IpFacts InputFacts KeepFacts.

Lemma createInternetSdwanZone_run base_url headers vdom w :
  createInternetSdwanZone base_url headers vdom w
  = match server w (sent w) (zone_request base_url headers vdom) with
    | Reply r =>
        (add_lines [zone_line r] (add_sent [zone_request base_url headers vdom] w),
         Return tt)
    | NoReply =>
        (add_sent [zone_request base_url headers vdom] w, Raise RequestException)
    end.
Proof.
  unfold createInternetSdwanZone, requests_put, http, bind, zone_request, zone_line.
  destruct (server w (sent w) _) as [|r]; [reflexivity|].
  destruct (status_code r =? 200); reflexivity.
Qed.

Lemma addInterfaceToSdwanZone_run base_url headers vdom wan gateway w :
  addInterfaceToSdwanZone base_url headers vdom wan gateway w
  = match server w (sent w) (member_request base_url headers vdom wan gateway) with
    | Reply r =>
        (add_lines [member_line wan r]
           (add_sent [member_request base_url headers vdom wan gateway] w),
         Return tt)
    | NoReply =>
        (add_sent [member_request base_url headers vdom wan gateway] w,
         Raise RequestException)
    end.
Proof.
  unfold addInterfaceToSdwanZone, requests_put, http, bind, member_request, member_line.
  destruct (server w (sent w) _) as [|r]; [reflexivity|].
  destruct (status_code r =? 200); reflexivity.
Qed.

Lemma keeps_print_menu R entries :
  (forall w, R w w) -> (forall w1 w2 w3, R w1 w2 -> R w2 w3 -> R w1 w3) ->
  (forall l, keeps R (print l)) -> keeps R (print_menu entries).
Proof.
  intros Hr Ht Hp. unfold print_menu. apply keeps_for_each; auto using keeps_ret.
  intros [i vdom]. apply keeps_bind; auto using keeps_lift.
Qed.

(** After its request [resolve_vdom] only prints and reads the answer. *)
Lemma resolve_vdom_tail (R : world -> world -> Prop) base_url headers w w' o :
  (forall w, R w w) -> (forall w1 w2 w3, R w1 w2 -> R w2 w3 -> R w1 w3) ->
  (forall l, keeps R (print l)) -> (forall prompt, keeps R (input prompt)) ->
  resolve_vdom base_url headers w = (w', o) ->
  R (add_sent [vdom_request base_url headers] w) w'.
Proof.
  intros Hr Ht Hp Hi. unfold resolve_vdom, requests_get, http. unfold bind at 1.
  unfold vdom_request.
  destruct (server w (sent w) _) as [|r]; [intros [= <- _]; apply Hr|].
  intros H.
  match type of H with
  | ?m ?w1 = _ => assert (keeps R m) as Hk; [|exact (Hk _ _ _ H)]
  end.
  clear H. pose proof (@keeps_ret R Hr) as Hret.
  pose proof (@keeps_lift R Hr) as Hlift. pose proof (@keeps_response_json R Hr) as Hj.
  destruct (status_code r =? 200); [|apply keeps_bind; auto].
  apply keeps_bind; auto. intros body.
  apply keeps_bind; auto. intros vdoms.
  apply keeps_bind; auto. intros n.
  destruct (n =? 2).
  { apply keeps_bind; auto. intros second. apply keeps_bind; auto. intros vdom.
    apply keeps_bind; auto. }
  destruct (n >? 2); [|auto].
  apply keeps_bind; auto. intros _.
  apply keeps_bind; auto. intros entries.
  apply keeps_bind; auto using keeps_print_menu. intros _.
  apply keeps_bind; auto. intros answer.
  apply keeps_bind; auto. intros k.
  apply keeps_bind; auto. intros chosen.
  apply keeps_bind; auto. intros vdom.
  apply keeps_bind; auto.
Qed.

Lemma getTrafficVdomName_tail (R : world -> world -> Prop) base_url headers w w' o :
  (forall w, R w w) -> (forall w1 w2 w3, R w1 w2 -> R w2 w3 -> R w1 w3) ->
  (forall l, keeps R (print l)) -> (forall prompt, keeps R (input prompt)) ->
  getTrafficVdomName base_url headers w = (w', o) ->
  R (add_sent [vdom_request base_url headers] w) w'.
Proof.
  intros Hr Ht Hp Hi. unfold getTrafficVdomName, bind.
  destruct (resolve_vdom base_url headers w) as [w1 [[v|]|e]] eqn:H;
    intros [= <- _]; eapply resolve_vdom_tail; eauto.
Qed.

(** The VDOM query is the one request of [getTrafficVdomName]. *)
Lemma getTrafficVdomName_sent base_url headers w w' o :
  getTrafficVdomName base_url headers w = (w', o) ->
  sent w' = vdom_request base_url headers :: sent w.
Proof.
  intros H.
  apply (getTrafficVdomName_tail (fun w1 w2 => sent w2 = sent w1)) in H;
    [exact H|congruence|congruence| |].
  - intros l w1 w2 o2 [= <- _]. reflexivity.
  - intros p w1 w2 o2. unfold input. destruct (stdin w1); intros [= <- _]; reflexivity.
Qed.

Lemma sends_getTrafficVdomName (P : request -> Prop) base_url headers :
  P (vdom_request base_url headers) ->
  keeps (sends P) (getTrafficVdomName base_url headers).
Proof.
  intros HP w w' o H. apply getTrafficVdomName_sent in H.
  exists [vdom_request base_url headers]. split; [exact H|]. repeat constructor. exact HP.
Qed.

Lemma sends_createInternetSdwanZone (P : request -> Prop) base_url headers vdom :
  P (zone_request base_url headers vdom) ->
  keeps (sends P) (createInternetSdwanZone base_url headers vdom).
Proof. intros HP. unfold createInternetSdwanZone, requests_put. keeps_steps. Qed.

Lemma sends_addInterfaceToSdwanZone (P : request -> Prop) base_url headers vdom wan gw :
  P (member_request base_url headers vdom wan gw) ->
  keeps (sends P) (addInterfaceToSdwanZone base_url headers vdom wan gw).
Proof. intros HP. unfold addInterfaceToSdwanZone, requests_put. keeps_steps. Qed.

Lemma sends_configureDefaultRoute (P : request -> Prop) base_url headers vdom :
  P (routes_request base_url headers vdom) ->
  P (create_request base_url headers vdom) ->
  (forall seq_num, P (delete_request base_url headers seq_num vdom)) ->
  keeps (sends P) (configureDefaultRoute base_url headers vdom).
Proof.
  intros H1 H2 H3. unfold configureDefaultRoute, requests_get, requests_post,
    requests_delete.
  apply keeps_bind; eauto with keeps. intros r.
  destruct (status_code r =? 200); [|keeps_steps].
  apply keeps_bind; eauto with keeps. intros body.
  apply keeps_bind; eauto with keeps. intros results.
  apply keeps_bind; eauto with keeps. intros routes.
  apply keeps_bind; eauto with keeps. intros route.
  destruct (truthy route).
  - apply keeps_bind; eauto with keeps. intros seq_num.
    apply keeps_bind; eauto with keeps. intros r2. keeps_steps.
  - apply keeps_bind; eauto with keeps. intros r2. keeps_steps.
Qed.

Lemma addressed_vdom base_url h : addressed base_url h (vdom_request base_url h).
Proof. split; [reflexivity|]. eexists _, _. reflexivity. Qed.

Lemma addressed_zone base_url h vdom : addressed base_url h (zone_request base_url h vdom).
Proof. split; [reflexivity|]. eexists _, _. reflexivity. Qed.

Lemma addressed_member base_url h vdom wan gw :
  addressed base_url h (member_request base_url h vdom wan gw).
Proof. split; [reflexivity|]. eexists _, _. reflexivity. Qed.

Lemma addressed_routes base_url h vdom :
  addressed base_url h (routes_request base_url h vdom).
Proof. split; [reflexivity|]. eexists _, _. reflexivity. Qed.

Lemma addressed_create base_url h vdom :
  addressed base_url h (create_request base_url h vdom).
Proof. split; [reflexivity|]. eexists _, _. reflexivity. Qed.

Lemma addressed_delete base_url h seq_num vdom :
  addressed base_url h (delete_request base_url h seq_num vdom).
Proof. split; [reflexivity|]. eexists _, _. reflexivity. Qed.

End SdwanMainFacts.

Module MenuFacts.
Import Sdwan SdwanSpec RunFacts SdwanFacts.

(** Up to the answer: the menu, the prompt and the number read. *)
Lemma resolve_vdom_asked base_url headers w r body vdoms names answer rest k :
  server w (sent w) (vdom_request base_url headers) = Reply r ->
  status_code r = 200 ->
  json r = Some body ->
  getitem body "results" = Return (VList vdoms) ->
  (2 < length vdoms)%nat ->
  Forall2 named vdoms names ->
  stdin w = answer :: rest ->
  py_int answer = Return k ->
  resolve_vdom base_url headers w
  = match list_index vdoms (k - 1) with
    | Return chosen =>
        match getitem chosen "name" with
        | Return name =>
            (add_lines [set_line name] (asked base_url headers names rest w),
             Return (Some name))
        | Raise e => (asked base_url headers names rest w, Raise e)
        end
    | Raise e => (asked base_url headers names rest w, Raise e)
    end.
Proof.
  intros Hr Hs Hj Hres Hlen Hnames Hin Hk. apply Z.eqb_eq in Hs.
  unfold resolve_vdom, requests_get, http, bind. simpl.
  unfold vdom_request in Hr. rewrite Hr, Hs. simpl.
  unfold response_json. rewrite Hj. simpl. unfold lift. simpl.
  rewrite Hres. simpl.
  assert ((Z.of_nat (length vdoms) =? 2) = false) as -> by lia.
  assert ((Z.of_nat (length vdoms) >? 2) = true) as ->
    by (rewrite Z.gtb_ltb; apply Z.ltb_lt; lia).
  simpl. unfold print_menu, enumerate. rewrite (print_menu_from_named _ _ _ _ Hnames).
  unfold input. simpl. rewrite Hin, Hk. simpl.
  unfold asked, read_to, add_lines, add_sent, vdom_request, enumerate. simpl.
  rewrite <- !List.app_assoc. simpl.
  destruct (list_index vdoms (k - 1)) as [chosen|e]; [|reflexivity].
  destruct (getitem chosen "name") as [name|e]; reflexivity.
Qed.

Lemma list_index_from_end {A} (l : list A) (k : Z) :
  1 - Z.of_nat (length l) <= k <= 0 ->
  exists x, l !! Z.to_nat (k - 1 + Z.of_nat (length l)) = Some x
            /\ list_index l (k - 1) = Return x.
Proof.
  intros Hk. unfold list_index.
  assert ((k - 1 <? 0) = true) as -> by lia.
  assert (((0 <=? k - 1 + Z.of_nat (length l))
           && (k - 1 + Z.of_nat (length l) <? Z.of_nat (length l))) = true) as ->.
  { apply andb_true_intro. split; lia. }
  destruct (l !! Z.to_nat (k - 1 + Z.of_nat (length l))) as [x|] eqn:Hx; [eauto|].
  apply lookup_ge_None in Hx. lia.
Qed.

Lemma list_index_outside {A} (l : list A) (k : Z) :
  k < 1 - Z.of_nat (length l) \/ Z.of_nat (length l) < k ->
  list_index l (k - 1) = Raise IndexError.
Proof.
  intros Hk. unfold list_index.
  destruct (k - 1 <? 0) eqn:Hneg.
  - assert ((0 <=? k - 1 + Z.of_nat (length l)) = false) as -> by lia. reflexivity.
  - assert ((k - 1 <? Z.of_nat (length l)) = false) as -> by lia.
    rewrite andb_false_r. reflexivity.
Qed.

End MenuFacts.

(** ** Further properties of the provisioning script *)
Section SdwanProperties.
Import Sdwan SdwanSpec RunFacts SdwanFacts KeepFacts IpFacts InputFacts SdwanMainFacts
  MenuFacts.

(** X17.  [validateIpv4] accepts exactly the dotted-decimal addresses:
    four numbers from 0 to 255, each written in decimal without leading
    zeros, separated by dots, and nothing before, between or after. *)
Theorem validateIpv4_dotted_quads s :
  validateIpv4 s = true <->
  exists a b c d, octet a /\ octet b /\ octet c /\ octet d /\ s = dotted_quad a b c d.
Proof.
  unfold validateIpv4. split.
  - destruct (IPv4Address s) as [n|] eqn:H; [|discriminate]. intros _.
    apply IPv4Address_Some in H as (a & b & c & d & H). exists a, b, c, d. tauto.
  - intros (a & b & c & d & Ha & Hb & Hc & Hd & ->).
    rewrite IPv4Address_dotted_quad by assumption. reflexivity.
Qed.

(** X18.  [getUserInput] sends no request and touches no file.  When it
    returns, the base URL is [https://{address}/api/v2] for an address that
    [validateIpv4] accepts, and so is the gateway; the only way it raises is
    [EOFError], at the end of the input. *)
Theorem getUserInput_valid w w' o :
  getUserInput w = (w', o) ->
  sent w' = sent w /\ files w' = files w
  /\ match o with
     | Return (base_url, _, internet_gateway_ip) =>
         (exists management_ip,
            validateIpv4 management_ip = true
            /\ base_url = "https://" +:+ management_ip +:+ "/api/v2")
         /\ validateIpv4 internet_gateway_ip = true
     | Raise e => e = EOFError /\ stdin w' = []
     end.
Proof.
  unfold getUserInput. unfold bind at 1.
  destruct (input_ipv4 _ w) as [w1 [ip|e]] eqn:H1;
    apply input_ipv4_outcome in H1 as (Hs1 & Hf1 & _ & H1).
  2: { intros [= <- <-]. auto. }
  unfold bind at 1. unfold input.
  destruct (stdin w1) as [|wan rest] eqn:Hl.
  { intros [= <- <-]. simpl. auto. }
  unfold bind at 1.
  match goal with |- context [input_ipv4 ?p ?w0] =>
    destruct (input_ipv4 p w0) as [w2 [gw|e]] eqn:H2 end;
    apply input_ipv4_outcome in H2 as (Hs2 & Hf2 & _ & H2); simpl in Hs2, Hf2.
  2: { intros [= <- <-]. split; [congruence|]. split; [congruence|]. exact H2. }
  intros [= <- <-]. split; [congruence|]. split; [congruence|]. eauto.
Qed.

(** X19.  [getUserInput] asks again until the answer is a valid address:
    every refused answer is followed by the error line and the same prompt,
    the first valid answer is taken, and the name of the WAN interface is
    taken as typed. *)
Theorem getUserInput_reprompts w bads1 management_ip wan bads2 gateway rest :
  stdin w = (bads1 ++ management_ip :: wan :: bads2 ++ gateway :: rest)%list ->
  Forall rejected bads1 -> validateIpv4 management_ip = true ->
  Forall rejected bads2 -> validateIpv4 gateway = true ->
  getUserInput w
  = (read_to rest
       (add_lines
          (Ask gateway_prompt :: reprompts gateway_prompt bads2
           ++ Ask wan_prompt :: Ask management_prompt
           :: reprompts management_prompt bads1) w),
     Return ("https://" +:+ management_ip +:+ "/api/v2", wan, gateway)).
Proof.
  intros Hl Hb1 Hg1 Hb2 Hg2. unfold getUserInput. unfold bind at 1.
  rewrite (input_ipv4_valid _ w bads1 management_ip _ Hl Hb1 Hg1).
  unfold bind at 1. unfold input, read_to at 1 2. cbn [stdin].
  unfold bind at 1.
  erewrite (input_ipv4_valid _ _ bads2 gateway rest); [|reflexivity|assumption..].
  unfold read_to, add_lines, ret. cbn. rewrite <- !app_assoc. reflexivity.
Qed.

(** X20.  When [getTrafficVdomName] raises (the VDOM query is refused, there
    are fewer than two VDOMs, the answer to the menu is not usable), [main]
    ends with that exception: the VDOM query is the only request of the run,
    and nothing was changed on the device. *)
Theorem main_stops_without_vdom api_key w w1 w2 base_url wan gateway e :
  getUserInput w = (w1, Return (base_url, wan, gateway)) ->
  getTrafficVdomName base_url (api_headers api_key) w1 = (w2, Raise e) ->
  main api_key w = (w2, Raise e)
  /\ sent w2 = vdom_request base_url (api_headers api_key) :: sent w.
Proof.
  intros H1 H2. split.
  - unfold main. unfold bind at 1. rewrite H1. unfold bind at 1. rewrite H2. reflexivity.
  - apply getTrafficVdomName_sent in H2. rewrite H2.
    apply getUserInput_sent in H1 as ->. reflexivity.
Qed.

(** X21.  Once the VDOM is known, a stage that the device refuses does not
    stop the next: whatever the status of the two answers, [main] sends the
    PUT that creates the zone, then the PUT that adds the interface with the
    gateway the operator gave, prints the outcome of each, and goes on to
    [configureDefaultRoute] for the same VDOM. *)
Theorem main_stages_go_on api_key w w1 w2 base_url wan gateway vdom r1 r2 :
  let h := api_headers api_key in
  getUserInput w = (w1, Return (base_url, wan, gateway)) ->
  getTrafficVdomName base_url h w1 = (w2, Return vdom) ->
  server w2 (sent w2) (zone_request base_url h vdom) = Reply r1 ->
  server w2 (zone_request base_url h vdom :: sent w2)
    (member_request base_url h vdom wan gateway) = Reply r2 ->
  main api_key w
  = configureDefaultRoute base_url h vdom
      (add_lines [member_line wan r2; zone_line r1]
         (add_sent [member_request base_url h vdom wan gateway;
                    zone_request base_url h vdom] w2)).
Proof.
  intros h H1 H2 H3 H4. unfold main. fold h. unfold bind at 1. rewrite H1.
  unfold bind at 1. rewrite H2. unfold bind at 1.
  rewrite createInternetSdwanZone_run, H3. unfold bind at 1.
  rewrite addInterfaceToSdwanZone_run. cbn [sent add_lines add_sent server app].
  rewrite H4. reflexivity.
Qed.

(** X22.  Every request a run of [main] sends carries the headers made
    from the API key and goes to the configuration API under the base URL
    of one address, which [validateIpv4] accepted. *)
Theorem main_addressed api_key w w' o :
  main api_key w = (w', o) ->
  exists reqs,
    sent w' = (reqs ++ sent w)%list
    /\ (reqs = []
        \/ exists management_ip,
             validateIpv4 management_ip = true
             /\ Forall (addressed ("https://" +:+ management_ip +:+ "/api/v2")
                          (api_headers api_key)) reqs).
Proof.
  unfold main. unfold bind at 1.
  destruct (getUserInput w) as [w1 [[[base_url wan] gateway]|e]] eqn:H1;
    pose proof (getUserInput_sent _ _ _ H1) as Hs.
  2: { intros [= <- _]. exists []. auto. }
  apply getUserInput_base_url in H1 as (ip & Hip & ->). intros H.
  match type of H with
  | ?m w1 = _ =>
      assert (keeps (sends (addressed ("https://" +:+ ip +:+ "/api/v2")
                              (api_headers api_key))) m) as Hk
  end.
  { apply keeps_bind; eauto with keeps.
    { apply sends_getTrafficVdomName, addressed_vdom. }
    intros vdom. apply keeps_bind; eauto with keeps.
    { apply sends_createInternetSdwanZone, addressed_zone. }
    intros _. apply keeps_bind; eauto with keeps.
    { apply sends_addInterfaceToSdwanZone, addressed_member. }
    intros _. apply sends_configureDefaultRoute;
      auto using addressed_routes, addressed_create, addressed_delete. }
  destruct (Hk _ _ _ H) as (reqs & E & F). exists reqs. rewrite E, Hs. eauto.
Qed.

(** X23.  Answers to the menu outside 1 .. n, for n VDOMs.  A number from
    1 - n to 0 counts from the end of the list, as Python indexes: 0 selects
    the last VDOM, -1 the one before it.  A number above n or below 1 - n
    raises [IndexError] after the prompt, with no VDOM set. *)
Theorem vdom_answer_outside_menu base_url headers w r body vdoms names answer rest k :
  server w (sent w) (vdom_request base_url headers) = Reply r ->
  status_code r = 200 ->
  json r = Some body ->
  getitem body "results" = Return (VList vdoms) ->
  (2 < length vdoms)%nat ->
  Forall2 named vdoms names ->
  stdin w = answer :: rest ->
  py_int answer = Return k ->
  (1 - Z.of_nat (length vdoms) <= k <= 0 ->
   exists name,
     names !! Z.to_nat (k - 1 + Z.of_nat (length vdoms)) = Some name
     /\ getTrafficVdomName base_url headers w
        = (add_lines [set_line name] (asked base_url headers names rest w),
           Return name))
  /\ (k < 1 - Z.of_nat (length vdoms) \/ Z.of_nat (length vdoms) < k ->
      getTrafficVdomName base_url headers w
      = (asked base_url headers names rest w, Raise IndexError)).
Proof.
  intros Hr Hs Hj Hres Hlen Hnames Hin Hk.
  pose proof (resolve_vdom_asked _ _ _ _ _ _ _ _ _ _ Hr Hs Hj Hres Hlen Hnames Hin Hk)
    as Hrun.
  split; intros Hrange.
  - destruct (list_index_from_end vdoms k Hrange) as (chosen & Hch & Hidx).
    destruct (Forall2_lookup_l _ _ _ _ _ Hnames Hch) as (name & Hname & Hnamed).
    exists name. split; [exact Hname|].
    rewrite Hidx in Hrun. unfold named in Hnamed. rewrite Hnamed in Hrun.
    unfold getTrafficVdomName, bind. rewrite Hrun. reflexivity.
  - rewrite (list_index_outside vdoms k Hrange) in Hrun.
    unfold getTrafficVdomName, bind. rewrite Hrun. reflexivity.
Qed.

End SdwanProperties.

(** ** Examples *)
Section UpgradeExamples.
Import Upgrade UpgradeSpec Demo.

(** The whole script on two healthy devices: each is queried, backed up and
    sent the image, and the two backups are written. *)
Example main_two_healthy :
  let '(w', o) := main [fw1; fw3] (start healthy) in
  o = Return tt
  /\ sent w' = [upload_request "10.0.0.3" "tok3" image "IMG";
                backup_request "10.0.0.3" "tok3"; query_request "10.0.0.3" "tok3";
                upload_request "10.0.0.1" "tok1" image "IMG";
                backup_request "10.0.0.1" "tok1"; query_request "10.0.0.1" "tok1"]
  /\ files w' !! "fw1-10.0.0.1-config-backup.conf" = Some "config-version=FGT60F-7.2.5"
  /\ files w' !! "fw3-10.0.0.3-config-backup.conf" = Some "config-version=FGT60F-7.2.5".
Proof. vm_compute. repeat split; reflexivity. Qed.

(** The failing input of C1: the first device answers its firmware query
    with status 500; the script ends with [TypeError] and the second device
    is never contacted. *)
Example main_first_query_fails :
  let '(w', o) := main [fw1; fw3] (start first_fails) in
  o = Raise TypeError /\ sent w' = [query_request "10.0.0.1" "tok1"].
Proof. vm_compute. split; reflexivity. Qed.

(** A file name without a version ends the script with exit code 1. *)
Example main_no_version :
  let '(w', o) :=
    main [fw1] {| console := []; stdin := ["firmware_image.out"]; files := ∅;
                  permits := fun _ => true; codec := utf8_text; sent := [];
                  server := healthy |} in
  o = Raise (SystemExit 1) /\ sent w' = [].
Proof. vm_compute. split; reflexivity. Qed.

Lemma C1_query_status_aborts_run_witness :
  exists w',
    for_each [fw1; fw3] (loop_body image "v7.4.1") (start first_fails)
    = (w', Raise TypeError)
    /\ sent w' = [query_request "10.0.0.1" "tok1"].
Proof.
  apply (C1_query_status_aborts_run image "v7.4.1" fw1 [fw3] "fw1" "10.0.0.1" "tok1"
           (start first_fails) error_answer).
  - repeat split; try reflexivity; discriminate.
  - reflexivity.
  - discriminate.
Defined.

Lemma C2_upgrade_only_on_exact_match_witness :
  exists posts,
    sent (fst (upgrade_device image "v7.4.1" "fw1" "10.0.0.1" "tok1" (start healthy)))
    = (posts ++ [query_request "10.0.0.1" "tok1"])%list
    /\ upgrade_posts image "10.0.0.1" "tok1" posts
    /\ (posts <> [] ->
        exists w1 cur avail c,
          get_available_firmware "10.0.0.1" "tok1"
            (add_lines [connecting_line "fw1" "10.0.0.1"] (start healthy))
          = (w1, Return (cur, VList avail))
          /\ findCandidate avail "v7.4.1" = Some c
          /\ getitem c "version" = Return (VStr "v7.4.1")).
Proof.
  apply (C2_upgrade_only_on_exact_match image "v7.4.1" "fw1" "10.0.0.1" "tok1"
           (start healthy) _
           (snd (upgrade_device image "v7.4.1" "fw1" "10.0.0.1" "tok1" (start healthy)))).
  apply surjective_pairing.
Defined.

(** The match is on the string: "v7.4.1" is found, "7.4.1" and "v7.4" are
    not, and of two candidates with the same version the first is taken. *)
Example findCandidate_exact :
  findCandidate (map candidate_of [entry_741; entry_728]) "v7.4.1"
  = Some (candidate_of entry_741)
  /\ findCandidate (map candidate_of [entry_741; entry_728]) "7.4.1" = None
  /\ findCandidate (map candidate_of [entry_741; entry_728]) "v7.4" = None
  /\ findCandidate [VDict {[ "version" := VStr "v1" ]};
                    VDict (<["build" := VInt 2]> {[ "version" := VStr "v1" ]})] "v1"
     = Some (VDict {[ "version" := VStr "v1" ]}).
Proof. vm_compute. repeat split; reflexivity. Qed.


Lemma C5_malformed_row_skipped_witness :
  exists w' o,
    for_each [fw1; fw2_short; fw3] (loop_body image "v7.4.1") (start healthy) = (w', o)
    /\ queries w' = query_request "10.0.0.3" "tok3" :: query_request "10.0.0.1" "tok1"
                    :: queries (start healthy)
    /\ length (queries w') = (length (queries (start healthy)) + 2)%nat
    /\ In (missing_line fw2_short) (console w').
Proof.
  apply (proj2 C5_malformed_row_skipped image "v7.4.1" fw1 fw2_short fw3
           "fw1" "10.0.0.1" "tok1" "fw3" "10.0.0.3" "tok3" (start healthy)
           (fst (upgrade_device image "v7.4.1" "fw1" "10.0.0.1" "tok1" (start healthy)))).
  - repeat split; try reflexivity; discriminate.
  - exists (Some "fw2"), (Some "10.0.0.2"), None. repeat split.
  - repeat split; try reflexivity; discriminate.
  - vm_compute. reflexivity.
Defined.

(** The same with an empty token instead of a short line, on the whole
    script. *)
Example main_empty_token :
  let '(w', o) := main [fw1; fw2_empty; fw3] (start healthy) in
  o = Return tt
  /\ queries w' = [query_request "10.0.0.3" "tok3"; query_request "10.0.0.1" "tok1"]
  /\ In (missing_line fw2_empty) (console w').
Proof.
  vm_compute. repeat split; try reflexivity.
  repeat first [left; reflexivity | right].
Qed.

Lemma C8_backup_file_witness :
  exists w',
    save_configuration "fw1" "10.0.0.1" "tok1" (start healthy) = (w', Return VNone)
    /\ files w' = <[backup_path "fw1" "10.0.0.1" := "config-version=FGT60F-7.2.5"]>
                    (files (start healthy))
    /\ files w' !! backup_path "fw1" "10.0.0.1" = Some "config-version=FGT60F-7.2.5"
    /\ (forall other, other <> backup_path "fw1" "10.0.0.1" ->
                      files w' !! other = files (start healthy) !! other)
    /\ (files w' !! backup_path "fw1" "10.0.0.1" = Some (content backup_answer)
        <-> "config-version=FGT60F-7.2.5" = content backup_answer)
    /\ (no_slash "fw1" = true -> no_slash "10.0.0.1" = true ->
        basename (backup_path "fw1" "10.0.0.1") = backup_path "fw1" "10.0.0.1").
Proof.
  apply (proj1 (C8_backup_file "fw1" "10.0.0.1" "tok1" (start healthy) backup_answer
                  eq_refl eq_refl) "config-version=FGT60F-7.2.5");
    reflexivity.
Defined.

(** What refutes C8 as the specification has it, on three inputs.  In a
    directory that cannot be written the backup is answered 200 and no file
    is produced.  A body in Latin-1 with an accented letter is written, on a
    platform with UTF-8, as other bytes than it came.  A device name with a
    slash puts the file under a directory. *)
Lemma C8_counterexample :
  (status_code backup_answer = 200
   /\ snd (save_configuration "fw1" "10.0.0.1" "tok1" (read_only healthy))
      = Raise OSError
   /\ files (fst (save_configuration "fw1" "10.0.0.1" "tok1" (read_only healthy)))
         !! "fw1-10.0.0.1-config-backup.conf" = None)
  /\ (status_code accented_answer = 200
      /\ snd (save_configuration "fw1" "10.0.0.1" "tok1" (start accented_backup))
         = Return VNone
      /\ files (fst (save_configuration "fw1" "10.0.0.1" "tok1"
                       (start accented_backup)))
            !! "fw1-10.0.0.1-config-backup.conf" = Some (utf8 accented)
      /\ utf8 accented <> content accented_answer)
  /\ (snd (save_configuration "site/fw1" "10.0.0.1" "tok1" (start healthy))
      = Return VNone
      /\ files (fst (save_configuration "site/fw1" "10.0.0.1" "tok1" (start healthy)))
            !! "site/fw1-10.0.0.1-config-backup.conf"
         = Some "config-version=FGT60F-7.2.5"
      /\ basename "site/fw1-10.0.0.1-config-backup.conf"
         = "fw1-10.0.0.1-config-backup.conf"
      /\ files (fst (save_configuration "site/fw1" "10.0.0.1" "tok1" (start healthy)))
            !! "fw1-10.0.0.1-config-backup.conf" = None).
Proof. vm_compute. repeat split; try reflexivity; discriminate. Qed.

(** The same configuration on a platform whose text encoding is ASCII: the
    file was opened, and so emptied, before the text could not be encoded. *)
Example backup_not_encodable :
  snd (save_configuration "fw1" "10.0.0.1" "tok1" (c_locale accented_backup))
  = Raise ValueError
  /\ files (fst (save_configuration "fw1" "10.0.0.1" "tok1" (c_locale accented_backup)))
        !! "fw1-10.0.0.1-config-backup.conf" = Some "".
Proof. vm_compute. split; reflexivity. Qed.

Lemma C10_candidates_complete_witness :
  exists body results raw entries kept,
    json firmware_answer = Some body /\ getitem body "results" = Return results
    /\ getitem results "available" = Return raw
    /\ py_iter raw = Return entries
    /\ kept = map candidate_of (List.filter complete entries)
    /\ VList (map candidate_of [entry_741; entry_728]) = VList kept
    /\ (forall c, In c kept ->
          truthy (field c "version") = true /\ truthy (field c "build") = true
          /\ truthy (field c "release-type") = true
          /\ truthy (field c "maturity") = true)
    /\ (forall fw, In fw entries -> complete fw = false -> ~ In (candidate_of fw) kept)
    /\ (forall fw, In fw entries -> complete fw = true ->
          In (candidate_of fw) kept
          /\ getitem (candidate_of fw) "notes" = Return (field fw "notes")).
Proof.
  apply (C10_candidates_complete "10.0.0.1" "tok1" (start healthy)
           (fst (get_available_firmware "10.0.0.1" "tok1" (start healthy)))
           firmware_answer (VStr "v7.2.5") (VList (map candidate_of [entry_741; entry_728]))).
  - reflexivity.
  - reflexivity.
  - vm_compute. reflexivity.
Defined.

End UpgradeExamples.

Section SdwanExamples.
Import Sdwan SdwanSpec Demo.

Lemma C6_vdom_selection_witness :
  getTrafficVdomName base auth (console_of [] (serving two_vdoms))
  = (add_lines [set_line (VStr "traffic")]
       (add_sent [vdom_request base auth] (console_of [] (serving two_vdoms))),
     Return (VStr "traffic"))
  /\ exists name w',
       [VStr "root"; VStr "traffic"; VStr "dmz"] !! Z.to_nat (2 - 1) = Some name
       /\ getTrafficVdomName base auth (console_of ["2"] (serving three_vdoms))
          = (w', Return name)
       /\ console w'
          = (set_line name :: Ask vdom_prompt
               :: rev (map menu_line (enumerate [VStr "root"; VStr "traffic"; VStr "dmz"]))
               ++ select_line :: console (console_of ["2"] (serving three_vdoms)))%list
       /\ stdin w' = []
       /\ sent w' = vdom_request base auth
                    :: sent (console_of ["2"] (serving three_vdoms)).
Proof.
  split.
  - apply (proj2 (proj2 (proj2 C6_vdom_selection)) base auth
             (console_of [] (serving two_vdoms)) (answer 200 "" (Some two_vdoms)));
      reflexivity.
  - apply (proj1 (proj2 C6_vdom_selection) base auth
             (console_of ["2"] (serving three_vdoms)) (answer 200 "" (Some three_vdoms))
             three_vdoms
             [vdom_named "root"; vdom_named "traffic"; vdom_named "dmz"]
             [VStr "root"; VStr "traffic"; VStr "dmz"] "2" [] 2).
    + reflexivity.
    + reflexivity.
    + reflexivity.
    + reflexivity.
    + simpl. lia.
    + repeat constructor.
    + reflexivity.
    + vm_compute. reflexivity.
    + simpl. lia.
Defined.

(** The second entry of the menu, by running the function. *)
Example select_second_of_three :
  snd (getTrafficVdomName base auth (console_of ["2"] (serving three_vdoms)))
  = Return (VStr "traffic").
Proof. vm_compute. reflexivity. Qed.

(** Answers outside the menu: 0 counts from the end, 4 is out of range,
    and text is not a number. *)
Example select_outside_menu :
  snd (getTrafficVdomName base auth (console_of ["0"] (serving three_vdoms)))
  = Return (VStr "dmz")
  /\ snd (getTrafficVdomName base auth (console_of ["4"] (serving three_vdoms)))
     = Raise IndexError
  /\ snd (getTrafficVdomName base auth (console_of ["two"] (serving three_vdoms)))
     = Raise ValueError.
Proof. vm_compute. repeat split; reflexivity. Qed.



(** The two actions, by running the function: the first default route,
    number 2, is deleted; without a default route one is created. *)
Example default_route_runs :
  sent (fst (configureDefaultRoute base auth (VStr "traffic")
               (console_of [] (serving routes_with_default))))
  = [delete_request base auth (VInt 2) (VStr "traffic");
     routes_request base auth (VStr "traffic")]
  /\ sent (fst (configureDefaultRoute base auth (VStr "traffic")
                  (console_of [] (serving routes_without_default))))
     = [create_request base auth (VStr "traffic");
        routes_request base auth (VStr "traffic")].
Proof. vm_compute. split; reflexivity. Qed.

Lemma C9_unbound_vdom_witness :
  (exists w', getTrafficVdomName base auth (console_of [] refusing)
              = (w', Raise UnboundLocalError))
  /\ (exists w', getTrafficVdomName base auth (console_of [] (serving one_vdom))
                 = (w', Raise UnboundLocalError)).
Proof.
  split.
  - apply (proj2 (C9_unbound_vdom base auth (console_of [] refusing))).
    exists (answer 401 "" None). split; [reflexivity|]. left. discriminate.
  - apply (proj2 (C9_unbound_vdom base auth (console_of [] (serving one_vdom)))).
    exists (answer 200 "" (Some one_vdom)). split; [reflexivity|]. right.
    exists one_vdom, (VList [vdom_named "root"]), 1. repeat split.
Defined.

End SdwanExamples.

(** ** Examples of the further properties *)
Section UpgradePropertyExamples.
Import Upgrade UpgradeSpec VersionSpec VersionFacts Demo.

Lemma main_exits_without_version_witness :
  main [fw1; fw3] (console_of ["firmware_image.out"] healthy)
  = (read_to []
       (add_lines
          [Line [Txt "Error: Unable to extract firmware version from filename."];
           Ask "Enter the filename of the firmware image to upgrade to: ";
           Line [Txt ("FortiGate firewall firmware upgrade script" +:+ nl)]]
          (console_of ["firmware_image.out"] healthy)),
     Raise (SystemExit 1)).
Proof.
  apply (main_exits_without_version [fw1; fw3] (console_of ["firmware_image.out"] healthy)
           "firmware_image.out" []).
  - reflexivity.
  - apply parse_version_None. reflexivity.
Defined.

Lemma query_failure_is_isolated_witness :
  for_each [fw1; fw3] (loop_body image "v7.4.1") (start silent)
  = for_each [fw3] (loop_body image "v7.4.1")
      (add_lines [connect_exception_line "fw1" "10.0.0.1" RequestException;
                  connecting_line "fw1" "10.0.0.1"]
         (add_sent [query_request "10.0.0.1" "tok1"] (start silent))).
Proof.
  apply (query_failure_is_isolated image "v7.4.1" fw1 [fw3] "fw1" "10.0.0.1" "tok1"
           (start silent) RequestException).
  - repeat split; try reflexivity; discriminate.
  - left. split; reflexivity.
Defined.

(** The device offers 7.4.0 with build 0, which leaves no candidate. *)
Lemma version_not_offered_witness :
  for_each [fw1; fw3] (loop_body "FGT_v7.4.0.out" "v7.4.0") (start healthy)
  = for_each [fw3] (loop_body "FGT_v7.4.0.out" "v7.4.0")
      (add_lines [not_found_line "v7.4.0" "fw1"]
         (listed "fw1" "10.0.0.1" "tok1" (VStr "v7.2.5")
            (map candidate_of [entry_741; entry_728]) (start healthy))).
Proof.
  apply (version_not_offered "FGT_v7.4.0.out" "v7.4.0" fw1 [fw3] "fw1" "10.0.0.1" "tok1"
           (start healthy) firmware_answer).
  - repeat split; try reflexivity; discriminate.
  - reflexivity.
  - reflexivity.
  - vm_compute. reflexivity.
  - vm_compute. reflexivity.
Defined.

Lemma upgrade_completes_witness :
  for_each [fw1; fw3] (loop_body image "v7.4.1") (start healthy)
  = for_each [fw3] (loop_body image "v7.4.1")
      (add_lines [completed_line "fw1"; started_line "fw1" image;
                  saved_line "fw1" "10.0.0.1"]
         (add_sent [upload_request "10.0.0.1" "tok1" image "IMG";
                    backup_request "10.0.0.1" "tok1"]
            (add_file (backup_path "fw1" "10.0.0.1") "config-version=FGT60F-7.2.5"
               (listed "fw1" "10.0.0.1" "tok1" (VStr "v7.2.5")
                  (map candidate_of [entry_741; entry_728]) (start healthy))))).
Proof.
  apply (upgrade_completes image "v7.4.1" fw1 [fw3] "fw1" "10.0.0.1" "tok1"
           (start healthy) firmware_answer (VStr "v7.2.5")
           (map candidate_of [entry_741; entry_728]) (candidate_of entry_741)
           backup_answer "config-version=FGT60F-7.2.5" "IMG" upload_answer
           {[ "file_id" := VStr "0a1b" ]}).
  - repeat split; try reflexivity; discriminate.
  - reflexivity.
  - reflexivity.
  - vm_compute. reflexivity.
  - vm_compute. reflexivity.
  - reflexivity.
  - reflexivity.
  - vm_compute. reflexivity.
  - reflexivity.
  - vm_compute. reflexivity.
  - vm_compute. reflexivity.
  - reflexivity.
  - reflexivity.
  - reflexivity.
Defined.

Lemma refused_upload_reported_completed_witness :
  for_each [fw1; fw3] (loop_body image "v7.4.1") (start upload_denied)
  = for_each [fw3] (loop_body image "v7.4.1")
      (add_lines [completed_line "fw1"; upload_error_line "10.0.0.1";
                  started_line "fw1" image]
         (add_sent [upload_request "10.0.0.1" "tok1" image "IMG"]
            (fst (save_configuration "fw1" "10.0.0.1" "tok1"
                    (listed "fw1" "10.0.0.1" "tok1" (VStr "v7.2.5")
                       (map candidate_of [entry_741; entry_728])
                       (start upload_denied)))))).
Proof.
  apply (refused_upload_reported_completed image "v7.4.1" fw1 [fw3]
           "fw1" "10.0.0.1" "tok1" (start upload_denied) firmware_answer
           (VStr "v7.2.5") (map candidate_of [entry_741; entry_728])
           (candidate_of entry_741) _ VNone "IMG" denied_answer).
  - repeat split; try reflexivity; discriminate.
  - reflexivity.
  - reflexivity.
  - vm_compute. reflexivity.
  - vm_compute. reflexivity.
  - vm_compute. reflexivity.
  - vm_compute. reflexivity.
  - vm_compute. reflexivity.
  - discriminate.
Defined.

(** The image named at the prompt is not there. *)
Lemma upload_exception_is_isolated_witness :
  for_each [fw1; fw3] (loop_body "FGT_v7.4.1.out" "v7.4.1") (start healthy)
  = for_each [fw3] (loop_body "FGT_v7.4.1.out" "v7.4.1")
      (add_lines [upload_exception_line "fw1" "10.0.0.1" OSError]
         (add_lines [started_line "fw1" "FGT_v7.4.1.out"]
            (fst (save_configuration "fw1" "10.0.0.1" "tok1"
                    (listed "fw1" "10.0.0.1" "tok1" (VStr "v7.2.5")
                       (map candidate_of [entry_741; entry_728]) (start healthy)))))).
Proof.
  apply (upload_exception_is_isolated "FGT_v7.4.1.out" "v7.4.1" fw1 [fw3]
           "fw1" "10.0.0.1" "tok1" (start healthy) firmware_answer
           (VStr "v7.2.5") (map candidate_of [entry_741; entry_728])
           (candidate_of entry_741)
           (fst (save_configuration "fw1" "10.0.0.1" "tok1"
                   (listed "fw1" "10.0.0.1" "tok1" (VStr "v7.2.5")
                      (map candidate_of [entry_741; entry_728]) (start healthy))))
           VNone
           (add_lines [started_line "fw1" "FGT_v7.4.1.out"]
              (fst (save_configuration "fw1" "10.0.0.1" "tok1"
                      (listed "fw1" "10.0.0.1" "tok1" (VStr "v7.2.5")
                         (map candidate_of [entry_741; entry_728]) (start healthy)))))
           OSError).
  - repeat split; try reflexivity; discriminate.
  - reflexivity.
  - reflexivity.
  - vm_compute. reflexivity.
  - vm_compute. reflexivity.
  - vm_compute. reflexivity.
  - vm_compute. reflexivity.
Defined.

Lemma backup_exception_ends_run_witness :
  for_each [fw1; fw3] (loop_body image "v7.4.1") (start backup_silent)
  = (add_sent [backup_request "10.0.0.1" "tok1"]
       (listed "fw1" "10.0.0.1" "tok1" (VStr "v7.2.5")
          (map candidate_of [entry_741; entry_728]) (start backup_silent)),
     Raise RequestException).
Proof.
  apply (backup_exception_ends_run image "v7.4.1" fw1 [fw3] "fw1" "10.0.0.1" "tok1"
           (start backup_silent) firmware_answer (VStr "v7.2.5")
           (map candidate_of [entry_741; entry_728]) (candidate_of entry_741)).
  - repeat split; try reflexivity; discriminate.
  - reflexivity.
  - reflexivity.
  - vm_compute. reflexivity.
  - vm_compute. reflexivity.
  - left. split; reflexivity.
Defined.

Lemma missing_column_ends_run_witness :
  for_each [fw1_no_token; fw3] (loop_body image "v7.4.1") (start healthy)
  = (start healthy, Raise KeyError).
Proof.
  apply (missing_column_ends_run image "v7.4.1" fw1_no_token [fw3] (start healthy)).
  right. right. reflexivity.
Defined.

Lemma queries_follow_inventory_witness :
  exists k,
    (k <= length (devices [fw1; fw2_short; fw3]))%nat
    /\ queries (fst (for_each [fw1; fw2_short; fw3] (loop_body image "v7.4.1")
                       (start healthy)))
       = (rev (map query_of (take k (devices [fw1; fw2_short; fw3])))
          ++ queries (start healthy))%list
    /\ (snd (for_each [fw1; fw2_short; fw3] (loop_body image "v7.4.1") (start healthy))
        = Return tt ->
        k = length (devices [fw1; fw2_short; fw3])).
Proof.
  apply (queries_follow_inventory image "v7.4.1" [fw1; fw2_short; fw3] (start healthy)).
  apply surjective_pairing.
Defined.

(** The devices of that inventory, and the queries of the run. *)
Example inventory_devices :
  devices [fw1; fw2_short; fw3] = [("fw1", "10.0.0.1", "tok1"); ("fw3", "10.0.0.3", "tok3")]
  /\ queries (fst (for_each [fw1; fw2_short; fw3] (loop_body image "v7.4.1")
                     (start healthy)))
     = [query_request "10.0.0.3" "tok3"; query_request "10.0.0.1" "tok1"].
Proof. vm_compute. split; reflexivity. Qed.

Lemma main_writes_backups_only_witness :
  inventory_backup [fw1; fw3] "fw1-10.0.0.1-config-backup.conf".
Proof.
  apply (main_writes_backups_only [fw1; fw3] (start healthy)
           (fst (main [fw1; fw3] (start healthy)))
           (snd (main [fw1; fw3] (start healthy)))).
  - apply surjective_pairing.
  - vm_compute. discriminate.
Defined.

Lemma main_tokens_to_own_device_witness :
  exists reqs,
    sent (fst (main [fw1; fw3] (start healthy)))
    = (reqs ++ sent (start healthy))%list
    /\ Forall (to_inventory [fw1; fw3]) reqs.
Proof.
  apply (main_tokens_to_own_device [fw1; fw3] (start healthy) _
           (snd (main [fw1; fw3] (start healthy)))).
  apply surjective_pairing.
Defined.

Lemma main_failure_modes_witness :
  TypeError = SystemExit 1 \/ TypeError = EOFError \/ TypeError = KeyError
  \/ TypeError = TypeError \/ TypeError = RequestException \/ TypeError = OSError
  \/ TypeError = ValueError.
Proof.
  apply (main_failure_modes [fw1; fw3] (start first_fails)
           (fst (main [fw1; fw3] (start first_fails)))).
  vm_compute. reflexivity.
Defined.

(** Each of the seven ways [main] can end, by running it.  The last two
    are the [ValueError] of a backup whose text the encoding of the platform
    cannot write, and of a device name with a NUL character. *)
Example main_failures :
  snd (main [fw1] (console_of ["firmware_image.out"] healthy)) = Raise (SystemExit 1)
  /\ snd (main [fw1] (console_of [] healthy)) = Raise EOFError
  /\ snd (main [fw1_no_token] (start healthy)) = Raise KeyError
  /\ snd (main [fw1] (start first_fails)) = Raise TypeError
  /\ snd (main [fw1] (start backup_silent)) = Raise RequestException
  /\ snd (main [fw1] (read_only healthy)) = Raise OSError
  /\ snd (main [fw1] (c_locale accented_backup)) = Raise ValueError
  /\ snd (main [fw_nul] (start healthy)) = Raise ValueError.
Proof. vm_compute. repeat split; reflexivity. Qed.

Lemma firmware_listing_witness :
  print_firmware_options (VStr "v7.2.5") (VList (map candidate_of [entry_741; entry_728]))
    (start healthy)
  = (add_lines (options_lines (VStr "v7.2.5") (map candidate_of [entry_741; entry_728]))
       (start healthy),
     Return tt)
  /\ print_firmware_options VNone VNone (start healthy)
     = (add_lines [current_line VNone; header_line] (start healthy), Raise TypeError).
Proof.
  split.
  - apply (proj1 firmware_listing).
    repeat constructor; eexists; reflexivity.
  - apply (proj2 firmware_listing). exact I.
Defined.

Lemma get_available_firmware_returns_witness :
  get_available_firmware "10.0.0.1" "tok1" (start healthy)
  = (add_sent [query_request "10.0.0.1" "tok1"] (start healthy),
     Return (VStr "v7.2.5",
             VList (map candidate_of
                      (List.filter complete [entry_741; entry_740; entry_728; entry_700])))).
Proof.
  apply (get_available_firmware_returns "10.0.0.1" "tok1" (start healthy)
           firmware_answer firmware_body
           (VDict (list_to_map
                     [("current", VDict {[ "version" := VStr "v7.2.5" ]});
                      ("available",
                       VList [entry_741; entry_740; entry_728; entry_700])]))
           (VDict {[ "version" := VStr "v7.2.5" ]})).
  - reflexivity.
  - reflexivity.
  - reflexivity.
  - reflexivity.
  - reflexivity.
  - reflexivity.
  - reflexivity.
  - repeat constructor.
Defined.

Lemma parse_version_idempotent_witness :
  parse_version_from_filename "v7.4.1" = Some "v7.4.1".
Proof.
  apply (parse_version_idempotent image "v7.4.1"). reflexivity.
Defined.

Lemma upload_payload_witness :
  exists name,
    sent (fst (upload_firmware "10.0.0.1" "tok1" image_path staged))
    = {| meth := POST;
         url := [Txt ("https://" +:+ "10.0.0.1"
                      +:+ "/api/v2/monitor/system/firmware/upgrade")];
         headers := <["Authorization" := "Bearer " +:+ "tok1"]>
                      {[ "Content-Type" := "application/json" ]};
         json_data :=
           Some (VDict (list_to_map
                          [("source", VStr "upload");
                           ("file_content", VStr (b64encode "IMAGE"));
                           ("filename", VStr name)])) |} :: sent staged
    /\ no_slash name = true
    /\ (image_path = name \/ exists dir, image_path = dir +:+ "/" +:+ name)
    /\ (forall other,
          no_slash other = true ->
          image_path = other \/ (exists dir, image_path = dir +:+ "/" +:+ other) ->
          other = name)
    /\ String.length (b64encode "IMAGE") = (4 * ((String.length "IMAGE" + 2) / 3))%nat
    /\ files (fst (upload_firmware "10.0.0.1" "tok1" image_path staged)) = files staged.
Proof.
  apply (upload_payload "10.0.0.1" "tok1" image_path "IMAGE" staged _
           (snd (upload_firmware "10.0.0.1" "tok1" image_path staged))).
  - reflexivity.
  - apply surjective_pairing.
Defined.

(** The payload of that upload. *)
Example image_payload :
  basename image_path = "FGT_v7.4.1.out"
  /\ b64encode "IMAGE" = "SU1BR0U=".
Proof. vm_compute. split; reflexivity. Qed.

End UpgradePropertyExamples.

Section SdwanPropertyExamples.
Import Sdwan SdwanSpec Demo.

(** What [validateIpv4] accepts and what it refuses: a missing octet, an
    octet above 255, a leading zero, a prefix length, a space, a host
    name, the empty string. *)
Example validateIpv4_examples :
  validateIpv4 "192.0.2.1" = true
  /\ validateIpv4 "0.0.0.0" = true
  /\ validateIpv4 "255.255.255.255" = true
  /\ validateIpv4 "192.0.2" = false
  /\ validateIpv4 "192.0.2.256" = false
  /\ validateIpv4 "192.0.2.01" = false
  /\ validateIpv4 "192.0.2.1/24" = false
  /\ validateIpv4 " 192.0.2.1" = false
  /\ validateIpv4 "192.0.2.1." = false
  /\ validateIpv4 "fortigate.local" = false
  /\ validateIpv4 "" = false
  /\ dotted_quad 192 0 2 1 = "192.0.2.1".
Proof. vm_compute. repeat split; reflexivity. Qed.

Lemma getUserInput_valid_witness :
  sent (fst (getUserInput (console_of operator healthy)))
  = sent (console_of operator healthy)
  /\ files (fst (getUserInput (console_of operator healthy)))
     = files (console_of operator healthy)
  /\ match snd (getUserInput (console_of operator healthy)) with
     | Return (base_url, _, internet_gateway_ip) =>
         (exists management_ip,
            validateIpv4 management_ip = true
            /\ base_url = "https://" +:+ management_ip +:+ "/api/v2")
         /\ validateIpv4 internet_gateway_ip = true
     | Raise e => e = EOFError /\ stdin (fst (getUserInput (console_of operator healthy))) = []
     end.
Proof.
  apply (getUserInput_valid (console_of operator healthy)).
  apply surjective_pairing.
Defined.

Lemma getUserInput_reprompts_witness :
  getUserInput (console_of operator healthy)
  = (read_to []
       (add_lines
          (Ask gateway_prompt :: reprompts gateway_prompt ["192.0.2.300"]
           ++ Ask wan_prompt :: Ask management_prompt
           :: reprompts management_prompt ["fortigate.local"])
          (console_of operator healthy)),
     Return ("https://" +:+ "192.0.2.1" +:+ "/api/v2", "wan1", "192.0.2.254")).
Proof.
  apply (getUserInput_reprompts (console_of operator healthy)
           ["fortigate.local"] "192.0.2.1" "wan1" ["192.0.2.300"] "192.0.2.254" []).
  - reflexivity.
  - repeat constructor.
  - reflexivity.
  - repeat constructor.
  - reflexivity.
Defined.

(** Without a valid address the prompt is repeated until the input ends. *)
Example getUserInput_eof :
  getUserInput (console_of ["fortigate.local"; "10.0.0"] healthy)
  = (add_lines [Ask management_prompt; invalid_line; Ask management_prompt;
                invalid_line; Ask management_prompt]
       (console_of [] healthy),
     Raise EOFError).
Proof. vm_compute. reflexivity. Qed.

Lemma main_stops_without_vdom_witness :
  main (Some "key") (console_of operator refusing)
  = (fst (getTrafficVdomName base (api_headers (Some "key"))
            (fst (getUserInput (console_of operator refusing)))),
     Raise UnboundLocalError)
  /\ sent (fst (getTrafficVdomName base (api_headers (Some "key"))
                  (fst (getUserInput (console_of operator refusing)))))
     = vdom_request base (api_headers (Some "key"))
       :: sent (console_of operator refusing).
Proof.
  apply (main_stops_without_vdom (Some "key") (console_of operator refusing)
           (fst (getUserInput (console_of operator refusing))) _ base "wan1" "192.0.2.254").
  - vm_compute. reflexivity.
  - vm_compute. reflexivity.
Defined.

Lemma main_stages_go_on_witness :
  main (Some "key") (console_of operator put_refused)
  = configureDefaultRoute base (api_headers (Some "key")) (VStr "traffic")
      (add_lines [member_line "wan1" (answer 500 "" None);
                  zone_line (answer 500 "" None)]
         (add_sent [member_request base (api_headers (Some "key")) (VStr "traffic")
                      "wan1" "192.0.2.254";
                    zone_request base (api_headers (Some "key")) (VStr "traffic")]
            (fst (getTrafficVdomName base (api_headers (Some "key"))
                    (fst (getUserInput (console_of operator put_refused))))))).
Proof.
  apply (main_stages_go_on (Some "key") (console_of operator put_refused)
           (fst (getUserInput (console_of operator put_refused))) _
           base "wan1" "192.0.2.254" (VStr "traffic")
           (answer 500 "" None) (answer 500 "" None)).
  - vm_compute. reflexivity.
  - vm_compute. reflexivity.
  - reflexivity.
  - reflexivity.
Defined.

(** The whole run against that device: the two refused PUTs are reported
    and the default route is created all the same. *)
Example main_put_refused :
  let '(w', o) := main (Some "key") (console_of operator put_refused) in
  o = Return tt
  /\ sent w'
     = [create_request base (api_headers (Some "key")) (VStr "traffic");
        routes_request base (api_headers (Some "key")) (VStr "traffic");
        member_request base (api_headers (Some "key")) (VStr "traffic")
          "wan1" "192.0.2.254";
        zone_request base (api_headers (Some "key")) (VStr "traffic");
        vdom_request base (api_headers (Some "key"))]
  /\ In (Line [Txt "Failed to create Internet SD-WAN zone. Status code: "; Fmt (VInt 500)])
        (console w')
  /\ In (Line [Txt "Default route set on the Internet SD-WAN zone successfully."])
        (console w').
Proof.
  vm_compute. repeat split; try reflexivity;
    repeat first [left; reflexivity | right].
Qed.

(** Without the environment variable the requests carry the text of
    [None] as their token. *)
Example main_without_api_key :
  headers (vdom_request base (api_headers None)) !! "Authorization" = Some "Bearer None"
  /\ sent (fst (main None (console_of operator refusing)))
     = [vdom_request base (api_headers None)].
Proof. vm_compute. split; reflexivity. Qed.

Lemma main_addressed_witness :
  exists reqs,
    sent (fst (main (Some "key") (console_of operator put_refused)))
    = (reqs ++ sent (console_of operator put_refused))%list
    /\ (reqs = []
        \/ exists management_ip,
             validateIpv4 management_ip = true
             /\ Forall (addressed ("https://" +:+ management_ip +:+ "/api/v2")
                          (api_headers (Some "key"))) reqs).
Proof.
  apply (main_addressed (Some "key") (console_of operator put_refused) _
           (snd (main (Some "key") (console_of operator put_refused)))).
  apply surjective_pairing.
Defined.

Lemma vdom_answer_outside_menu_witness :
  (exists name,
     [VStr "root"; VStr "traffic"; VStr "dmz"] !! Z.to_nat (0 - 1 + 3) = Some name
     /\ getTrafficVdomName base auth (console_of ["0"] (serving three_vdoms))
        = (add_lines [set_line name]
             (asked base auth [VStr "root"; VStr "traffic"; VStr "dmz"] []
                (console_of ["0"] (serving three_vdoms))),
           Return name))
  /\ getTrafficVdomName base auth (console_of ["4"] (serving three_vdoms))
     = (asked base auth [VStr "root"; VStr "traffic"; VStr "dmz"] []
          (console_of ["4"] (serving three_vdoms)),
        Raise IndexError).
Proof.
  split.
  - apply (proj1 (vdom_answer_outside_menu base auth
             (console_of ["0"] (serving three_vdoms)) (answer 200 "" (Some three_vdoms))
             three_vdoms
             [vdom_named "root"; vdom_named "traffic"; vdom_named "dmz"]
             [VStr "root"; VStr "traffic"; VStr "dmz"] "0" [] 0
             eq_refl eq_refl eq_refl eq_refl ltac:(simpl; lia)
             ltac:(repeat constructor) eq_refl ltac:(vm_compute; reflexivity))).
    simpl. lia.
  - apply (proj2 (vdom_answer_outside_menu base auth
             (console_of ["4"] (serving three_vdoms)) (answer 200 "" (Some three_vdoms))
             three_vdoms
             [vdom_named "root"; vdom_named "traffic"; vdom_named "dmz"]
             [VStr "root"; VStr "traffic"; VStr "dmz"] "4" [] 4
             eq_refl eq_refl eq_refl eq_refl ltac:(simpl; lia)
             ltac:(repeat constructor) eq_refl ltac:(vm_compute; reflexivity))).
    right. simpl. lia.
Defined.

End SdwanPropertyExamples.
